(** * hpcbench: campaign execution and post-processing

    A shallow embedding of [hpcbench/driver.py] and of the helpers of
    [hpcbench/api.py] it relies on, followed by the properties of the
    resumable execution engine.

    Conventions of the embedding:
    - Python values (what YAML documents hold) are the inductive [value];
      a [dict] is an association list in insertion order, with the update
      discipline of Python dictionaries (assignment to an existing key keeps
      its position, a new key goes last).
    - The file system is a finite map from path strings to files; the
      current working directory, the clock, the number of UUIDs drawn and
      the log of spawned processes complete the [world].
    - Code that raises is a computation in the state-and-error monad [M].
    - What the program takes from its surroundings (random UUIDs, the
      processes it spawns, the wall clock, the plugin registry, ...) is
      the record [Env]. *)

From stdpp Require Import base strings list gmap pretty.
From Stdlib Require Import Ascii QArith.

Local Open Scope string_scope.
Local Open Scope list_scope.
Local Open Scope Z_scope.

(** ** Python values *)

#[local] Unset Elimination Schemes.
Inductive value : Type :=
| VNone
| VBool (b : bool)
| VInt (z : Z)
| VFloat (q : Q)
| VStr (s : string)
| VList (l : list value)
| VDict (d : list (string * value)).
#[local] Set Elimination Schemes.

Abbreviation dict := (list (string * value)).

(** The classes of the values above, and [object]. *)
Inductive pytype : Type :=
| TObject | TNoneType | TBool | TInt | TFloat | TStr | TList | TDict.

Global Instance pytype_eq_dec : EqDecision pytype.
Proof. solve_decision. Defined.

Definition type_of (v : value) : pytype :=
  match v with
  | VNone => TNoneType
  | VBool _ => TBool
  | VInt _ => TInt
  | VFloat _ => TFloat
  | VStr _ => TStr
  | VList _ => TList
  | VDict _ => TDict
  end.

(** [issubclass]: every class derives from [object], [bool] from [int]. *)
Definition issubclass (a b : pytype) : bool :=
  bool_decide (a = b) || bool_decide (b = TObject)
  || (bool_decide (a = TBool) && bool_decide (b = TInt)).

Definition isinstance (v : value) (t : pytype) : bool :=
  issubclass (type_of v) t.

(** Truth value of an object, as tested by [if x:] and [not x]. *)
Definition truthy (v : value) : bool :=
  match v with
  | VNone => false
  | VBool b => b
  | VInt z => negb (z =? 0)
  | VFloat q => negb (Qeq_bool q 0)
  | VStr s => negb (bool_decide (s = ""))
  | VList l => match l with [] => false | _ :: _ => true end
  | VDict d => match d with [] => false | _ :: _ => true end
  end.

(** ** Dictionaries *)

Section Dict.
Context {A : Type}.

Fixpoint dict_get (k : string) (d : list (string * A)) : option A :=
  match d with
  | [] => None
  | (k', v) :: d' => if bool_decide (k' = k) then Some v else dict_get k d'
  end.

Definition dict_contains (k : string) (d : list (string * A)) : bool :=
  match dict_get k d with Some _ => true | None => false end.

(** [d[k] = v] *)
Fixpoint dict_set (k : string) (v : A) (d : list (string * A))
  : list (string * A) :=
  match d with
  | [] => [(k, v)]
  | (k', v') :: d' =>
      if bool_decide (k' = k) then (k, v) :: d'
      else (k', v') :: dict_set k v d'
  end.

(** [d.pop(k, None)], the value dropped *)
Fixpoint dict_pop (k : string) (d : list (string * A))
  : list (string * A) :=
  match d with
  | [] => []
  | (k', v') :: d' =>
      if bool_decide (k' = k) then dict_pop k d'
      else (k', v') :: dict_pop k d'
  end.

(** [d.update(other)] *)
Definition dict_update (d other : list (string * A)) : list (string * A) :=
  fold_left (fun acc kv => dict_set kv.1 kv.2 acc) other d.

(** [d.setdefault(k, v)]: the dictionary afterwards and the value held *)
Definition dict_setdefault (k : string) (v : A) (d : list (string * A))
  : list (string * A) * A :=
  match dict_get k d with
  | Some x => (d, x)
  | None => (dict_set k v d, v)
  end.
End Dict.

(** ** Paths ([posixpath]) *)

Definition startswith_slash (s : string) : bool :=
  match s with
  | String c _ => bool_decide (c = "/"%char)
  | EmptyString => false
  end.

Fixpoint endswith_slash (s : string) : bool :=
  match s with
  | EmptyString => false
  | String c EmptyString => bool_decide (c = "/"%char)
  | String _ s' => endswith_slash s'
  end.

(** [os.path.join(a, b)] *)
Definition osp_join (a b : string) : string :=
  if startswith_slash b then b
  else if bool_decide (a = "") || endswith_slash a then a +:+ b
  else a +:+ "/" +:+ b.

Definition YAML_REPORT_FILE : string := "hpcbench.yaml".
Definition YAML_CAMPAIGN_FILE : string := "campaign.yaml".
Definition JSON_METRICS_FILE : string := "metrics.json".

(** ** [hpcbench.api] *)

(** [Metric = namedtuple("Metric", "unit type")] *)
Record Metric : Type := { unit : string; type : pytype }.

Module Metrics.
Definition Milisecond : Metric := {| unit := "ms"; type := TFloat |}.
Definition Second : Metric := {| unit := "s"; type := TFloat |}.
End Metrics.

Module MetricsExtractor.
(** [MetricsExtractor.stdout(outdir)] *)
Definition stdout (outdir : string) : string :=
  osp_join outdir "stdout.txt".

(** [MetricsExtractor.stderr(outdir)] *)
Definition stderr (outdir : string) : string :=
  osp_join outdir "sterrr.txt".
End MetricsExtractor.

(** ** Regular expressions

    The fragment of Python's [re] syntax that host patterns use, with the
    meaning of [pattern.match(s)]: some prefix of [s] is matched, starting
    at position 0.  [RBol] is [^]; [RAny] is [.], which refuses a newline. *)

Inductive regex : Type :=
| RFail
| REps
| RBol
| RChar (c : ascii)
| RAny
| RSeq (r1 r2 : regex)
| RAlt (r1 r2 : regex)
| RStar (r : regex).

(** Does [r] match the empty string here ([bol]: we are at position 0)? *)
Fixpoint nullable (bol : bool) (r : regex) : bool :=
  match r with
  | RFail => false
  | REps => true
  | RBol => bol
  | RChar _ => false
  | RAny => false
  | RSeq r1 r2 => nullable bol r1 && nullable bol r2
  | RAlt r1 r2 => nullable bol r1 || nullable bol r2
  | RStar _ => true
  end.

(** What remains of [r] to be matched once [c] has been read. *)
Fixpoint deriv (bol : bool) (c : ascii) (r : regex) : regex :=
  match r with
  | RFail | REps | RBol => RFail
  | RChar c' => if bool_decide (c' = c) then REps else RFail
  | RAny => if bool_decide (c = "010"%char) then RFail else REps
  | RSeq r1 r2 =>
      if nullable bol r1
      then RAlt (RSeq (deriv bol c r1) r2) (deriv bol c r2)
      else RSeq (deriv bol c r1) r2
  | RAlt r1 r2 => RAlt (deriv bol c r1) (deriv bol c r2)
  | RStar r' => RSeq (deriv bol c r') (RStar r')
  end.

Fixpoint match_from (bol : bool) (r : regex) (s : string) : bool :=
  nullable bol r ||
  match s with
  | EmptyString => false
  | String c s' => match_from false (deriv bol c r) s'
  end.

(** [r.match(s)] is not [None] *)
Definition re_match (r : regex) (s : string) : bool := match_from true r s.

(** The characters of [s] in sequence. *)
Fixpoint re_literal (s : string) : regex :=
  match s with
  | EmptyString => REps
  | String c s' => RSeq (RChar c) (re_literal s')
  end.

(** ** Results and exceptions *)

Inductive exn : Type :=
| Exception (msg : string)
| KeyError (key : string)
| NameError (msg : string)
| AttributeError (msg : string)
| TypeError (msg : string)
| IOError (path : string)
| OSError (msg : string)
| ValueError (msg : string).

Inductive res (A : Type) : Type :=
| Ok (a : A)
| Raise (e : exn).
Arguments Ok {A} a.
Arguments Raise {A} e.

Definition res_bind {A B} (r : res A) (f : A -> res B) : res B :=
  match r with
  | Ok a => f a
  | Raise e => Raise e
  end.

(** [d[k]] *)
Definition dict_item {A} (k : string) (d : list (string * A)) : res A :=
  match dict_get k d with
  | Some v => Ok v
  | None => Raise (KeyError k)
  end.

(** ** The campaign, its benchmarks and the world they run in *)

Inductive file : Type :=
| FYaml (doc : value)
| FText (text : string).

(** One call of [subprocess.Popen]: what was spawned, where, and with
    which environment ([None]: the ambient one). *)
Record spawn : Type :=
  { sp_command : value; sp_cwd : string; sp_env : option dict }.

Record world : Type :=
  { fs : gmap string file;
    cwd : string;
    clock : nat;
    uuids : nat;
    spawned : list spawn;
    plotted : list (value * string) }.

(** What a spawned command did by the time [wait()] returns. *)
Record process : Type :=
  { exit_status : Z; out : string; err : string; duration : nat }.

(** A [MetricsExtractor] instance: its declarations, and [extract], which
    may read the files of the run. *)
Record Extractor : Type :=
  { metrics : list (string * Metric);
    extract : string -> value -> gmap string file -> res dict }.

(** A value of [metrics_extractors]: one extractor, or a list of them. *)
Inductive extractors : Type :=
| One (e : Extractor)
| Many (l : list Extractor).

(** A [Benchmark] instance. [pre_execute] is the one of the base class,
    which does nothing. *)
Record Benchmark : Type :=
  { name : string;
    description : string;
    execution_matrix : list dict;
    metrics_extractors : list (string * extractors);
    plots : list (string * list value) }.

(** The value of a tag association rule: a compiled pattern, a set of host
    names, or something else. *)
Inductive kconfig : Type :=
| KPattern (r : regex)
| KNodes (hosts : list string)
| KOther (v : value).

Record Network : Type :=
  { tags : list (string * list (list (string * kconfig))) }.

(** The configuration object [hpcbench.campaign.from_file] returns. *)
Record Campaign : Type :=
  { output_dir : string;
    network : Network;
    benchmarks : list (string * list (string * dict)) }.

(** The surroundings of the program. *)
Record Env : Type :=
  { (** the n-th draw of [str(uuid.uuid4())] *)
    uuid4 : nat -> string;
    (** the n-th process spawned: command, environment, directory and
        files at that time; [None] when [Popen] cannot start it *)
    Popen : nat -> value -> option dict -> string -> gmap string file
            -> option process;
    (** [datetime.isoformat] of a clock reading *)
    isoformat : nat -> string;
    (** [datetime.strftime] of a clock reading *)
    strftime : nat -> string -> string;
    (** [str] of floats and containers *)
    py_repr : value -> string;
    (** the order in which a set of strings is iterated *)
    set_iter : list string -> list string;
    (** [json.dump(data, indent=2)] *)
    json_dump : value -> string;
    (** [json.load] of a text: the document, or [None] when the text is
        not JSON *)
    json_load : string -> option value;
    (** [socket.gethostname()] *)
    gethostname : string;
    (** [os.environ] *)
    environ : dict;
    (** [Benchmark.__subclasses__()]: the [name] of each class and what
        instantiating it with given [attributes] yields *)
    subclasses : list (string * (value -> Benchmark));
    (** [hpcbench.campaign.from_file] *)
    from_file : string -> gmap string file -> res Campaign }.

(** ** The state-and-error monad *)

Definition M (A : Type) : Type := world -> res (A * world).

Definition ret {A} (a : A) : M A := fun w => Ok (a, w).

Definition bind {A B} (m : M A) (f : A -> M B) : M B :=
  fun w =>
    match m w with
    | Ok (a, w') => f a w'
    | Raise e => Raise e
    end.

Definition raise {A} (e : exn) : M A := fun _ => Raise e.

Definition lift {A} (r : res A) : M A :=
  fun w => match r with Ok a => Ok (a, w) | Raise e => Raise e end.

Notation "'let*' x := e 'in' f" := (bind e (fun x => f))
  (at level 10, x name, e at level 100, f at level 200).
Notation "e1 ;; e2" := (bind e1 (fun _ => e2))
  (at level 100, e2 at level 200, right associativity).

(** [for x in l: body(x)] *)
Fixpoint for_each {A} (l : list A) (body : A -> M Datatypes.unit)
  : M Datatypes.unit :=
  match l with
  | [] => ret tt
  | x :: l' => body x ;; for_each l' body
  end.

(** The outcome is an exception. *)
Definition raises {A} (r : res A) : bool :=
  match r with Ok _ => false | Raise _ => true end.

(** ** File system, directory and clock primitives *)

Definition with_fs (f : gmap string file) (w : world) : world :=
  {| fs := f; cwd := cwd w; clock := clock w; uuids := uuids w;
     spawned := spawned w; plotted := plotted w |}.

Definition with_cwd (d : string) (w : world) : world :=
  {| fs := fs w; cwd := d; clock := clock w; uuids := uuids w;
     spawned := spawned w; plotted := plotted w |}.

(** The absolute path a path names in [w]. *)
Definition resolve (w : world) (path : string) : string :=
  osp_join (cwd w) path.

(** [os.getcwd()] *)
Definition getcwd : M string := fun w => Ok (cwd w, w).

(** [os.path.isfile(path)] *)
Definition isfile (path : string) : M bool :=
  fun w => Ok (bool_decide (is_Some (fs w !! resolve w path)), w).

(** [yaml.load(open(path))] *)
Definition yaml_load (path : string) : M value :=
  fun w =>
    match fs w !! resolve w path with
    | Some (FYaml doc) => Ok (doc, w)
    | Some (FText _) => Raise (Exception "YAMLError")
    | None => Raise (IOError (resolve w path))
    end.

(** [yaml.dump(doc, open(path, 'w'))] *)
Definition yaml_dump (path : string) (doc : value) : M Datatypes.unit :=
  fun w => Ok (tt, with_fs (<[resolve w path := FYaml doc]> (fs w)) w).

(** [open(path, 'w').write(text)] *)
Definition write_text (path text : string) : M Datatypes.unit :=
  fun w => Ok (tt, with_fs (<[resolve w path := FText text]> (fs w)) w).

(** [open(path).read()] *)
Definition read_text (path : string) : M string :=
  fun w =>
    match fs w !! resolve w path with
    | Some (FText text) => Ok (text, w)
    | Some (FYaml _) => Raise (Exception "not a text file")
    | None => Raise (IOError (resolve w path))
    end.

(** Modelled from the spec: [toolbox.contextlib_ext.pushd], which is not
    among the sources.  The node changes into the directory for the
    duration of the body and restores the previous directory afterwards;
    with [mkdir] the directory is created when absent and an existing one
    is accepted.  Directories are implicit in the path-keyed file map, so
    entering one never fails. *)
Definition pushd {A} (path : string) (mkdir : bool) (body : M A) : M A :=
  fun w =>
    match body (with_cwd (osp_join (cwd w) path) w) with
    | Ok (a, w') => Ok (a, with_cwd (cwd w) w')
    | Raise e => Raise e
    end.

(** The clock reading, as [datetime.datetime.now()] takes it. *)
Definition now : M nat := fun w => Ok (clock w, w).

(** Modelled from the spec: [toolbox.contextlib_ext.Timer], which is not
    among the sources.  Its [elapsed] is the time that passed between the
    entry into the block, at clock reading [start], and its exit, at
    [finish]. *)
Definition Timer_elapsed (start finish : nat) : value :=
  VFloat (inject_Z (Z.of_nat (finish - start))).

Section Driver.
Variable E : Env.

(** [str(uuid.uuid4())] *)
Definition fresh_uuid : M string :=
  fun w =>
    Ok (uuid4 E (uuids w),
        {| fs := fs w; cwd := cwd w; clock := clock w;
           uuids := S (uuids w); spawned := spawned w;
           plotted := plotted w |}).

(** [str(x)] *)
Definition str (x : value) : string :=
  match x with
  | VStr s => s
  | VNone => "None"
  | VBool true => "True"
  | VBool false => "False"
  | VInt z => pretty z
  | (VFloat _ | VList _ | VDict _) => py_repr E x
  end.

(** *** [write_yaml_report]

    [func] is the decorated function applied to its arguments; a
    generator function is the computation that runs the generator to
    its end and returns what it yielded as a list, which is how the
    wrapper consumes it. *)
Definition write_yaml_report (func : M value) (kwargs : dict) : M dict :=
  let* date := now in
  let* data := func in
  let* report :=
    match data with
    | VList l => ret [("children", VList (map (fun x => VStr (str x)) l))]
    | VDict d => ret d
    | _ => raise (Exception "Unexpected data type")
    end in
  let* finish := now in
  let report := dict_set "elapsed" (Timer_elapsed date finish) report in
  let report := dict_set "date" (VStr (isoformat E date)) report in
  (if negb (dict_contains "no_exec" kwargs)
   then yaml_dump YAML_REPORT_FILE (VDict report)
   else ret tt) ;;
  ret report.

(** *** [ExecutionDriver] *)

(** [subprocess.Popen(command, stdout=..., stderr=..., env=...)] followed
    by [process.wait()]: the command is logged, its output lands in the
    two files opened for it, and time passes.  The other files a command
    may leave in its directory are not part of the file map. *)
Definition Popen_wait (command : value) (env : option dict)
           (stdout stderr : string) : M Z :=
  fun w =>
    match Popen E (List.length (spawned w)) command env (cwd w) (fs w) with
    | None => Raise (OSError "cannot execute")
    | Some p =>
        Ok (exit_status p,
            {| fs := <[resolve w stderr := FText (err p)]>
                       (<[resolve w stdout := FText (out p)]> (fs w));
               cwd := cwd w;
               clock := (clock w + duration p)%nat;
               uuids := uuids w;
               spawned := spawned w ++
                 [{| sp_command := command; sp_cwd := cwd w;
                     sp_env := env |}];
               plotted := plotted w |})
    end.

(** What iterating over a value yields: the elements of a list, the
    characters of a string, the keys of a dictionary. *)
Definition iterate (v : value) : res (list value) :=
  match v with
  | VList l => Ok l
  | VStr s => Ok (map (fun c => VStr (String c EmptyString))
                      (String.list_ascii_of_string s))
  | VDict d => Ok (map (fun item => VStr item.1) d)
  | _ => Raise (TypeError "object is not iterable")
  end.

(** [env[key] = value] on a copy of [os.environ], which holds strings
    only. *)
Definition setenv (key value : value) (env : dict) : res dict :=
  match key, value with
  | VStr k, VStr v => Ok (dict_set k (VStr v) env)
  | _, _ => Raise (TypeError "str expected")
  end.

(** [env.update(custom_env)] on a copy of [os.environ]: the items of a
    mapping, or else the pairs of a sequence, are assigned in order. *)
Fixpoint setenv_items (items : dict) (env : dict) : res dict :=
  match items with
  | [] => Ok env
  | (k, v) :: rest =>
      res_bind (setenv (VStr k) v env) (setenv_items rest)
  end.

Fixpoint setenv_pairs (pairs : list value) (env : dict) : res dict :=
  match pairs with
  | [] => Ok env
  | element :: rest =>
      res_bind (iterate element) (fun items =>
        match items with
        | [k; v] => res_bind (setenv k v env) (setenv_pairs rest)
        | _ => Raise (ValueError "dictionary update sequence element")
        end)
  end.

Definition environ_update (custom_env : value) (env : dict) : res dict :=
  match custom_env with
  | VDict d => setenv_items d env
  | _ => res_bind (iterate custom_env) (fun pairs => setenv_pairs pairs env)
  end.

(** The [env] keyword of [Popen]: absent unless the entry has a true
    [environment], else a copy of [os.environ] updated with it. *)
Definition custom_environment (execution : dict) : res (option dict) :=
  match dict_get "environment" execution with
  | None => Ok None
  | Some custom_env =>
      if truthy custom_env then
        res_bind (environ_update custom_env (environ E))
                 (fun env => Ok (Some env))
      else Ok None
  end.

Definition ExecutionDriver_body (benchmark : Benchmark) (execution : dict)
  : M value :=
  (* self.benchmark.pre_execute() *)
  write_text "stdout.txt" "" ;;
  write_text "stderr.txt" "" ;;
  let* env := lift (custom_environment execution) in
  let* command := lift (dict_item "command" execution) in
  let* exit_status := Popen_wait command env "stdout.txt" "stderr.txt" in
  let report :=
    [("exit_status", VInt exit_status);
     ("benchmark", VStr (name benchmark))] in
  ret (VDict (dict_update report execution)).

Definition ExecutionDriver_call (benchmark : Benchmark) (execution : dict)
           (kwargs : dict) : M dict :=
  write_yaml_report (ExecutionDriver_body benchmark execution) kwargs.

(** *** [MetricsDriver] *)

(** [MetricsDriver.__init__]: the report of the run directory *)
Definition MetricsDriver_init : M value := yaml_load YAML_REPORT_FILE.

Fixpoint MetricsDriver_check_metrics (extractor : Extractor)
         (items : dict) : res Datatypes.unit :=
  match items with
  | [] => Ok tt
  | (metric_name, v) :: rest =>
      match dict_get metric_name (metrics extractor) with
      | None =>
          Raise (Exception
                   ("Unexpected metric '" +:+ metric_name +:+ "' returned"))
      | Some metric =>
          if isinstance v (type metric)
          then MetricsDriver_check_metrics extractor rest
          else Raise (Exception
                        ("Unexpected type for metrics " +:+ metric_name))
      end
  end.

(** [if not isinstance(extractors, list): extractors = [extractors]] *)
Definition extractor_list (x : extractors) : list Extractor :=
  match x with
  | One e => [e]
  | Many l => l
  end.

(** [metrics.setdefault(cat, []).append(run_metrics)] *)
Definition append_metrics (cat : string) (run_metrics : dict)
           (metrics : dict) : res dict :=
  match dict_setdefault cat (VList []) metrics with
  | (metrics', VList l) =>
      Ok (dict_set cat (VList (l ++ [VDict run_metrics])) metrics')
  | _ => Raise (AttributeError "append")
  end.

(** The loop over the extractors of the category; [metrics] is the
    dictionary held under ['metrics'] in the report. *)
Fixpoint extract_all (extractors : list Extractor) (cat : string)
         (metas : value) (metrics : dict) : M dict :=
  match extractors with
  | [] => ret metrics
  | extractor :: rest =>
      let* outdir := getcwd in
      let* run_metrics :=
        (fun w => lift (extract extractor outdir metas (fs w)) w) in
      lift (MetricsDriver_check_metrics extractor run_metrics) ;;
      let* metrics' := lift (append_metrics cat run_metrics metrics) in
      extract_all rest cat metas metrics'
  end.

Definition no_extractor {A} (cat : value) : M A :=
  raise (Exception ("No extractor for benchmark category " +:+ str cat)).

Definition MetricsDriver_body (benchmark : Benchmark) (doc : value)
  : M value :=
  match doc with
  | VDict report =>
      let all_extractors := metrics_extractors benchmark in
      match dict_get "category" report with
      | Some (VStr cat) =>
          match dict_get cat all_extractors with
          | None => no_extractor (VStr cat)
          | Some x =>
              match dict_setdefault "metrics" (VDict []) report with
              | (report', VDict metrics) =>
                  let metas := default VNone (dict_get "metas" report) in
                  let* metrics' :=
                    extract_all (extractor_list x) cat metas metrics in
                  ret (VDict (dict_set "metrics" (VDict metrics') report'))
              | _ => raise (AttributeError "setdefault")
              end
          end
      | Some (VList _ as cat) | Some (VDict _ as cat) =>
          raise (TypeError ("unhashable type: " +:+ str cat))
      | Some cat => no_extractor cat
      | None => no_extractor VNone
      end
  | _ => raise (AttributeError "get")
  end.

Definition MetricsDriver_call (benchmark : Benchmark) (kwargs : dict)
  : M dict :=
  let* report := MetricsDriver_init in
  write_yaml_report (MetricsDriver_body benchmark report) kwargs.

(** *** [BenchmarkCategoryDriver] *)

Definition nl : string := String "010"%char EmptyString.

(** [for metrics in metricss: gathered.update(metrics)]; the metric
    mappings are dictionaries, as [MetricsDriver] stores them. *)
Fixpoint merge_mappings (metricss : list value) (gathered : dict)
  : res dict :=
  match metricss with
  | [] => Ok gathered
  | VDict m :: rest => merge_mappings rest (dict_update gathered m)
  | _ :: _ => Raise (TypeError "update")
  end.

(** The loop over [data.get('metrics', {}).items()] *)
Fixpoint gather_categories (items : dict) (gathered_metrics : dict)
  : res dict :=
  match items with
  | [] => Ok gathered_metrics
  | (cat, VList metricss) :: rest =>
      res_bind (merge_mappings metricss [])
        (fun gathered =>
           gather_categories rest
             (dict_set cat (VDict gathered) gathered_metrics))
  | _ :: _ => Raise (TypeError "not a list of metric mappings")
  end.

(** What [gather_metrics] dumps for the run [run_dir] whose report is
    [doc]. *)
Definition gather_run (run_dir : string) (doc : value) : res dict :=
  match doc with
  | VDict data =>
      let data := dict_pop "category" data in
      let data := dict_pop "command" data in
      let data := dict_set "id" (VStr run_dir) data in
      res_bind
        (match dict_get "metrics" data with
         | None => Ok []
         | Some (VDict items) => Ok items
         | Some _ => Raise (AttributeError "items")
         end)
        (fun items =>
           res_bind (gather_categories items [])
             (fun gathered_metrics =>
                Ok (dict_set "metrics" (VDict gathered_metrics) data)))
  | _ => Raise (AttributeError "pop")
  end.

(** The text written between ['[\n'] and [']\n']. *)
Fixpoint gather_entries (run_dirs : list string) : M string :=
  match run_dirs with
  | [] => ret ""
  | run_dir :: rest =>
      let* doc := yaml_load (osp_join run_dir YAML_REPORT_FILE) in
      let* data := lift (gather_run run_dir doc) in
      let comma := match rest with [] => "" | _ :: _ => "," end in
      let* others := gather_entries rest in
      ret (json_dump E (VDict data) +:+ comma +:+ nl +:+ others)
  end.

Definition BenchmarkCategoryDriver_gather_metrics
           (runs : list (string * list string)) : M Datatypes.unit :=
  for_each runs
    (fun item =>
       let* entries := gather_entries item.2 in
       write_text JSON_METRICS_FILE ("[" +:+ nl +:+ entries +:+ "]" +:+ nl)).

(** [runs.setdefault(category, []).append(run_dir)] *)
Definition runs_append (category run_dir : string)
           (runs : list (string * list string))
  : list (string * list string) :=
  let '(runs', l) := dict_setdefault category [] runs in
  dict_set category (l ++ [run_dir]) runs'.

(** [execution.get('category') == category], for a string [category] *)
Definition in_category (category : string) (execution : dict) : bool :=
  match dict_get "category" execution with
  | Some (VStr c) => bool_decide (c = category)
  | _ => false
  end.

(** [execution.get('name') or ''], as a path component *)
Definition run_name (execution : dict) : res string :=
  match dict_get "name" execution with
  | None => Ok ""
  | Some v =>
      if truthy v then
        match v with
        | VStr s => Ok s
        | _ => Raise (TypeError "join: not a string")
        end
      else Ok ""
  end.

(** [osp.join(name, str(uuid.uuid4()))] *)
Definition new_run_dir (execution : dict) : M string :=
  let* run_name := lift (run_name execution) in
  let* uuid := fresh_uuid in
  ret (osp_join run_name uuid).

(** [BenchmarkCategoryDriver.children] *)
Fixpoint BenchmarkCategoryDriver_children (category : string)
         (matrix : list dict) : M (list string) :=
  match matrix with
  | [] => ret []
  | execution :: rest =>
      if in_category category execution then
        let* child := new_run_dir execution in
        let* children := BenchmarkCategoryDriver_children category rest in
        ret (child :: children)
      else BenchmarkCategoryDriver_children category rest
  end.

(** The loop of the branch taken without [no_exec]: what it yields and
    the [runs] it leaves. *)
Fixpoint execute_runs (benchmark : Benchmark) (category : string)
         (kwargs : dict) (matrix : list dict)
         (runs : list (string * list string))
  : M (list string * list (string * list string)) :=
  match matrix with
  | [] => ret ([], runs)
  | execution :: rest =>
      if in_category category execution then
        let* run_dir := new_run_dir execution in
        let runs := runs_append category run_dir runs in
        pushd run_dir true
          (ExecutionDriver_call benchmark execution kwargs ;;
           MetricsDriver_call benchmark kwargs) ;;
        let* yielded := execute_runs benchmark category kwargs rest runs in
        ret (run_dir :: yielded.1, yielded.2)
      else execute_runs benchmark category kwargs rest runs
  end.

(** *** [Enumerator] *)

(** [Enumerator.report]: the content of [YAML_REPORT_FILE], as a
    [nameddict]. *)
Definition Enumerator_report : M dict :=
  let* doc := yaml_load YAML_REPORT_FILE in
  match doc with
  | VDict report => ret report
  | _ => raise (TypeError "nameddict")
  end.

(** Child identifiers are strings: the wrapper stores [str(child)]. *)
Fixpoint strings_of (l : list value) : res (list string) :=
  match l with
  | [] => Ok []
  | VStr s :: l' => res_bind (strings_of l') (fun ss => Ok (s :: ss))
  | _ :: _ => Raise (TypeError "child is not a string")
  end.

Definition children_of (report : dict) : res (list string) :=
  res_bind (dict_item "children" report)
    (fun c => match c with
              | VList l => strings_of l
              | _ => Raise (TypeError "children is not a list")
              end).

(** [Enumerator._children], for a node whose [children] property is the
    computation [children] *)
Definition Enumerator__children (children : M (list string))
  : M (list string) :=
  let* checkpointed := isfile YAML_REPORT_FILE in
  if checkpointed then
    let* report := Enumerator_report in
    lift (children_of report)
  else children.

(** The generator of [Enumerator.__call__]; [child_builder child] is the
    child object, that is its [__call__]. *)
Definition Enumerator_body (children : M (list string))
           (child_builder : string -> res (dict -> M dict))
           (kwargs : dict) : M value :=
  let* _children := Enumerator__children children in
  for_each _children
    (fun child =>
       pushd child true
         (let* child_obj := lift (child_builder child) in
          child_obj kwargs ;; ret tt)) ;;
  ret (VList (map VStr _children)).

Definition Enumerator_call (children : M (list string))
           (child_builder : string -> res (dict -> M dict))
           (kwargs : dict) : M dict :=
  write_yaml_report (Enumerator_body children child_builder kwargs) kwargs.

(** *** [BenchmarkCategoryDriver.__call__] *)

(** [generate_plot(desc, category)]: [metrics.json] is read and parsed,
    then the plot trigger is called.  Modelled from the spec:
    [hpcbench.plot.Plotter] is not among the sources; the plot trigger is
    handed the aggregated metrics and the description, which the world
    records; the figures it draws are not part of the file map. *)
Definition generate_plot (desc : value) (category : string)
  : M Datatypes.unit :=
  let* text := read_text JSON_METRICS_FILE in
  match json_load E text with
  | None => raise (ValueError "No JSON object could be decoded")
  | Some _ =>
      fun w =>
        Ok (tt, {| fs := fs w; cwd := cwd w; clock := clock w;
                   uuids := uuids w; spawned := spawned w;
                   plotted := plotted w ++ [(desc, category)] |})
  end.

(** The loop of the branch taken with [no_exec] and without [plot]. *)
Fixpoint extract_again (benchmark : Benchmark) (category : string)
         (kwargs : dict) (children : list string)
         (runs : list (string * list string))
  : M (list (string * list string)) :=
  match children with
  | [] => ret runs
  | child :: rest =>
      let* child_config := yaml_load (osp_join child YAML_REPORT_FILE) in
      match child_config with
      | VDict _ =>
          let runs := runs_append category child runs in
          pushd child false (MetricsDriver_call benchmark kwargs) ;;
          extract_again benchmark category kwargs rest runs
      | _ => raise (AttributeError "pop")
      end
  end.

Definition BenchmarkCategoryDriver_body (benchmark : Benchmark)
           (category : string) (kwargs : dict) : M value :=
  if negb (dict_contains "no_exec" kwargs) then
    let* yielded :=
      execute_runs benchmark category kwargs
                   (execution_matrix benchmark) [] in
    BenchmarkCategoryDriver_gather_metrics yielded.2 ;;
    ret (VList (map VStr yielded.1))
  else if dict_contains "plot" kwargs then
    match dict_get category (plots benchmark) with
    | None => raise (TypeError "'NoneType' object is not iterable")
    | Some descs =>
        for_each descs (fun plot => generate_plot plot category) ;;
        ret (VList [])
    end
  else
    let* report := Enumerator_report in
    let* children := lift (children_of report) in
    let* runs := extract_again benchmark category kwargs children [] in
    BenchmarkCategoryDriver_gather_metrics runs ;;
    ret (VList []).

Definition BenchmarkCategoryDriver_call (benchmark : Benchmark)
           (category : string) (kwargs : dict) : M dict :=
  write_yaml_report
    (BenchmarkCategoryDriver_body benchmark category kwargs) kwargs.

(** *** [BenchmarkDriver] *)

(** [s.add(x)] on a set of strings kept without repetition *)
Definition set_add (x : string) (s : list string) : list string :=
  if bool_decide (x ∈ s) then s else s ++ [x].

(** [BenchmarkDriver.children]: the set of the categories, which [api.py]
    documents to be strings. *)
Fixpoint BenchmarkDriver_children (matrix : list dict)
         (categories : list string) : res (list string) :=
  match matrix with
  | [] => Ok categories
  | execution :: rest =>
      match dict_get "category" execution with
      | None => Raise (KeyError "category")
      | Some (VStr c) => BenchmarkDriver_children rest (set_add c categories)
      | Some _ => Raise (TypeError "category is not a string")
      end
  end.

Definition BenchmarkDriver_call (benchmark : Benchmark) (kwargs : dict)
  : M dict :=
  Enumerator_call
    (lift (res_bind
             (BenchmarkDriver_children (execution_matrix benchmark) [])
             (fun categories => Ok (set_iter E categories))))
    (fun child => Ok (BenchmarkCategoryDriver_call benchmark child))
    kwargs.

(** *** [BenchmarkTagDriver] *)

(** [list(self.campaign.benchmarks[self.name])] *)
Definition BenchmarkTagDriver_children (campaign : Campaign)
           (tag : string) : res (list string) :=
  res_bind (dict_item tag (benchmarks campaign))
    (fun confs => Ok (map fst confs)).

(** [Benchmark.get_subclass(name)] *)
Definition get_subclass (type_name : value) : res (value -> Benchmark) :=
  match type_name with
  | VStr n =>
      match dict_get n (subclasses E) with
      | Some cls => Ok cls
      | None => Raise (NameError ("Not a valid Benchmark class: " +:+ n))
      end
  | _ => Raise (TypeError "Not a valid Benchmark class")
  end.

Definition BenchmarkTagDriver_child_builder (campaign : Campaign)
           (tag child : string) : res (dict -> M dict) :=
  res_bind (dict_item tag (benchmarks campaign)) (fun confs =>
  res_bind (dict_item child confs) (fun conf =>
  res_bind (dict_item "type" conf) (fun type_name =>
  res_bind (get_subclass type_name) (fun cls =>
    let attributes := default (VDict []) (dict_get "attributes" conf) in
    Ok (BenchmarkDriver_call (cls attributes)))))).

Definition BenchmarkTagDriver_call (campaign : Campaign) (tag : string)
           (kwargs : dict) : M dict :=
  Enumerator_call
    (lift (BenchmarkTagDriver_children campaign tag))
    (BenchmarkTagDriver_child_builder campaign tag)
    kwargs.

(** *** [HostDriver] *)

(** [{'localhost', self.name}] *)
Definition hostnames (host : string) : list string :=
  set_add host ["localhost"].

(** [for host in hostnames: if kconfig.match(host): ...] *)
Definition rule_match (hostnames : list string) (k : kconfig) : res bool :=
  match k with
  | KPattern r => Ok (existsb (re_match r) hostnames)
  | _ => Raise (AttributeError "match")
  end.

(** [hostnames & kconfig] is not empty *)
Definition rule_nodes (hostnames : list string) (k : kconfig) : res bool :=
  match k with
  | KNodes hosts => Ok (existsb (fun h => bool_decide (h ∈ hosts)) hostnames)
  | _ => Raise (TypeError "unsupported operand type(s) for &")
  end.

(** The loop over [config.items()] *)
Fixpoint for_modes (tag : string) (hostnames : list string)
         (config : list (string * kconfig)) (benchmarks : list string)
  : res (list string) :=
  match config with
  | [] => Ok benchmarks
  | (mode, k) :: rest =>
      if bool_decide (mode = "match") then
        res_bind (rule_match hostnames k)
          (fun hit =>
             for_modes tag hostnames rest
               (if hit then set_add tag benchmarks else benchmarks))
      else if bool_decide (mode = "nodes") then
        res_bind (rule_nodes hostnames k)
          (fun hit =>
             if hit then Ok (set_add tag benchmarks)
             else for_modes tag hostnames rest benchmarks)
      else
        Raise (Exception ("Unknown tag association pattern: " +:+ mode))
  end.

(** The loop over [configs] *)
Fixpoint for_configs (tag : string) (hostnames : list string)
         (configs : list (list (string * kconfig)))
         (benchmarks : list string) : res (list string) :=
  match configs with
  | [] => Ok benchmarks
  | config :: rest =>
      res_bind (for_modes tag hostnames config benchmarks)
        (fun benchmarks' =>
           if bool_decide (tag ∈ benchmarks') then Ok benchmarks'
           else for_configs tag hostnames rest benchmarks')
  end.

(** The loop over [self.campaign.network.tags.items()] *)
Fixpoint for_tags (hostnames : list string)
         (tags : list (string * list (list (string * kconfig))))
         (benchmarks : list string) : res (list string) :=
  match tags with
  | [] => Ok benchmarks
  | (tag, configs) :: rest =>
      res_bind (for_configs tag hostnames configs benchmarks)
        (fun benchmarks' => for_tags hostnames rest benchmarks')
  end.

(** [HostDriver.children] *)
Definition HostDriver_children (campaign : Campaign) (host : string)
  : res (list string) :=
  for_tags (hostnames host) (tags (network campaign)) ["*"].

Definition HostDriver_call (campaign : Campaign) (host : string)
           (kwargs : dict) : M dict :=
  Enumerator_call
    (lift (res_bind (HostDriver_children campaign host)
                    (fun benchmarks => Ok (set_iter E benchmarks))))
    (fun child => Ok (BenchmarkTagDriver_call campaign child))
    kwargs.

(** *** [CampaignDriver] *)

Record CampaignDriver : Type :=
  { campaign_file : string;
    campaign : Campaign;
    existing_campaign : bool;
    campaign_path : string }.

Definition given (x : option string) : bool :=
  match x with
  | Some s => negb (bool_decide (s = ""))
  | None => false
  end.

(** [CampaignDriver.__init__(campaign_file, campaign_path)] *)
Definition CampaignDriver_init (campaign_file campaign_path : option string)
  : M CampaignDriver :=
  if given campaign_file && given campaign_path then
    raise (Exception "Either campaign_file xor path can be specified")
  else
    let campaign_file :=
      if given campaign_path
      then Some (osp_join (default "" campaign_path) YAML_CAMPAIGN_FILE)
      else campaign_file in
    match campaign_file with
    | None => raise (TypeError "abspath")
    | Some file =>
        fun w =>
          match from_file E (resolve w file) (fs w) with
          | Raise e => Raise e
          | Ok campaign =>
              Ok ({| campaign_file := resolve w file;
                     campaign := campaign;
                     existing_campaign := given campaign_path;
                     campaign_path :=
                       if given campaign_path then default "" campaign_path
                       else strftime E (clock w) (output_dir campaign) |},
                  w)
          end
    end.

(** [shutil.copy(src, dst)] *)
Definition copy (src dst : string) : M Datatypes.unit :=
  fun w =>
    match fs w !! resolve w src with
    | Some f => Ok (tt, with_fs (<[resolve w dst := f]> (fs w)) w)
    | None => Raise (IOError (resolve w src))
    end.

(** [CampaignDriver.__call__] *)
Definition CampaignDriver_call (self : CampaignDriver) (kwargs : dict)
  : M Datatypes.unit :=
  pushd (campaign_path self) true
    ((if negb (existing_campaign self)
      then copy (campaign_file self) YAML_CAMPAIGN_FILE
      else ret tt) ;;
     Enumerator_call
       (ret [gethostname E])
       (fun child => Ok (HostDriver_call (campaign self) child))
       kwargs ;;
     ret tt).

End Driver.

(** ** Vocabulary of the properties *)

(** A computation preserves an observation of the world when every run of
    it that does not raise leaves the observation as it found it. *)
Definition preserves {A B} (obs : world -> B) (m : M A) : Prop :=
  forall w a w', m w = Ok (a, w') -> obs w' = obs w.

(** Observations that do not look at the working directory. *)
Definition cwd_free {B} (obs : world -> B) : Prop :=
  forall d w, obs (with_cwd d w) = obs w.

(** Writing a file changes the file map only. *)
Definition fs_free {B} (obs : world -> B) : Prop :=
  forall f w, obs (with_fs f w) = obs w.

(** The files as [ExecutionDriver] leaves them when it has opened the two
    output files, and the report and world it ends with when the process
    it spawned is [p]. *)
Definition opened (w : world) : gmap string file :=
  <[resolve w "stderr.txt" := FText ""]>
    (<[resolve w "stdout.txt" := FText ""]> (fs w)).

Definition execution_report (E : Env) (benchmark : Benchmark)
           (execution : dict) (w : world) (p : process) : dict :=
  dict_set "date" (VStr (isoformat E (clock w)))
    (dict_set "elapsed"
       (Timer_elapsed (clock w) (clock w + duration p))
       (dict_update [("exit_status", VInt (exit_status p));
                     ("benchmark", VStr (name benchmark))] execution)).

Definition executed (E : Env) (benchmark : Benchmark) (execution : dict)
           (kwargs : dict) (w : world) (command : value) (env : option dict)
           (p : process) : world :=
  let outputs :=
    <[resolve w "stderr.txt" := FText (err p)]>
      (<[resolve w "stdout.txt" := FText (out p)]> (opened w)) in
  {| fs := if negb (dict_contains "no_exec" kwargs)
           then <[resolve w YAML_REPORT_FILE :=
                    FYaml (VDict (execution_report E benchmark execution w p))]>
                  outputs
           else outputs;
     cwd := cwd w;
     clock := (clock w + duration p)%nat;
     uuids := uuids w;
     spawned := spawned w ++
       [{| sp_command := command; sp_cwd := cwd w; sp_env := env |}];
     plotted := plotted w |}.

(** ** A small campaign

    One host, the tag [*] with one benchmark, whose execution matrix has
    one entry in category [foo]; the command exits with status 3. *)
Module Scenario.

(** A compact rendering of a document, standing for [json.dump]. *)
Fixpoint json (v : value) : string :=
  match v with
  | VNone => "null"
  | VBool true => "true"
  | VBool false => "false"
  | VInt z => pretty z
  | VFloat q => pretty (Qnum q) +:+ "/" +:+ pretty (Zpos (Qden q))
  | VStr s => "'" +:+ s +:+ "'"
  | VList l =>
      "[" +:+
      (fix items (l : list value) : string :=
         match l with
         | [] => ""
         | [x] => json x
         | x :: l' => json x +:+ ", " +:+ items l'
         end) l +:+ "]"
  | VDict d =>
      "{" +:+
      (fix items (d : list (string * value)) : string :=
         match d with
         | [] => ""
         | [(k, x)] => k +:+ ": " +:+ json x
         | (k, x) :: d' => k +:+ ": " +:+ json x +:+ ", " +:+ items d'
         end) d +:+ "}"
  end.

(** Two extractors that report the same metric. *)
Definition first : Extractor :=
  {| metrics := [("a", {| unit := "s"; type := TInt |})];
     extract := fun _ _ _ => Ok [("a", VInt 1)] |}.

Definition second : Extractor :=
  {| metrics := [("a", {| unit := "s"; type := TInt |})];
     extract := fun _ _ _ => Ok [("a", VInt 2)] |}.

(** An extractor that reports a metric it does not declare. *)
Definition careless : Extractor :=
  {| metrics := [("a", {| unit := "s"; type := TInt |})];
     extract := fun _ _ _ => Ok [("a", VInt 1); ("b", VInt 2)] |}.

Definition entry : dict :=
  [("category", VStr "foo");
   ("command", VList [VStr "cat"; VStr "{outdir}/input"]);
   ("metas", VDict [("cores", VInt 1)])].

Definition benchmark : Benchmark :=
  {| name := "bench";
     description := "a benchmark";
     execution_matrix := [entry];
     metrics_extractors := [("foo", Many [first; second])];
     plots := [("foo", [VStr "figure"])] |}.

(** A benchmark with entries in two categories. *)
Definition wide : Benchmark :=
  {| name := "wide";
     description := "two categories";
     execution_matrix :=
       [entry;
        [("category", VStr "bar"); ("command", VList [VStr "true"])]];
     metrics_extractors := [("foo", One first); ("bar", One second)];
     plots := [] |}.

Definition web_pattern : regex :=
  RSeq RBol (RSeq (re_literal "web") (RStar RAny)).

Definition campaign : Campaign :=
  {| output_dir := "out";
     network :=
       {| tags := [("web", [[("match", KPattern web_pattern)]]);
                   ("db", [[("nodes", KNodes ["db-01"])]])] |};
     benchmarks := [("*", [("b1", [("type", VStr "bench")])]);
                    ("web", [])] |}.

(** What the command of [entry] does. *)
Definition outcome : process :=
  {| exit_status := 3; out := "some output"; err := "some error";
     duration := 2 |}.

Definition env : Env :=
  {| uuid4 := fun n => "uuid-" +:+ pretty n;
     Popen := fun _ _ _ _ _ => Some outcome;
     isoformat := fun n => "T" +:+ pretty n;
     strftime := fun _ format => format;
     py_repr := json;
     set_iter := fun s => s;
     json_dump := json;
     json_load := fun text =>
                    match text with
                    | String "["%char _ => Some (VList [])
                    | _ => None
                    end;
     gethostname := "web-01";
     environ := [("HOME", VStr "/root")];
     subclasses := [("bench", fun _ => benchmark)];
     from_file := fun _ _ => Ok campaign |}.

(** The same surroundings, where sets are iterated the other way round. *)
Definition reversed : Env :=
  {| uuid4 := uuid4 env; Popen := Popen env; isoformat := isoformat env;
     strftime := strftime env; py_repr := py_repr env;
     set_iter := fun s => rev s;
     json_dump := json_dump env; json_load := json_load env;
     gethostname := gethostname env;
     environ := environ env; subclasses := subclasses env;
     from_file := from_file env |}.

(** Before anything has run: the campaign file only. *)
Definition initial : world :=
  {| fs := {["/campaign.yaml" := FText "the campaign"]};
     cwd := "/";
     clock := 0;
     uuids := 0;
     spawned := [];
     plotted := [] |}.

(** A run directory before its command is executed. *)
Definition in_run_dir : world := with_cwd "/camp/run" initial.

(** The run directory once [ExecutionDriver] has executed [entry] there. *)
Definition run_report : dict :=
  execution_report env benchmark entry in_run_dir outcome.

Definition executed_run : world :=
  executed env benchmark entry [] in_run_dir
           (VList [VStr "cat"; VStr "{outdir}/input"]) None outcome.

(** The directory above, once [MetricsDriver] has also run in the run
    directory. *)
Definition extracted : world :=
  match MetricsDriver_call env benchmark [] executed_run with
  | Ok (_, w) => with_cwd "/camp" w
  | Raise _ => initial
  end.

(** The campaign invoked in its default mode, from its file. *)
Definition first_run : res (Datatypes.unit * world) :=
  (let* driver := CampaignDriver_init env (Some "campaign.yaml") None in
   CampaignDriver_call env driver []) initial.

(** The world [first_run] leaves, and the directory of its Category node
    in that world. *)
Definition after_first_run : world :=
  match first_run with
  | Ok (_, w) => w
  | Raise _ => initial
  end.

Definition category_dir : world :=
  with_cwd "/out/web-01/*/b1/foo" after_first_run.


End Scenario.

(** The [elapsed] and [date] entries the wrapper puts in a report, for a
    call that started at clock reading [start] and whose function
    returned at [finish]. *)
Definition stamp (E : Env) (start finish : nat) (report : dict) : dict :=
  dict_set "date" (VStr (isoformat E start))
    (dict_set "elapsed" (Timer_elapsed start finish) report).

(** The world once [report] is stored as the checkpoint of the current
    directory. *)
Definition checkpointed (report : dict) (w : world) : world :=
  with_fs (<[resolve w YAML_REPORT_FILE := FYaml (VDict report)]> (fs w)) w.

(** The metric mappings a report holds for a category. *)
Definition category_list (cat : string) (metrics : dict) : list value :=
  match dict_get cat metrics with
  | Some (VList l) => l
  | _ => []
  end.

(** The metric dictionary of a report. *)
Definition metrics_of (report : dict) : dict :=
  match dict_get "metrics" report with
  | Some (VDict metrics) => metrics
  | _ => []
  end.

(** A returned metric is declared by the extractor, with a type of which
    the value is an instance. *)
Definition declared (extractor : Extractor) (item : string * value) : Prop :=
  exists metric,
    dict_get item.1 (metrics extractor) = Some metric /\
    isinstance item.2 (type metric) = true.

(** The extractor returns [mapping] for the run, and the mapping passes
    the validation. *)
Definition extracts (outdir : string) (metas : value) (files : gmap string file)
           (extractor : Extractor) (mapping : dict) : Prop :=
  extract extractor outdir metas files = Ok mapping /\
  Forall (declared extractor) mapping.

(** The binding of [k] that comes last in [d]; a Python dictionary binds a
    key once, and this is then [dict_get k d]. *)
Definition dict_last {A} (k : string) (d : list (string * A)) : option A :=
  dict_get k (rev d).

(** Last write wins: the value of [name] in the last of the mappings that
    bind it. *)
Fixpoint last_write (name : string) (mappings : list dict) : option value :=
  match mappings with
  | [] => None
  | m :: rest =>
      match last_write name rest with
      | Some v => Some v
      | None => dict_last name m
      end
  end.

(** The [metrics] of a run report are as [MetricsDriver] leaves them: absent,
    or a dictionary of lists of metric mappings. *)
Definition metrics_well_formed (data : dict) : Prop :=
  dict_get "metrics" data = None \/
  exists items,
    dict_get "metrics" data = Some (VDict items) /\
    Forall (fun item => exists ms, item.2 = VList (map VDict ms)) items.

(** The JSON array [gather_metrics] writes for the documents [entries]. *)
Fixpoint json_entries (E : Env) (entries : list dict) : string :=
  match entries with
  | [] => ""
  | data :: rest =>
      json_dump E (VDict data)
      +:+ match rest with [] => "" | _ :: _ => "," end
      +:+ nl +:+ json_entries E rest
  end.

Definition json_array (E : Env) (entries : list dict) : string :=
  "[" +:+ nl +:+ json_entries E entries +:+ "]" +:+ nl.

(** The run [run_dir] has a checkpoint, from which [gather_metrics] makes
    the document [out]. *)
Definition gathered_from (w : world) (run_dir : string) (out : dict) : Prop :=
  exists doc,
    fs w !! resolve w (osp_join run_dir YAML_REPORT_FILE) = Some (FYaml doc) /\
    gather_run run_dir doc = Ok out.

(** The rule selects the tag on [host]: its pattern matches the host name
    or [localhost], or its set of nodes holds one of the two. *)
Definition rule_selects (host : string) (rule : string * kconfig) : Prop :=
  match rule.2 with
  | KPattern r =>
      rule.1 = "match" /\
      (re_match r host = true \/ re_match r "localhost" = true)
  | KNodes hosts =>
      rule.1 = "nodes" /\ (host ∈ hosts \/ "localhost" ∈ hosts)
  | KOther _ => False
  end.

(** A rule is [match] with a pattern or [nodes] with a set. *)
Definition rule_well_formed (rule : string * kconfig) : Prop :=
  match rule.2 with
  | KPattern _ => rule.1 = "match"
  | KNodes _ => rule.1 = "nodes"
  | KOther _ => False
  end.

(** Some rule of [tag] selects it on [host]. *)
Definition tag_selected (tags : list (string * list (list (string * kconfig))))
           (host tag : string) : Prop :=
  exists configs config rule,
    (tag, configs) ∈ tags /\ config ∈ configs /\ rule ∈ config /\
    rule_selects host rule.

(** The run identities [BenchmarkCategoryDriver] allocates for the entries
    [matching] its category when [n] UUIDs have been drawn before. *)
Fixpoint fresh_run_dirs (E : Env) (n : nat) (matching : list dict)
  : list string :=
  match matching with
  | [] => []
  | execution :: rest =>
      osp_join (match run_name execution with Ok s => s | Raise _ => "" end)
               (uuid4 E n)
      :: fresh_run_dirs E (S n) rest
  end.

(** The process [sp] is the command of the entry [item.1], spawned in the
    run directory [item.2] of the Category directory [dir]. *)
Definition spawned_for (dir : string) (sp : spawn) (item : dict * string)
  : Prop :=
  dict_get "command" item.1 = Some (sp_command sp) /\
  sp_cwd sp = osp_join dir item.2.

(** The children a report records. *)
Definition recorded_children (report : dict) : option value :=
  dict_get "children" report.

(** The world once one more UUID has been drawn. *)
Definition drawn (w : world) : world :=
  {| fs := fs w; cwd := cwd w; clock := clock w; uuids := S (uuids w);
     spawned := spawned w; plotted := plotted w |}.

(** A dictionary binds each of its keys once. *)
Definition is_dict {A} (d : list (string * A)) : Prop := NoDup (map fst d).

(** What [os.path.join] puts between a directory and a relative name. *)
Definition separator (a : string) : string :=
  if bool_decide (a = "") || endswith_slash a then "" else "/".

(** ** Vocabulary of the further properties *)

(** [s.endswith(suffix)] *)
Fixpoint endswith (suffix s : string) : bool :=
  bool_decide (s = suffix) ||
  match s with
  | EmptyString => false
  | String _ s' => endswith suffix s'
  end.

(** What the file map holds at [path]. *)
Definition file_at (path : string) (w : world) : option file := fs w !! path.

(** Writing the file [name] of the current directory does not change the
    observation. *)
Definition untouched_by {B} (name : string) (obs : world -> B) : Prop :=
  forall w f, obs (with_fs (<[resolve w name := f]> (fs w)) w) = obs w.

(** Drawing a UUID does not change the observation. *)
Definition draw_free {B} (obs : world -> B) : Prop :=
  forall w, obs (drawn w) = obs w.

(** The world once the plot trigger has been handed [desc] for [category]. *)
Definition plotting (desc : value) (category : string) (w : world) : world :=
  {| fs := fs w; cwd := cwd w; clock := clock w; uuids := uuids w;
     spawned := spawned w; plotted := plotted w ++ [(desc, category)] |}.

(** Triggering a plot does not change the observation. *)
Definition plot_free {B} (obs : world -> B) : Prop :=
  forall desc category w, obs (plotting desc category w) = obs w.

(** Executing a command does not change the observation. *)
Definition exec_free {B} (obs : world -> B) : Prop :=
  forall E benchmark execution kwargs w command env p,
    obs (executed E benchmark execution kwargs w command env p) = obs w.

(** The observation is one that an invocation with the keyword arguments
    [kwargs] cannot change: it does not depend on the working directory,
    on [metrics.json] or on the plots triggered and, when [kwargs] does not
    hold [no_exec], neither on the UUIDs drawn, on what executing a command
    leaves, nor on the checkpoint files. *)
Definition kept_by_invocation {B} (kwargs : dict) (obs : world -> B) : Prop :=
  cwd_free obs /\
  untouched_by JSON_METRICS_FILE obs /\
  plot_free obs /\
  (dict_contains "no_exec" kwargs = false ->
   draw_free obs /\ exec_free obs /\ untouched_by YAML_REPORT_FILE obs).

(** ** Further cases of the small campaign *)
Module Cases.

(** The driver of the first invocation, made from the campaign file. *)
Definition fresh : CampaignDriver :=
  {| campaign_file := "/campaign.yaml";
     campaign := Scenario.campaign;
     existing_campaign := false;
     campaign_path := "out" |}.

(** The driver of a later invocation, made from the campaign directory. *)
Definition existing : CampaignDriver :=
  {| campaign_file := "/out/campaign.yaml";
     campaign := Scenario.campaign;
     existing_campaign := true;
     campaign_path := "out" |}.

(** A benchmark whose category [foo] has two entries. *)
Definition twice : Benchmark :=
  {| name := "twice";
     description := "two runs of one category";
     execution_matrix :=
       [Scenario.entry;
        [("category", VStr "foo");
         ("command", VList [VStr "cat"; VStr "other"]);
         ("metas", VDict [("cores", VInt 4)])]];
     metrics_extractors := [("foo", One Scenario.first)];
     plots := [] |}.

(** A benchmark whose entry has an [exit_status] of its own. *)
Definition masked : Benchmark :=
  {| name := "masked";
     description := "an entry with an exit status";
     execution_matrix := [Scenario.entry ++ [("exit_status", VInt 0)]];
     metrics_extractors := [("foo", One Scenario.first)];
     plots := [] |}.

End Cases.

(** The world once the plot trigger has been handed the descriptions
    [descs] for [category], one after the other. *)
Definition plotted_all (descs : list value) (category : string) (w : world)
  : world :=
  {| fs := fs w; cwd := cwd w; clock := clock w; uuids := uuids w;
     spawned := spawned w;
     plotted := plotted w ++ map (fun desc => (desc, category)) descs |}.

(** The run list after [runs.setdefault(category, []).append(child)] for
    each of [children]. *)
Definition runs_of (category : string) (children : list string)
  : list (string * list string) :=
  match children with
  | [] => []
  | _ :: _ => [(category, children)]
  end.

(** The directory of a campaign invoked in the world [w]. *)
Definition campaign_dir (self : CampaignDriver) (w : world) : string :=
  osp_join (cwd w) (campaign_path self).

(** ** Vocabulary of the runs of a category *)

(** The status a run records: that of the process, unless the entry has
    an [exit_status] of its own, which [report.update(self.execution)]
    copies over it. *)
Definition recorded_status (execution : dict) (p : process) : value :=
  default (VInt (exit_status p)) (dict_get "exit_status" execution).

(** The extractors registered for a category, one extractor or a list of
    them, return the valid mappings [mappings], in this order, for the run
    directory [outdir] holding [files]. *)
Definition extracted_by (x : extractors) (outdir : string) (metas : value)
           (files : gmap string file) (mappings : list dict) : Prop :=
  match x with
  | One e => exists m, mappings = [m] /\ extracts outdir metas files e m
  | Many l => Forall2 (extracts outdir metas files) l mappings
  end.

(** The [metrics] of an entry or of a report are absent, or a dictionary
    that holds nothing or a list for [cat]. *)
Definition may_hold_metrics (cat : string) (report : dict) : Prop :=
  dict_get "metrics" report = None \/
  exists metrics,
    dict_get "metrics" report = Some (VDict metrics) /\
    (dict_get cat metrics = None \/
     exists l, dict_get cat metrics = Some (VList l)).

(** The checkpoint of the run directory [run_dir] of the directory [dir]. *)
Definition run_checkpoint (dir run_dir : string) : string :=
  osp_join dir (osp_join run_dir YAML_REPORT_FILE).

(** The run of the entry [execution] in the directory [run_dir] of the
    Category directory [dir] went through: its command was spawned there
    and ended as the process [p]; the extractors of the category then
    returned valid mappings for the directory, in which the output of the
    command was; and [files] holds the checkpoint [doc] of the run, with
    the recorded status and, for the category, the mappings after those
    the entry may have brought. *)
Definition run_extracted (E : Env) (benchmark : Benchmark)
           (category dir : string) (files : gmap string file)
           (execution : dict) (run_dir : string) (p : process) (doc : dict)
  : Prop :=
  exists env command n before x after mappings,
    custom_environment E execution = Ok env /\
    dict_get "command" execution = Some command /\
    Popen E n command env (osp_join dir run_dir) before = Some p /\
    dict_get category (metrics_extractors benchmark) = Some x /\
    after !! osp_join (osp_join dir run_dir) "stdout.txt" = Some (FText (out p)) /\
    after !! osp_join (osp_join dir run_dir) "stderr.txt" = Some (FText (err p)) /\
    extracted_by x (osp_join dir run_dir)
                 (default VNone (dict_get "metas" execution)) after mappings /\
    files !! run_checkpoint dir run_dir = Some (FYaml (VDict doc)) /\
    dict_get "exit_status" doc = Some (recorded_status execution p) /\
    category_list category (metrics_of doc) =
      category_list category (metrics_of execution) ++ map VDict mappings.

(** The run went through, and [entry] is the document that the
    aggregation makes of its checkpoint. *)
Definition run_recorded (E : Env) (benchmark : Benchmark)
           (category dir : string) (files : gmap string file)
           (execution : dict) (run_dir : string) (entry : dict) : Prop :=
  exists p doc,
    run_extracted E benchmark category dir files execution run_dir p doc /\
    gather_run run_dir (VDict doc) = Ok entry /\
    dict_get "exit_status" entry = Some (recorded_status execution p) /\
    dict_get "id" entry = Some (VStr run_dir).

(** The files the drivers write in the run directory [run_dir] of the
    directory [dir]. *)
Definition run_files (dir run_dir : string) : list string :=
  [osp_join (osp_join dir run_dir) "stdout.txt";
   osp_join (osp_join dir run_dir) "stderr.txt";
   osp_join (osp_join dir run_dir) YAML_REPORT_FILE].
(** * Properties *)

(** ** Reasoning about computations *)

Lemma bind_Ok {A B} (m : M A) (f : A -> M B) w b w' :
  bind m f w = Ok (b, w') <->
  exists a w1, m w = Ok (a, w1) /\ f a w1 = Ok (b, w').
Proof.
  unfold bind. split.
  - destruct (m w) as [[a w1]|e]; [eauto | discriminate].
  - intros (a & w1 & -> & H). exact H.
Qed.

Lemma yaml_load_world path w doc w' :
  yaml_load path w = Ok (doc, w') -> w' = w.
Proof.
  unfold yaml_load. destruct (fs w !! _) as [[]|]; try discriminate.
  intros [= _ <-]. reflexivity.
Qed.

Lemma lift_Ok {A} (r : res A) w a w' :
  lift r w = Ok (a, w') <-> r = Ok a /\ w' = w.
Proof.
  unfold lift. destruct r; split; intros H.
  - injection H as -> ->. auto.
  - destruct H as [H ->]. injection H as ->. reflexivity.
  - discriminate.
  - destruct H; discriminate.
Qed.

Lemma res_bind_Ok {A B} (r : res A) (f : A -> res B) b :
  res_bind r f = Ok b <-> exists a, r = Ok a /\ f a = Ok b.
Proof.
  destruct r; simpl; split.
  - eauto.
  - intros (a' & [= ->] & H). exact H.
  - discriminate.
  - intros (a' & [=] & _).
Qed.

(** ** What computations leave unchanged *)

Create HintDb frame discriminated.

Section Frame.
Context {B : Type} (obs : world -> B).

Lemma preserves_ret {A} (a : A) : preserves obs (ret a).
Proof. intros w a' w' [= _ ->]. reflexivity. Qed.

Lemma preserves_raise {A} e : preserves obs (@raise A e).
Proof. intros w a w' [=]. Qed.

Lemma preserves_lift {A} (r : res A) : preserves obs (lift r).
Proof. intros w a w' H. apply lift_Ok in H as [_ ->]. reflexivity. Qed.

Lemma preserves_bind {A C} (m : M A) (f : A -> M C) :
  preserves obs m -> (forall a, preserves obs (f a)) ->
  preserves obs (bind m f).
Proof.
  intros Hm Hf w c w' H. apply bind_Ok in H as (a & w1 & H1 & H2).
  rewrite (Hf _ _ _ _ H2). eapply Hm, H1.
Qed.

Lemma preserves_for_each {A} (l : list A) body :
  (forall x, preserves obs (body x)) -> preserves obs (for_each l body).
Proof.
  intros Hb. induction l as [|x l IH]; simpl.
  - apply preserves_ret.
  - apply preserves_bind; auto.
Qed.

Lemma preserves_pushd {A} path mkdir (body : M A) :
  cwd_free obs -> preserves obs body -> preserves obs (pushd path mkdir body).
Proof.
  intros Hfree Hb w a w' H. unfold pushd in H. unfold cwd_free in Hfree.
  destruct (body _) as [[a' w1]|e] eqn:Hbody; [|discriminate].
  injection H as -> <-. rewrite Hfree.
  etransitivity; [exact (Hb _ _ _ Hbody) | apply Hfree].
Qed.

Lemma preserves_getcwd : preserves obs getcwd.
Proof. intros w a w' [= _ ->]. reflexivity. Qed.

Lemma preserves_now : preserves obs now.
Proof. intros w a w' [= _ ->]. reflexivity. Qed.

Lemma preserves_isfile path : preserves obs (isfile path).
Proof. intros w a w' [= _ ->]. reflexivity. Qed.

Lemma preserves_yaml_load path : preserves obs (yaml_load path).
Proof.
  intros w a w' H. unfold yaml_load in H.
  destruct (fs w !! _) as [[doc|t]|]; try discriminate.
  injection H as _ ->. reflexivity.
Qed.

Lemma preserves_read_text path : preserves obs (read_text path).
Proof.
  intros w a w' H. unfold read_text in H.
  destruct (fs w !! _) as [[doc|t]|]; try discriminate.
  injection H as _ ->. reflexivity.
Qed.
End Frame.

#[export] Hint Resolve preserves_ret preserves_raise preserves_lift
  preserves_bind preserves_for_each preserves_getcwd preserves_now
  preserves_isfile preserves_yaml_load preserves_read_text : frame.

(** Whatever its body does, [pushd] hands the directory back. *)
Lemma pushd_cwd {A} path mkdir (body : M A) :
  preserves cwd (pushd path mkdir body).
Proof.
  intros w a w' H. unfold pushd in H.
  destruct (body _) as [[a' w1]|e]; [|discriminate].
  injection H as _ <-. reflexivity.
Qed.

Lemma cwd_free_fs : cwd_free fs. Proof. intros d w. reflexivity. Qed.
Lemma cwd_free_clock : cwd_free clock. Proof. intros d w. reflexivity. Qed.
Lemma cwd_free_uuids : cwd_free uuids. Proof. intros d w. reflexivity. Qed.
Lemma cwd_free_spawned : cwd_free spawned. Proof. intros d w. reflexivity. Qed.
Lemma cwd_free_plotted : cwd_free plotted. Proof. intros d w. reflexivity. Qed.

#[export] Hint Resolve pushd_cwd cwd_free_fs cwd_free_clock cwd_free_uuids
  cwd_free_spawned cwd_free_plotted : frame.
#[export] Hint Extern 2 (preserves _ (pushd _ _ _)) =>
  apply preserves_pushd : frame.

Lemma fs_free_cwd : fs_free cwd. Proof. intros f w. reflexivity. Qed.
Lemma fs_free_clock : fs_free clock. Proof. intros f w. reflexivity. Qed.
Lemma fs_free_uuids : fs_free uuids. Proof. intros f w. reflexivity. Qed.
Lemma fs_free_spawned : fs_free spawned. Proof. intros f w. reflexivity. Qed.
Lemma fs_free_plotted : fs_free plotted. Proof. intros f w. reflexivity. Qed.

#[export] Hint Resolve fs_free_cwd fs_free_clock fs_free_uuids
  fs_free_spawned fs_free_plotted : frame.

Lemma preserves_yaml_dump {B} (obs : world -> B) path doc :
  fs_free obs -> preserves obs (yaml_dump path doc).
Proof. intros Hfree w a w' [= _ <-]. apply Hfree. Qed.

Lemma preserves_write_text {B} (obs : world -> B) path text :
  fs_free obs -> preserves obs (write_text path text).
Proof. intros Hfree w a w' [= _ <-]. apply Hfree. Qed.

#[export] Hint Resolve preserves_yaml_dump preserves_write_text : frame.

(** ** Dictionaries and paths *)

Section DictFacts.
Context {A : Type}.
Implicit Types (d other : list (string * A)) (k : string) (v : A).

Lemma dict_get_set_eq k v d : dict_get k (dict_set k v d) = Some v.
Proof.
  induction d as [|[k' v'] d IH]; simpl.
  - rewrite bool_decide_eq_true_2; auto.
  - case_bool_decide; simpl.
    + rewrite bool_decide_eq_true_2; auto.
    + rewrite bool_decide_eq_false_2; auto.
Qed.

Lemma dict_get_set_ne k k' v d :
  k <> k' -> dict_get k' (dict_set k v d) = dict_get k' d.
Proof.
  intros Hne. induction d as [|[k0 v0] d IH]; simpl.
  - rewrite bool_decide_eq_false_2; auto.
  - case_bool_decide; simpl.
    + subst k0. rewrite !bool_decide_eq_false_2; auto.
    + case_bool_decide; auto.
Qed.

Lemma dict_get_pop_eq k d : dict_get k (dict_pop k d) = None.
Proof.
  induction d as [|[k' v'] d IH]; simpl; auto.
  case_bool_decide; simpl; auto.
  rewrite bool_decide_eq_false_2; auto.
Qed.

Lemma dict_get_pop_ne k k' d :
  k <> k' -> dict_get k' (dict_pop k d) = dict_get k' d.
Proof.
  intros Hne. induction d as [|[k0 v0] d IH]; simpl; auto.
  case_bool_decide; simpl.
  - subst k0. rewrite bool_decide_eq_false_2; auto.
  - case_bool_decide; auto.
Qed.

Lemma dict_get_app k d other :
  dict_get k (d ++ other) =
  match dict_get k d with Some v => Some v | None => dict_get k other end.
Proof.
  induction d as [|[k' v'] d IH]; simpl; auto.
  case_bool_decide; auto.
Qed.

(** After [d.update(other)] a key holds what [other] binds it to last,
    and what [d] held when [other] does not bind it. *)
Lemma dict_get_update k d other :
  dict_get k (dict_update d other) =
  match dict_get k (rev other) with
  | Some v => Some v
  | None => dict_get k d
  end.
Proof.
  unfold dict_update. revert d.
  induction other as [|[k' v'] other IH]; intros d; simpl; auto.
  rewrite IH, dict_get_app. destruct (dict_get k (rev other)); auto.
  simpl. case_bool_decide.
  - subst k'. apply dict_get_set_eq.
  - apply dict_get_set_ne; auto.
Qed.

End DictFacts.

(** A relative name is appended to the directory, so distinct names give
    distinct paths. *)
Lemma osp_join_relative a b :
  startswith_slash b = false ->
  exists sep, osp_join a b = a +:+ sep +:+ b /\
              forall b', startswith_slash b' = false ->
                         osp_join a b' = a +:+ sep +:+ b'.
Proof.
  intros Hb. unfold osp_join. rewrite Hb.
  destruct (bool_decide (a = "") || endswith_slash a) eqn:Hsep.
  - exists "". split; [reflexivity|]. intros b' ->. reflexivity.
  - exists "/". split; [reflexivity|]. intros b' ->. reflexivity.
Qed.

Lemma osp_join_inj a b b' :
  startswith_slash b = false -> startswith_slash b' = false ->
  osp_join a b = osp_join a b' -> b = b'.
Proof.
  intros Hb Hb' Heq.
  destruct (osp_join_relative a b Hb) as (sep & -> & Hsep) in Heq.
  rewrite (Hsep b' Hb') in Heq.
  apply (inj (String.app a)) in Heq. apply (inj (String.app sep)) in Heq.
  exact Heq.
Qed.

Lemma osp_join_ne a b b' :
  startswith_slash b = false -> startswith_slash b' = false ->
  b <> b' -> osp_join a b <> osp_join a b'.
Proof. intros Hb Hb' Hne Heq. apply Hne. eapply osp_join_inj; eauto. Qed.

(** ** [ExecutionDriver] *)

(** The execution of one command, case by case. *)
Lemma ExecutionDriver_call_eval E benchmark execution kwargs w :
  ExecutionDriver_call E benchmark execution kwargs w =
  match custom_environment E execution with
  | Raise e => Raise e
  | Ok env =>
      match dict_get "command" execution with
      | None => Raise (KeyError "command")
      | Some command =>
          match Popen E (List.length (spawned w)) command env (cwd w)
                      (opened w) with
          | None => Raise (OSError "cannot execute")
          | Some p =>
              Ok (execution_report E benchmark execution w p,
                  executed E benchmark execution kwargs w command env p)
          end
      end
  end.
Proof.
  unfold ExecutionDriver_call, write_yaml_report, ExecutionDriver_body,
    bind, now, write_text, lift, dict_item, Popen_wait, ret, opened, executed,
    yaml_dump, execution_report, resolve.
  simpl.
  destruct (custom_environment E execution) as [env|e]; [|reflexivity].
  destruct (dict_get "command" execution) as [command|]; [|reflexivity].
  destruct (Popen E _ command env _ _) as [p|]; [|reflexivity].
  simpl. destruct (dict_contains "no_exec" kwargs); reflexivity.
Qed.

Lemma ExecutionDriver_call_inv E benchmark execution kwargs w report w' :
  ExecutionDriver_call E benchmark execution kwargs w = Ok (report, w') ->
  exists env command p,
    custom_environment E execution = Ok env /\
    dict_get "command" execution = Some command /\
    Popen E (List.length (spawned w)) command env (cwd w) (opened w) = Some p /\
    report = execution_report E benchmark execution w p /\
    w' = executed E benchmark execution kwargs w command env p.
Proof.
  rewrite ExecutionDriver_call_eval.
  destruct (custom_environment E execution) as [env|e] eqn:Henv;
    [|discriminate].
  destruct (dict_get "command" execution) as [command|] eqn:Hcommand;
    [|discriminate].
  destruct (Popen E _ command env _ _) as [p|] eqn:Hp; [|discriminate].
  intros [= <- <-]. exists env, command, p. auto.
Qed.

Lemma relative_names :
  startswith_slash "stdout.txt" = false /\
  startswith_slash "stderr.txt" = false /\
  startswith_slash "sterrr.txt" = false /\
  startswith_slash YAML_REPORT_FILE = false /\
  startswith_slash JSON_METRICS_FILE = false.
Proof. repeat split. Qed.

(** What the files hold where [ExecutionDriver] has run. *)
Lemma executed_files E benchmark execution kwargs w command env p :
  let w' := executed E benchmark execution kwargs w command env p in
  fs w' !! osp_join (cwd w) "stdout.txt" = Some (FText (out p)) /\
  fs w' !! osp_join (cwd w) "stderr.txt" = Some (FText (err p)) /\
  forall name,
    startswith_slash name = false ->
    name <> "stdout.txt" -> name <> "stderr.txt" ->
    name <> YAML_REPORT_FILE ->
    fs w' !! osp_join (cwd w) name = fs w !! osp_join (cwd w) name.
Proof.
  destruct relative_names as (Hout & Herr & _ & Hyaml & _).
  assert (Hne : osp_join (cwd w) "stderr.txt" <> osp_join (cwd w) "stdout.txt")
    by (apply osp_join_ne; auto; discriminate).
  assert (Hy1 : osp_join (cwd w) YAML_REPORT_FILE <> osp_join (cwd w) "stdout.txt")
    by (apply osp_join_ne; auto; discriminate).
  assert (Hy2 : osp_join (cwd w) YAML_REPORT_FILE <> osp_join (cwd w) "stderr.txt")
    by (apply osp_join_ne; auto; discriminate).
  unfold executed, opened, resolve. simpl.
  destruct (negb (dict_contains "no_exec" kwargs)); simpl; repeat split.
  - rewrite lookup_insert_ne, lookup_insert_ne, lookup_insert_eq; auto.
  - rewrite lookup_insert_ne, lookup_insert_eq; auto.
  - intros name Hrel H1 H2 H3.
    rewrite !lookup_insert_ne; auto; apply osp_join_ne; auto.
  - rewrite lookup_insert_ne, lookup_insert_eq; auto.
  - rewrite lookup_insert_eq; auto.
  - intros name Hrel H1 H2 H3.
    rewrite !lookup_insert_ne; auto; apply osp_join_ne; auto.
Qed.

(** C10 (the code departs from the claim): [MetricsExtractor.stdout] names
    the file in which [ExecutionDriver] leaves the standard output of the
    command, but [MetricsExtractor.stderr] answers with [sterrr.txt], which
    is not the file [stderr.txt] that receives the standard error, and
    which the execution leaves untouched.  In the run directory [/camp/run]
    of the small campaign the helper names a file that does not exist. *)
Theorem stderr_helper_misses_the_error_file :
  (forall E benchmark execution kwargs w,
      match ExecutionDriver_call E benchmark execution kwargs w with
      | Ok (_, w') =>
          exists p,
          fs w' !! MetricsExtractor.stdout (cwd w) = Some (FText (out p)) /\
          fs w' !! osp_join (cwd w) "stderr.txt" = Some (FText (err p)) /\
          MetricsExtractor.stderr (cwd w) <> osp_join (cwd w) "stderr.txt" /\
          fs w' !! MetricsExtractor.stderr (cwd w) =
          fs w !! MetricsExtractor.stderr (cwd w)
      | Raise _ => True
      end) /\
  MetricsExtractor.stderr "/camp/run" = "/camp/run/sterrr.txt" /\
  match ExecutionDriver_call Scenario.env Scenario.benchmark Scenario.entry []
                             Scenario.in_run_dir with
  | Ok (_, w') =>
      fs w' !! "/camp/run/stderr.txt" = Some (FText "some error") /\
      fs w' !! MetricsExtractor.stderr "/camp/run" = None
  | Raise _ => False
  end.
Proof.
  split; [|split; [reflexivity | vm_compute; split; reflexivity]].
  intros E benchmark execution kwargs w.
  destruct (ExecutionDriver_call E benchmark execution kwargs w)
    as [[report w']|e] eqn:Hcall; [|exact I].
  apply ExecutionDriver_call_inv in Hcall
    as (env & command & p & _ & _ & _ & _ & ->).
  destruct (executed_files E benchmark execution kwargs w command env p)
    as (Hout & Herr & Hother).
  exists p. unfold MetricsExtractor.stdout, MetricsExtractor.stderr.
  repeat split; auto.
  apply osp_join_ne; auto; discriminate.
Qed.

(** C3 (the code departs from the claim): [ExecutionDriver] hands the
    [command] of the execution-matrix entry to [Popen] as it stands, and
    [BenchmarkCategoryDriver] passes the entry on unchanged: nothing
    replaces [{outdir}].  In the small campaign the command
    [cat {outdir}/input] is spawned with the placeholder still in it,
    although it runs in the directory [/camp/foo/uuid-0]. *)
Theorem outdir_placeholder_is_spawned_verbatim :
  (forall E benchmark execution kwargs w,
      match ExecutionDriver_call E benchmark execution kwargs w with
      | Ok (_, w') =>
          exists command env,
          dict_get "command" execution = Some command /\
          spawned w' =
          spawned w ++
            [{| sp_command := command; sp_cwd := cwd w; sp_env := env |}]
      | Raise _ => True
      end) /\
  match BenchmarkCategoryDriver_call Scenario.env Scenario.benchmark "foo" []
          (with_cwd "/camp/foo" Scenario.initial) with
  | Ok (_, w') =>
      spawned w' =
      [{| sp_command := VList [VStr "cat"; VStr "{outdir}/input"];
          sp_cwd := "/camp/foo/uuid-0";
          sp_env := None |}]
  | Raise _ => False
  end.
Proof.
  split; [|vm_compute; reflexivity].
  intros E benchmark execution kwargs w.
  destruct (ExecutionDriver_call E benchmark execution kwargs w)
    as [[report w']|e] eqn:Hcall; [|exact I].
  apply ExecutionDriver_call_inv in Hcall
    as (env & command & p & _ & Hcommand & _ & _ & ->).
  exists command, env. split; [exact Hcommand | reflexivity].
Qed.

(** ** The checkpoint-writing wrapper *)

Lemma write_yaml_report_eval E (func : M value) kwargs w :
  write_yaml_report E func kwargs w =
  match func w with
  | Raise e => Raise e
  | Ok (data, w1) =>
      let store report :=
        Ok (stamp E (clock w) (clock w1) report,
            if dict_contains "no_exec" kwargs then w1
            else checkpointed (stamp E (clock w) (clock w1) report) w1) in
      match data with
      | VList l => store [("children", VList (map (fun x => VStr (str E x)) l))]
      | VDict d => store d
      | _ => Raise (Exception "Unexpected data type")
      end
  end.
Proof.
  unfold write_yaml_report, bind, now. simpl.
  destruct (func w) as [[data w1]|e]; [|reflexivity].
  destruct data; simpl; try reflexivity;
    unfold stamp, checkpointed, yaml_dump, ret;
    destruct (dict_contains "no_exec" kwargs); reflexivity.
Qed.

Lemma stamp_keys E start finish report :
  dict_get "elapsed" (stamp E start finish report) =
    Some (Timer_elapsed start finish) /\
  dict_get "date" (stamp E start finish report) =
    Some (VStr (isoformat E start)) /\
  forall k, k <> "elapsed" -> k <> "date" ->
            dict_get k (stamp E start finish report) = dict_get k report.
Proof.
  unfold stamp. repeat split.
  - rewrite dict_get_set_ne by discriminate. apply dict_get_set_eq.
  - apply dict_get_set_eq.
  - intros k H1 H2. rewrite !dict_get_set_ne; auto.
Qed.

(** C8: when the wrapped function returns [data], the wrapper raises
    unless [data] is a list (a generator run to its end) or a dictionary;
    a list becomes [{children: [...]}] with each element converted by
    [str], a dictionary is taken as it is; in both cases the report gets
    the keys [elapsed] and [date], every other key keeping its value, and
    this stamped report is what is returned and, unless the keyword
    arguments hold [no_exec], what is stored in the checkpoint file. *)
Theorem write_yaml_report_wraps_the_result E (func : M value) kwargs w data w1 :
  func w = Ok (data, w1) ->
  (forall report,
      is_Some (dict_get "elapsed" (stamp E (clock w) (clock w1) report)) /\
      is_Some (dict_get "date" (stamp E (clock w) (clock w1) report)) /\
      forall k, k <> "elapsed" -> k <> "date" ->
                dict_get k (stamp E (clock w) (clock w1) report) =
                dict_get k report) /\
  let outcome report :=
    Ok (stamp E (clock w) (clock w1) report,
        if dict_contains "no_exec" kwargs then w1
        else checkpointed (stamp E (clock w) (clock w1) report) w1) in
  match data with
  | VList l =>
      write_yaml_report E func kwargs w =
      outcome [("children", VList (map (fun x => VStr (str E x)) l))]
  | VDict d => write_yaml_report E func kwargs w = outcome d
  | VNone | VBool _ | VInt _ | VFloat _ | VStr _ =>
      write_yaml_report E func kwargs w =
      Raise (Exception "Unexpected data type")
  end.
Proof.
  intros Hfunc. split.
  - intros report.
    destruct (stamp_keys E (clock w) (clock w1) report) as (H1 & H2 & H3).
    rewrite H1, H2. eauto.
  - rewrite write_yaml_report_eval, Hfunc. destruct data; reflexivity.
Qed.

(** The wrapper at work on a generator that yielded [3] and ["b"]. *)
Lemma write_yaml_report_wraps_the_result_witness :
  write_yaml_report Scenario.env (ret (VList [VInt 3; VStr "b"])) []
                    Scenario.in_run_dir =
  Ok ([("children", VList [VStr "3"; VStr "b"]);
       ("elapsed", VFloat 0); ("date", VStr "T0")],
      checkpointed [("children", VList [VStr "3"; VStr "b"]);
                    ("elapsed", VFloat 0); ("date", VStr "T0")]
                   Scenario.in_run_dir).
Proof.
  exact (proj2 (write_yaml_report_wraps_the_result Scenario.env
                  (ret (VList [VInt 3; VStr "b"])) [] Scenario.in_run_dir
                  (VList [VInt 3; VStr "b"]) Scenario.in_run_dir eq_refl)).
Defined.

(** ** [MetricsDriver] *)

Lemma check_metrics_Ok extractor items :
  MetricsDriver_check_metrics extractor items = Ok tt <->
  Forall (declared extractor) items.
Proof.
  induction items as [|[n v] items IH]; simpl.
  - split; auto.
  - destruct (dict_get n (metrics extractor)) as [metric|] eqn:Hn.
    + destruct (isinstance v (type metric)) eqn:Hv.
      * rewrite IH. split.
        -- intros H. constructor; [exists metric; auto | exact H].
        -- intros H. inversion H; auto.
      * split; [discriminate|]. intros H. inversion H as [|? ? Hd _]; subst.
        destruct Hd as (metric' & Hn' & Hv'). simpl in *. congruence.
    + split; [discriminate|]. intros H. inversion H as [|? ? Hd _]; subst.
      destruct Hd as (metric' & Hn' & _). simpl in *. congruence.
Qed.

Lemma check_metrics_raises extractor items item :
  item ∈ items -> ~ declared extractor item ->
  raises (MetricsDriver_check_metrics extractor items) = true.
Proof.
  intros Hin Hbad.
  destruct (MetricsDriver_check_metrics extractor items) as [[]|e] eqn:Hc;
    [|reflexivity].
  apply check_metrics_Ok in Hc. rewrite Forall_forall in Hc.
  destruct Hbad. apply Hc. exact Hin.
Qed.

Lemma append_metrics_Ok cat run_metrics metrics :
  (dict_get cat metrics = None \/ exists l, dict_get cat metrics = Some (VList l)) ->
  exists metrics',
    append_metrics cat run_metrics metrics = Ok metrics' /\
    dict_get cat metrics' =
      Some (VList (category_list cat metrics ++ [VDict run_metrics])) /\
    forall k, k <> cat -> dict_get k metrics' = dict_get k metrics.
Proof.
  unfold append_metrics, dict_setdefault, category_list.
  intros [Hnone|[l Hl]].
  - rewrite Hnone. eexists. split; [reflexivity|]. split.
    + rewrite dict_get_set_eq. reflexivity.
    + intros k Hk. rewrite !dict_get_set_ne; auto.
  - rewrite Hl. eexists. split; [reflexivity|]. split.
    + rewrite dict_get_set_eq. reflexivity.
    + intros k Hk. rewrite dict_get_set_ne; auto.
Qed.

Lemma append_metrics_inv cat run_metrics metrics metrics' :
  append_metrics cat run_metrics metrics = Ok metrics' ->
  dict_get cat metrics = None \/ exists l, dict_get cat metrics = Some (VList l).
Proof.
  unfold append_metrics, dict_setdefault.
  destruct (dict_get cat metrics) as [[]|]; try discriminate; eauto.
Qed.

(** The extractors of a category, run in order on a world they do not
    change: each mapping is validated and joins the list of the category. *)
Lemma extract_all_Ok exts : forall cat metas metrics w mappings,
  Forall2 (extracts (cwd w) metas (fs w)) exts mappings ->
  (dict_get cat metrics = None \/ exists l, dict_get cat metrics = Some (VList l)) ->
  exists metrics',
    extract_all exts cat metas metrics w = Ok (metrics', w) /\
    category_list cat metrics' =
      category_list cat metrics ++ map VDict mappings /\
    forall k, k <> cat -> dict_get k metrics' = dict_get k metrics.
Proof.
  induction exts as [|e exts IH]; intros cat metas metrics w mappings Hall Hcat.
  - inversion Hall; subst. exists metrics. simpl. rewrite app_nil_r. auto.
  - inversion Hall as [|? m ? ms [Hext Hdecl] Hrest]; subst.
    destruct (append_metrics_Ok cat m metrics Hcat) as (metrics1 & Happ & Hl & Ho).
    destruct (IH cat metas metrics1 w ms Hrest) as (metrics' & Hrun & Hl' & Ho').
    { right. eauto. }
    exists metrics'. split; [|split].
    + simpl. unfold bind, getcwd, lift. rewrite Hext.
      apply check_metrics_Ok in Hdecl. rewrite Hdecl, Happ. exact Hrun.
    + rewrite Hl'. unfold category_list at 1. rewrite Hl. simpl.
      rewrite <- app_assoc. reflexivity.
    + intros k Hk. rewrite Ho', Ho; auto.
Qed.

Lemma extract_all_inv exts : forall cat metas metrics w metrics' w',
  extract_all exts cat metas metrics w = Ok (metrics', w') ->
  w' = w /\
  exists mappings,
    Forall2 (extracts (cwd w) metas (fs w)) exts mappings /\
    category_list cat metrics' =
      category_list cat metrics ++ map VDict mappings /\
    forall k, k <> cat -> dict_get k metrics' = dict_get k metrics.
Proof.
  induction exts as [|e exts IH]; intros cat metas metrics w metrics' w' H.
  - injection H as <- <-. split; auto. exists []. simpl.
    rewrite app_nil_r. auto.
  - simpl in H. unfold bind, getcwd, lift in H.
    destruct (extract e (cwd w) metas (fs w)) as [m|] eqn:Hext; [|discriminate].
    destruct (MetricsDriver_check_metrics e m) as [[]|] eqn:Hc; [|discriminate].
    destruct (append_metrics cat m metrics) as [metrics1|] eqn:Happ;
      [|discriminate].
    apply IH in H as (-> & ms & Hall & Hl & Ho).
    split; auto. exists (m :: ms).
    destruct (append_metrics_Ok cat m metrics
                (append_metrics_inv _ _ _ _ Happ)) as (metrics1' & Happ' & Hl1 & Ho1).
    rewrite Happ in Happ'. injection Happ' as <-.
    split; [|split].
    + constructor; auto. split; auto. apply check_metrics_Ok; auto.
    + rewrite Hl. unfold category_list at 1. rewrite Hl1. simpl.
      rewrite <- app_assoc. reflexivity.
    + intros k Hk. rewrite Ho, Ho1; auto.
Qed.

Lemma extract_all_raises exts : forall cat metas metrics w e m item,
  e ∈ exts -> extract e (cwd w) metas (fs w) = Ok m ->
  item ∈ m -> ~ declared e item ->
  raises (extract_all exts cat metas metrics w) = true.
Proof.
  intros cat metas metrics w e m item He Hext Hitem Hbad.
  destruct (extract_all exts cat metas metrics w) as [[metrics' w']|] eqn:H;
    [|reflexivity].
  apply extract_all_inv in H as (_ & ms & Hall & _).
  apply list_elem_of_lookup in He as [i Hi].
  destruct (Forall2_lookup_l _ _ _ _ _ Hall Hi) as (m' & _ & Hm' & Hdecl).
  rewrite Hext in Hm'. injection Hm' as <-.
  rewrite Forall_forall in Hdecl. destruct Hbad. auto.
Qed.

Lemma MetricsDriver_call_eval E benchmark kwargs w doc :
  fs w !! resolve w YAML_REPORT_FILE = Some (FYaml doc) ->
  MetricsDriver_call E benchmark kwargs w =
  write_yaml_report E (MetricsDriver_body E benchmark doc) kwargs w.
Proof.
  intros Hdoc. unfold MetricsDriver_call, MetricsDriver_init, bind, yaml_load.
  rewrite Hdoc. reflexivity.
Qed.

Lemma metrics_of_stamp E start finish report :
  metrics_of (stamp E start finish report) = metrics_of report.
Proof.
  unfold metrics_of.
  destruct (stamp_keys E start finish report) as (_ & _ & ->);
    [reflexivity | discriminate | discriminate].
Qed.

(** C6 (as amended): for a run whose checkpoint names the category [cat],
    [MetricsDriver] raises when the benchmark registers no extractor for
    [cat]; it raises when one of the extractors of [cat] returns a metric
    whose name it does not declare, or whose value is not an instance of
    the declared type (a Boolean is an instance of [int]); and when every
    extractor returns declared, well-typed metrics, the call succeeds and
    the mappings are appended, in the order of the extractors, to the
    list that the report it returns keeps for [cat], after the mappings
    that were already there.  The report is stored in the checkpoint of
    the run exactly when [no_exec] is not among the keyword arguments:
    with [no_exec] the call changes nothing, and the mappings it returns
    are in no file. *)
Theorem metrics_are_validated_then_appended E benchmark kwargs w report cat :
  fs w !! resolve w YAML_REPORT_FILE = Some (FYaml (VDict report)) ->
  dict_get "category" report = Some (VStr cat) ->
  (dict_get cat (metrics_extractors benchmark) = None ->
   MetricsDriver_call E benchmark kwargs w =
   Raise (Exception ("No extractor for benchmark category " +:+ cat))) /\
  (forall x,
      dict_get cat (metrics_extractors benchmark) = Some x ->
      let metas := default VNone (dict_get "metas" report) in
      (forall e m item,
          e ∈ extractor_list x ->
          extract e (cwd w) metas (fs w) = Ok m ->
          item ∈ m ->
          (dict_get item.1 (metrics e) = None \/
           exists metric, dict_get item.1 (metrics e) = Some metric /\
                          isinstance item.2 (type metric) = false) ->
          raises (MetricsDriver_call E benchmark kwargs w) = true) /\
      (forall mappings,
          Forall2 (extracts (cwd w) metas (fs w)) (extractor_list x) mappings ->
          (dict_get "metrics" report = None \/
           exists metrics,
             dict_get "metrics" report = Some (VDict metrics) /\
             (dict_get cat metrics = None \/
              exists l, dict_get cat metrics = Some (VList l))) ->
          exists report' w',
            MetricsDriver_call E benchmark kwargs w = Ok (report', w') /\
            category_list cat (metrics_of report') =
              category_list cat (metrics_of report) ++ map VDict mappings /\
            (dict_contains "no_exec" kwargs = false ->
             fs w' !! resolve w YAML_REPORT_FILE =
             Some (FYaml (VDict report'))) /\
            (dict_contains "no_exec" kwargs = true -> w' = w))) /\
  (forall e name metric b,
      dict_get name (metrics e) = Some metric ->
      type metric = TInt ->
      MetricsDriver_check_metrics e [(name, VBool b)] = Ok tt).
Proof.
  intros Hdoc Hcat.
  rewrite (MetricsDriver_call_eval E benchmark kwargs w _ Hdoc).
  rewrite write_yaml_report_eval. simpl. rewrite Hcat.
  split; [intros ->; reflexivity|]. split.
  - intros x ->. split.
    + intros e m item He Hext Hitem Hbad.
      assert (Hnot : ~ declared e item).
      { intros (metric & Hm & Hi).
        destruct Hbad as [Hnone|(metric' & Hm' & Hi')]; congruence. }
      destruct (dict_setdefault "metrics" (VDict []) report)
        as [report1 [| | | | | |metrics]]; try reflexivity.
      unfold bind.
      pose proof (extract_all_raises (extractor_list x) cat
                    (default VNone (dict_get "metas" report)) metrics w e m item
                    He Hext Hitem Hnot) as Hr.
      destruct (extract_all _ _ _ _ w) as [[metrics' w1]|];
        [discriminate|reflexivity].
    + intros mappings Hall Hmetrics.
      assert (Hsd : exists report1 metrics,
                 dict_setdefault "metrics" (VDict []) report
                 = (report1, VDict metrics) /\
                 metrics = metrics_of report /\
                 (dict_get cat metrics = None \/
                  exists l, dict_get cat metrics = Some (VList l))).
      { unfold dict_setdefault, metrics_of.
        destruct Hmetrics as [Hnone|(metrics & Hsome & Hl)].
        - rewrite Hnone. eexists _, []. eauto.
        - rewrite Hsome. eexists _, metrics. eauto. }
      destruct Hsd as (report1 & metrics & -> & Hmo & Hl).
      destruct (extract_all_Ok (extractor_list x) cat
                  (default VNone (dict_get "metas" report)) metrics w mappings
                  Hall Hl) as (metrics' & Hrun & Hlist & _).
      unfold bind. rewrite Hrun. unfold ret. simpl.
      eexists _, _. split; [reflexivity|]. split; [|split].
      * rewrite metrics_of_stamp. unfold metrics_of at 1.
        rewrite dict_get_set_eq. rewrite Hlist, Hmo. reflexivity.
      * intros ->. unfold checkpointed. simpl. apply lookup_insert_eq.
      * intros ->. reflexivity.
  - intros e name metric b Hname Htype. simpl.
    rewrite Hname, Htype. reflexivity.
Qed.

(** The two extractors of the small campaign, on the run directory in
    which the command has been executed. *)
Lemma metrics_are_validated_then_appended_witness :
  exists report' w',
    MetricsDriver_call Scenario.env Scenario.benchmark [] Scenario.executed_run
    = Ok (report', w') /\
    category_list "foo" (metrics_of report') =
      [VDict [("a", VInt 1)]; VDict [("a", VInt 2)]] /\
    fs w' !! "/camp/run/hpcbench.yaml" = Some (FYaml (VDict report')).
Proof.
  assert (Hdoc : fs Scenario.executed_run
                   !! resolve Scenario.executed_run YAML_REPORT_FILE =
                 Some (FYaml (VDict Scenario.run_report)))
    by (vm_compute; reflexivity).
  assert (Hcat : dict_get "category" Scenario.run_report = Some (VStr "foo"))
    by reflexivity.
  destruct (metrics_are_validated_then_appended Scenario.env
              Scenario.benchmark [] Scenario.executed_run Scenario.run_report
              "foo" Hdoc Hcat) as (_ & Hfound & _).
  destruct (Hfound (Many [Scenario.first; Scenario.second]) eq_refl)
    as [_ Happended].
  destruct (Happended [[("a", VInt 1)]; [("a", VInt 2)]])
    as (report' & w' & Hcall & Hlist & Hstored & _).
  - repeat constructor; exists {| unit := "s"; type := TInt |};
      split; reflexivity.
  - left. reflexivity.
  - exists report', w'. split; [exact Hcall|]. split; [exact Hlist|].
    apply Hstored. reflexivity.
Defined.

(** C6 (the claim as stated fails): in the run directory that the first
    invocation of the small campaign left, re-extraction returns a report
    in which the two mappings have been appended to the two of the first
    invocation, while the checkpoint of the run, which the call does not
    write, still holds those two only; and the extractor that declares
    [a] as an [int] may return [True] for it. *)
Lemma re_extraction_appends_to_no_checkpoint :
  match MetricsDriver_call Scenario.env Scenario.benchmark
          [("no_exec", VBool true)]
          (with_cwd "/out/web-01/*/b1/foo/uuid-0" Scenario.after_first_run) with
  | Ok (report', w') =>
      category_list "foo" (metrics_of report') =
        [VDict [("a", VInt 1)]; VDict [("a", VInt 2)];
         VDict [("a", VInt 1)]; VDict [("a", VInt 2)]] /\
      exists stored,
        fs w' !! "/out/web-01/*/b1/foo/uuid-0/hpcbench.yaml" =
          Some (FYaml (VDict stored)) /\
        category_list "foo" (metrics_of stored) =
          [VDict [("a", VInt 1)]; VDict [("a", VInt 2)]]
  | Raise _ => False
  end /\
  MetricsDriver_check_metrics Scenario.first [("a", VBool true)] = Ok tt.
Proof.
  split; [|reflexivity].
  vm_compute. split; [reflexivity|]. eexists. split; reflexivity.
Qed.

(** ** The aggregation of metrics *)

Lemma dict_last_NoDup {A} k (d : list (string * A)) :
  NoDup (map fst d) -> dict_last k d = dict_get k d.
Proof.
  unfold dict_last. induction d as [|[k' v'] d IH]; intros Hnd; auto.
  inversion Hnd as [|? ? Hnotin Hnd']; subst. simpl.
  rewrite dict_get_app, (IH Hnd'). simpl.
  case_bool_decide; subst.
  - destruct (dict_get k d) as [v|] eqn:Hk; auto.
    destruct Hnotin. clear -Hk. induction d as [|[k0 v0] d IH]; [discriminate|].
    simpl in *. case_bool_decide; subst; [left | right]; auto.
  - destruct (dict_get k d); auto.
Qed.

Lemma dict_last_cons {A} k k' (v : A) d :
  dict_last k ((k', v) :: d) =
  match dict_last k d with
  | Some x => Some x
  | None => if bool_decide (k' = k) then Some v else None
  end.
Proof. unfold dict_last. simpl. rewrite dict_get_app. reflexivity. Qed.

Lemma map_VDict_inj (a b : list dict) : map VDict a = map VDict b -> a = b.
Proof.
  revert b. induction a as [|x a IH]; intros [|y b]; simpl; try discriminate.
  - reflexivity.
  - intros [= -> H]. f_equal. apply IH, H.
Qed.

Lemma merge_mappings_Ok ms : forall gathered,
  exists gathered',
    merge_mappings (map VDict ms) gathered = Ok gathered' /\
    forall name,
      dict_get name gathered' =
      match last_write name ms with
      | Some v => Some v
      | None => dict_get name gathered
      end.
Proof.
  induction ms as [|m ms IH]; intros gathered; simpl.
  - exists gathered. auto.
  - destruct (IH (dict_update gathered m)) as (gathered' & -> & Hget).
    exists gathered'. split; auto. intros name. rewrite Hget.
    destruct (last_write name ms); auto. apply dict_get_update.
Qed.

Lemma gather_categories_Ok items : forall gathered_metrics,
  Forall (fun item => exists ms, item.2 = VList (map VDict ms)) items ->
  exists gathered_metrics',
    gather_categories items gathered_metrics = Ok gathered_metrics' /\
    (forall cat ms,
        dict_last cat items = Some (VList (map VDict ms)) ->
        exists gathered,
          dict_get cat gathered_metrics' = Some (VDict gathered) /\
          forall name, dict_get name gathered = last_write name ms) /\
    (forall cat, dict_last cat items = None ->
                 dict_get cat gathered_metrics' = dict_get cat gathered_metrics).
Proof.
  induction items as [|[c v] items IH]; intros gm Hwf.
  - exists gm. simpl. repeat split; auto. intros cat ms. discriminate.
  - inversion Hwf as [|? ? [ms0 Hv] Hwf']; subst. simpl in Hv. subst v.
    simpl. destruct (merge_mappings_Ok ms0 []) as (g0 & -> & Hg0). simpl.
    destruct (IH (dict_set c (VDict g0) gm) Hwf') as (gm' & -> & Hsome & Hnone).
    exists gm'. split; auto. split.
    + intros cat ms. rewrite dict_last_cons.
      destruct (dict_last cat items) as [x|] eqn:Hlast.
      * intros [= ->]. apply Hsome. exact Hlast.
      * case_bool_decide; [|discriminate]. subst c.
        intros [= Heq]. apply map_VDict_inj in Heq. subst ms0. exists g0. rewrite (Hnone _ Hlast), dict_get_set_eq.
        split; auto. intros name. rewrite Hg0.
        destruct (last_write name ms); reflexivity.
    + intros cat. rewrite dict_last_cons.
      destruct (dict_last cat items) eqn:Hlast; [discriminate|].
      case_bool_decide; [discriminate|]. intros _.
      rewrite (Hnone _ Hlast). apply dict_get_set_ne. auto.
Qed.

Lemma gather_run_Ok run_dir data :
  metrics_well_formed data ->
  exists out,
    gather_run run_dir (VDict data) = Ok out /\
    dict_get "category" out = None /\
    dict_get "command" out = None /\
    dict_get "id" out = Some (VStr run_dir) /\
    (forall k, k <> "category" -> k <> "command" -> k <> "id" ->
               k <> "metrics" -> dict_get k out = dict_get k data) /\
    exists gathered_metrics,
      dict_get "metrics" out = Some (VDict gathered_metrics) /\
      forall cat ms,
        dict_last cat (metrics_of data) = Some (VList (map VDict ms)) ->
        exists gathered,
          dict_get cat gathered_metrics = Some (VDict gathered) /\
          forall name, dict_get name gathered = last_write name ms.
Proof.
  intros Hwf. unfold gather_run.
  set (data' := dict_set "id" (VStr run_dir)
                  (dict_pop "command" (dict_pop "category" data))).
  assert (Hm : dict_get "metrics" data' = dict_get "metrics" data).
  { unfold data'. rewrite dict_get_set_ne, !dict_get_pop_ne by discriminate.
    reflexivity. }
  assert (Hitems : exists items,
             match dict_get "metrics" data' with
             | None => Ok []
             | Some (VDict items) => Ok items
             | Some _ => Raise (AttributeError "items")
             end = Ok items /\
             items = metrics_of data /\
             Forall (fun item => exists ms, item.2 = VList (map VDict ms)) items).
  { rewrite Hm. unfold metrics_of.
    destruct Hwf as [->|(items & -> & Hall)]; eauto. }
  destruct Hitems as (items & -> & Hitems & Hall). simpl.
  destruct (gather_categories_Ok items [] Hall) as (gm & -> & Hsome & _). simpl.
  eexists. split; [reflexivity|]. repeat split.
  - unfold data'.
    rewrite !dict_get_set_ne, dict_get_pop_ne by discriminate.
    apply dict_get_pop_eq.
  - unfold data'. rewrite !dict_get_set_ne by discriminate.
    apply dict_get_pop_eq.
  - unfold data'. rewrite dict_get_set_ne by discriminate.
    apply dict_get_set_eq.
  - intros k H1 H2 H3 H4. unfold data'.
    rewrite !dict_get_set_ne, !dict_get_pop_ne; auto.
  - exists gm. split; [apply dict_get_set_eq|]. rewrite <- Hitems. exact Hsome.
Qed.

Lemma gather_entries_Ok E w run_dirs entries :
  Forall2 (gathered_from w) run_dirs entries ->
  gather_entries E run_dirs w = Ok (json_entries E entries, w).
Proof.
  induction 1 as [|run_dir out run_dirs entries (doc & Hdoc & Hout) Hrest IH];
    simpl; [reflexivity|].
  unfold bind, yaml_load, lift. rewrite Hdoc, Hout, IH. unfold ret.
  destruct Hrest; reflexivity.
Qed.

(** C5: [gather_metrics] writes, for the runs of a category taken in the
    order in which they were executed, the array of their documents; the
    document of a run is its checkpoint without the keys [category] and
    [command], with [id] set to the run identity, its other keys kept, and
    with, under [metrics], one flat mapping per category in which every
    metric name has the value given by the last of the category's mappings
    that binds it.  The mappings [{a: 1}] and [{a: 2}], in this order, merge
    into [{a: 2}]. *)
Theorem gather_metrics_merges_last_write_wins E :
  (forall category run_dirs entries w,
      Forall2 (gathered_from w) run_dirs entries ->
      BenchmarkCategoryDriver_gather_metrics E [(category, run_dirs)] w =
      Ok (tt, with_fs (<[resolve w JSON_METRICS_FILE :=
                           FText (json_array E entries)]> (fs w)) w)) /\
  (forall run_dir data,
      metrics_well_formed data ->
      exists out,
        gather_run run_dir (VDict data) = Ok out /\
        dict_get "category" out = None /\
        dict_get "command" out = None /\
        dict_get "id" out = Some (VStr run_dir) /\
        (forall k, k <> "category" -> k <> "command" -> k <> "id" ->
                   k <> "metrics" -> dict_get k out = dict_get k data) /\
        exists gathered_metrics,
          dict_get "metrics" out = Some (VDict gathered_metrics) /\
          forall cat ms,
            dict_last cat (metrics_of data) = Some (VList (map VDict ms)) ->
            exists gathered,
              dict_get cat gathered_metrics = Some (VDict gathered) /\
              forall name, dict_get name gathered = last_write name ms) /\
  merge_mappings [VDict [("a", VInt 1)]; VDict [("a", VInt 2)]] [] =
    Ok [("a", VInt 2)] /\
  gather_run "run"
    (VDict [("category", VStr "foo"); ("command", VList [VStr "cat"]);
            ("metas", VDict [("cores", VInt 1)]);
            ("metrics",
             VDict [("foo", VList [VDict [("a", VInt 1)];
                                   VDict [("a", VInt 2)]])])]) =
    Ok [("metas", VDict [("cores", VInt 1)]);
        ("metrics", VDict [("foo", VDict [("a", VInt 2)])]);
        ("id", VStr "run")].
Proof.
  split; [|split; [|split; reflexivity]].
  - intros category run_dirs entries w Hall.
    unfold BenchmarkCategoryDriver_gather_metrics. simpl.
    unfold bind. rewrite (gather_entries_Ok E w run_dirs entries Hall).
    reflexivity.
  - intros run_dir data. apply gather_run_Ok.
Qed.

(** The aggregation of the only run of the small campaign. *)
Lemma gather_metrics_merges_last_write_wins_witness :
  BenchmarkCategoryDriver_gather_metrics Scenario.env [("foo", ["run"])]
                                         Scenario.extracted =
  Ok (tt,
      with_fs
        (<["/camp/metrics.json" :=
             FText ("[" +:+ nl +:+
                    "{exit_status: 3, benchmark: 'bench', " +:+
                    "metas: {cores: 1}, elapsed: 0/1, date: 'T2', " +:+
                    "metrics: {foo: {a: 2}}, id: 'run'}" +:+ nl +:+
                    "]" +:+ nl)]> (fs Scenario.extracted))
        Scenario.extracted).
Proof.
  apply (proj1 (gather_metrics_merges_last_write_wins Scenario.env) "foo"
               ["run"]
               [[("exit_status", VInt 3); ("benchmark", VStr "bench");
                 ("metas", VDict [("cores", VInt 1)]);
                 ("elapsed", VFloat 0); ("date", VStr "T2");
                 ("metrics", VDict [("foo", VDict [("a", VInt 2)])]);
                 ("id", VStr "run")]]).
  repeat constructor.
  eexists. split; vm_compute; reflexivity.
Defined.

(** ** The selection of tags *)

Lemma elem_of_set_add t x (s : list string) :
  t ∈ set_add x s <-> t = x \/ t ∈ s.
Proof.
  unfold set_add. case_bool_decide.
  - split; auto. intros [->|]; auto.
  - rewrite elem_of_app, list_elem_of_singleton. tauto.
Qed.

Lemma existsb_hostnames (f : string -> bool) host :
  existsb f (hostnames host) = true <-> f host = true \/ f "localhost" = true.
Proof.
  rewrite existsb_exists. setoid_rewrite <- list_elem_of_In.
  unfold hostnames. setoid_rewrite elem_of_set_add.
  setoid_rewrite list_elem_of_singleton. split.
  - intros (x & [->| ->] & Hx); auto.
  - intros [H|H]; eauto.
Qed.

Lemma rule_match_selects host mode k hit :
  mode = "match" -> rule_match (hostnames host) k = Ok hit ->
  (hit = true <-> rule_selects host (mode, k)).
Proof.
  intros -> H. destruct k as [r| |]; try discriminate.
  injection H as <-. unfold rule_selects; simpl.
  rewrite existsb_hostnames. tauto.
Qed.

Lemma rule_nodes_selects host mode k hit :
  mode = "nodes" -> rule_nodes (hostnames host) k = Ok hit ->
  (hit = true <-> rule_selects host (mode, k)).
Proof.
  intros -> H. destruct k as [|hosts|]; try discriminate.
  injection H as <-. unfold rule_selects; simpl.
  rewrite existsb_hostnames, !bool_decide_eq_true. tauto.
Qed.

Lemma for_modes_Ok tag host config : forall benchmarks benchmarks',
  for_modes tag (hostnames host) config benchmarks = Ok benchmarks' ->
  (forall t, t ∈ benchmarks -> t ∈ benchmarks') /\
  (forall t, t ∈ benchmarks' ->
             t ∈ benchmarks \/
             t = tag /\ exists rule, rule ∈ config /\ rule_selects host rule) /\
  ((exists rule, rule ∈ config /\ rule_selects host rule) ->
   tag ∈ benchmarks').
Proof.
  induction config as [|[mode k] config IH]; intros b b'; simpl.
  - intros [= <-]. repeat split; auto.
    intros (rule & Hin & _). apply elem_of_nil in Hin. destruct Hin.
  - case_bool_decide as Hmatch; [|case_bool_decide as Hnodes].
    + intros H. apply res_bind_Ok in H as (hit & Hhit & H).
      pose proof (rule_match_selects host mode k hit Hmatch Hhit) as Hsel.
      apply IH in H as (Hi & Hii & Hiii).
      assert (Hb : forall t, t ∈ b -> t ∈ (if hit then set_add tag b else b)).
      { intros t Ht. destruct hit; auto. apply elem_of_set_add. auto. }
      repeat split.
      * auto.
      * intros t Ht. destruct (Hii t Ht) as [Hin|(-> & rule & Hr & Hs)].
        -- destruct hit; auto. apply elem_of_set_add in Hin as [->|]; auto.
           right. split; auto. exists (mode, k). split; [left|tauto].
        -- right. split; auto. exists rule. split; [right|]; auto.
      * intros (rule & Hr & Hs). apply elem_of_cons in Hr as [->|Hr].
        -- apply Hi. apply Hsel in Hs. rewrite Hs.
           apply elem_of_set_add. auto.
        -- apply Hiii. eauto.
    + intros H. apply res_bind_Ok in H as (hit & Hhit & H).
      pose proof (rule_nodes_selects host mode k hit Hnodes Hhit) as Hsel.
      destruct hit.
      * injection H as <-. repeat split.
        -- intros t Ht. apply elem_of_set_add. auto.
        -- intros t Ht. apply elem_of_set_add in Ht as [->|]; auto.
           right. split; auto. exists (mode, k). split; [left|tauto].
        -- intros _. apply elem_of_set_add. auto.
      * apply IH in H as (Hi & Hii & Hiii). repeat split.
        -- auto.
        -- intros t Ht. destruct (Hii t Ht) as [Hin|(-> & rule & Hr & Hs)];
             auto.
           right. split; auto. exists rule. split; [right|]; auto.
        -- intros (rule & Hr & Hs). apply elem_of_cons in Hr as [->|Hr].
           ++ apply Hsel in Hs. discriminate.
           ++ apply Hiii. eauto.
    + discriminate.
Qed.

Lemma for_configs_Ok tag host configs : forall benchmarks benchmarks',
  for_configs tag (hostnames host) configs benchmarks = Ok benchmarks' ->
  (forall t, t ∈ benchmarks -> t ∈ benchmarks') /\
  (forall t, t ∈ benchmarks' ->
             t ∈ benchmarks \/
             t = tag /\ exists config rule,
                 config ∈ configs /\ rule ∈ config /\ rule_selects host rule) /\
  ((exists config rule,
       config ∈ configs /\ rule ∈ config /\ rule_selects host rule) ->
   tag ∈ benchmarks').
Proof.
  induction configs as [|config configs IH]; intros b b'; simpl.
  - intros [= <-]. repeat split; auto.
    intros (config & rule & Hin & _). apply elem_of_nil in Hin. destruct Hin.
  - intros H. apply res_bind_Ok in H as (b1 & Hmodes & H).
    apply for_modes_Ok in Hmodes as (Mi & Mii & Miii).
    case_bool_decide as Htag.
    + injection H as <-. repeat split; auto.
      intros t Ht. destruct (Mii t Ht) as [|(-> & rule & Hr & Hs)]; auto.
      right. split; auto. exists config, rule. split; [left|]; auto.
    + apply IH in H as (Hi & Hii & Hiii). repeat split.
      * auto.
      * intros t Ht. destruct (Hii t Ht) as [Hin|(-> & c & rule & Hc & Hr & Hs)].
        -- destruct (Mii t Hin) as [|(-> & rule & Hr & Hs)]; auto.
           right. split; auto. exists config, rule. split; [left|]; auto.
        -- right. split; auto. exists c, rule. split; [right|]; auto.
      * intros (c & rule & Hc & Hr & Hs). apply elem_of_cons in Hc as [->|Hc].
        -- apply Hi, Miii. eauto.
        -- apply Hiii. eauto.
Qed.

Lemma for_tags_Ok host tags : forall benchmarks benchmarks',
  for_tags (hostnames host) tags benchmarks = Ok benchmarks' ->
  forall t, t ∈ benchmarks' <-> t ∈ benchmarks \/ tag_selected tags host t.
Proof.
  induction tags as [|[tag configs] tags IH]; intros b b'; simpl.
  - intros [= <-] t. split; auto.
    intros [|(configs & c & r & Hin & _)]; auto.
    apply elem_of_nil in Hin. destruct Hin.
  - intros H t. apply res_bind_Ok in H as (b1 & Hconfigs & H).
    apply for_configs_Ok in Hconfigs as (Ci & Cii & Ciii).
    rewrite (IH _ _ H t). split.
    + intros [Hin|(configs' & c & r & Ht & Hc & Hr & Hs)].
      * destruct (Cii t Hin) as [|(-> & c & r & Hc & Hr & Hs)]; auto.
        right. exists configs, c, r. split; [left|]; auto.
      * right. exists configs', c, r. split; [right|]; auto.
    + intros [Hin|(configs' & c & r & Ht & Hc & Hr & Hs)]; auto.
      apply elem_of_cons in Ht as [[= -> ->]|Ht].
      * left. apply Ciii. eauto.
      * right. exists configs', c, r. auto.
Qed.

Lemma for_modes_total tag hostnames config : forall benchmarks,
  Forall rule_well_formed config ->
  exists benchmarks', for_modes tag hostnames config benchmarks = Ok benchmarks'.
Proof.
  induction config as [|[mode k] config IH]; intros b Hwf; simpl; eauto.
  inversion Hwf as [|? ? Hrule Hrest]; subst.
  unfold rule_well_formed in Hrule. simpl in Hrule.
  destruct k as [r|hosts|v]; [| |destruct Hrule]; subst mode; simpl.
  - apply IH, Hrest.
  - destruct (existsb _ hostnames); eauto.
Qed.

Lemma for_configs_total tag hostnames configs : forall benchmarks,
  Forall (Forall rule_well_formed) configs ->
  exists benchmarks',
    for_configs tag hostnames configs benchmarks = Ok benchmarks'.
Proof.
  induction configs as [|config configs IH]; intros b Hwf; simpl; eauto.
  inversion Hwf as [|? ? Hconfig Hrest]; subst.
  destruct (for_modes_total tag hostnames config b Hconfig) as [b1 ->]. simpl.
  case_bool_decide; eauto.
Qed.

Lemma for_tags_total hostnames tags : forall benchmarks,
  Forall (fun item => Forall (Forall rule_well_formed) item.2) tags ->
  exists benchmarks', for_tags hostnames tags benchmarks = Ok benchmarks'.
Proof.
  induction tags as [|[tag configs] tags IH]; intros b Hwf; simpl; eauto.
  inversion Hwf as [|? ? Hconfigs Hrest]; subst.
  destruct (for_configs_total tag hostnames configs b Hconfigs) as [b1 ->].
  simpl. apply IH, Hrest.
Qed.

Lemma HostDriver_children_Ok campaign host benchmarks :
  HostDriver_children campaign host = Ok benchmarks ->
  "*" ∈ benchmarks /\
  forall tag, tag ∈ benchmarks <->
              tag = "*" \/ tag_selected (tags (network campaign)) host tag.
Proof.
  intros H. pose proof (for_tags_Ok _ _ _ _ H) as Hchar.
  split.
  - apply Hchar. left. apply list_elem_of_singleton. reflexivity.
  - intros tag. rewrite Hchar, list_elem_of_singleton. reflexivity.
Qed.

Lemma tag_selected_single host tag tag' rule :
  tag_selected [(tag, [[rule]])] host tag' <->
  tag' = tag /\ rule_selects host rule.
Proof.
  unfold tag_selected. split.
  - intros (configs & c & r & Ht & Hc & Hr & Hs).
    apply list_elem_of_singleton in Ht as [= -> ->].
    apply list_elem_of_singleton in Hc as ->.
    apply list_elem_of_singleton in Hr as ->. auto.
  - intros [-> Hs]. exists [[rule]], [rule], rule.
    rewrite !list_elem_of_singleton. auto.
Qed.

(** C4: whenever [HostDriver.children] returns, the set holds ['*'], and a
    tag other than ['*'] is in it exactly when one of the rules declared
    for the tag selects it: a [match] rule whose pattern matches the host
    name or [localhost], or a [nodes] rule whose set holds one of these two
    names; it does return when every rule is a [match] rule with a pattern
    or a [nodes] rule with a set.  For a tag with the single rule
    [{match: pattern}], and for a tag with the single rule [{nodes: set}],
    this decides the membership of the tag.  With [{match: "^web.*"}] for
    the tag [web] the host [web-01] gets [{'*', 'web'}]; with
    [{nodes: {'db-01'}}] for the tag [db] it gets [{'*'}]. *)
Theorem host_children_are_the_selected_tags :
  (forall campaign host benchmarks,
      HostDriver_children campaign host = Ok benchmarks ->
      "*" ∈ benchmarks /\
      forall tag, tag ∈ benchmarks <->
                  tag = "*" \/ tag_selected (tags (network campaign)) host tag) /\
  (forall campaign host,
      Forall (fun item => Forall (Forall rule_well_formed) item.2)
             (tags (network campaign)) ->
      exists benchmarks, HostDriver_children campaign host = Ok benchmarks) /\
  (forall campaign host tag r,
      tags (network campaign) = [(tag, [[("match", KPattern r)]])] ->
      exists benchmarks,
        HostDriver_children campaign host = Ok benchmarks /\
        "*" ∈ benchmarks /\
        (tag ∈ benchmarks <->
         tag = "*" \/ re_match r host = true \/ re_match r "localhost" = true)) /\
  (forall campaign host tag hosts,
      tags (network campaign) = [(tag, [[("nodes", KNodes hosts)]])] ->
      exists benchmarks,
        HostDriver_children campaign host = Ok benchmarks /\
        "*" ∈ benchmarks /\
        (tag ∈ benchmarks <->
         tag = "*" \/ host ∈ hosts \/ "localhost" ∈ hosts)) /\
  (forall campaign,
      tags (network campaign) =
        [("web", [[("match", KPattern Scenario.web_pattern)]])] ->
      HostDriver_children campaign "web-01" = Ok ["*"; "web"]) /\
  (forall campaign,
      tags (network campaign) = [("db", [[("nodes", KNodes ["db-01"])]])] ->
      HostDriver_children campaign "web-01" = Ok ["*"]).
Proof.
  split; [exact HostDriver_children_Ok|].
  split; [intros campaign host; apply for_tags_total|].
  split; [|split; [|split]].
  - intros campaign host tag r Htags.
    destruct (for_tags_total (hostnames host) (tags (network campaign)) ["*"])
      as [benchmarks Hb].
    { rewrite Htags. repeat constructor. }
    exists benchmarks. split; [exact Hb|].
    destruct (HostDriver_children_Ok campaign host benchmarks Hb) as [Hstar Hchar].
    split; [exact Hstar|]. rewrite Hchar, Htags, tag_selected_single.
    unfold rule_selects. simpl. tauto.
  - intros campaign host tag hosts Htags.
    destruct (for_tags_total (hostnames host) (tags (network campaign)) ["*"])
      as [benchmarks Hb].
    { rewrite Htags. repeat constructor. }
    exists benchmarks. split; [exact Hb|].
    destruct (HostDriver_children_Ok campaign host benchmarks Hb) as [Hstar Hchar].
    split; [exact Hstar|]. rewrite Hchar, Htags, tag_selected_single.
    unfold rule_selects. simpl. tauto.
  - intros campaign Htags. unfold HostDriver_children. rewrite Htags.
    reflexivity.
  - intros campaign Htags. unfold HostDriver_children. rewrite Htags.
    reflexivity.
Qed.

(** The two rules together, on the hosts [web-01] and [db-01]. *)
Lemma host_children_are_the_selected_tags_witness :
  ("*" ∈ ["*"; "web"] /\
   forall tag, tag ∈ ["*"; "web"] <->
               tag = "*" \/
               tag_selected (tags (network Scenario.campaign)) "web-01" tag) /\
  HostDriver_children Scenario.campaign "db-01" = Ok ["*"; "db"].
Proof.
  split; [|reflexivity].
  apply (proj1 host_children_are_the_selected_tags Scenario.campaign "web-01").
  reflexivity.
Defined.

(** ** What the drivers leave unchanged *)

Lemma preserves_write_yaml_report {B} (obs : world -> B) E func kwargs :
  fs_free obs -> preserves obs func ->
  preserves obs (write_yaml_report E func kwargs).
Proof.
  intros Hfree Hfunc w report w' H. rewrite write_yaml_report_eval in H.
  destruct (func w) as [[data w1]|] eqn:Hf; [|discriminate].
  apply Hfunc in Hf. rewrite <- Hf.
  destruct data; try discriminate; simpl in H;
    destruct (dict_contains "no_exec" kwargs); injection H as _ <-;
    auto; apply Hfree.
Qed.

#[export] Hint Resolve preserves_write_yaml_report : frame.

Lemma extract_all_world exts cat metas metrics w metrics' w' :
  extract_all exts cat metas metrics w = Ok (metrics', w') -> w' = w.
Proof. intros H. apply extract_all_inv in H as [-> _]. reflexivity. Qed.

Lemma MetricsDriver_body_world E benchmark doc w data w' :
  MetricsDriver_body E benchmark doc w = Ok (data, w') -> w' = w.
Proof.
  unfold MetricsDriver_body, no_extractor, raise.
  destruct doc as [| | | | | |report]; try discriminate.
  destruct (dict_get "category" report) as [[| | | |cat| |]|]; try discriminate.
  destruct (dict_get cat _) as [x|]; try discriminate.
  destruct (dict_setdefault _ _ _) as [report' [| | | | | |metrics]];
    try discriminate.
  intros H. apply bind_Ok in H as (metrics' & w1 & H1 & [= _ <-]).
  eapply extract_all_world, H1.
Qed.

Lemma preserves_MetricsDriver_body {B} (obs : world -> B) E benchmark doc :
  preserves obs (MetricsDriver_body E benchmark doc).
Proof.
  intros w data w' H. apply MetricsDriver_body_world in H as ->. reflexivity.
Qed.

Lemma preserves_MetricsDriver_call {B} (obs : world -> B) E benchmark kwargs :
  fs_free obs -> preserves obs (MetricsDriver_call E benchmark kwargs).
Proof.
  intros Hfree. unfold MetricsDriver_call, MetricsDriver_init.
  auto using preserves_MetricsDriver_body with frame.
Qed.

#[export] Hint Resolve preserves_MetricsDriver_call : frame.

(** With [no_exec], [MetricsDriver] leaves the world as it found it. *)
Lemma MetricsDriver_call_no_exec E benchmark kwargs w report w' :
  dict_contains "no_exec" kwargs = true ->
  MetricsDriver_call E benchmark kwargs w = Ok (report, w') -> w' = w.
Proof.
  intros Hno H. unfold MetricsDriver_call, MetricsDriver_init in H.
  apply bind_Ok in H as (doc & w1 & Hload & H).
  apply yaml_load_world in Hload as ->.
  rewrite write_yaml_report_eval in H.
  destruct (MetricsDriver_body E benchmark doc w) as [[data w2]|] eqn:Hbody;
    [|discriminate].
  apply MetricsDriver_body_world in Hbody as ->.
  rewrite Hno in H. destruct data; try discriminate; injection H as _ <-;
    reflexivity.
Qed.

Lemma extract_again_no_exec E benchmark category kwargs children :
  dict_contains "no_exec" kwargs = true ->
  forall runs w runs' w',
    extract_again E benchmark category kwargs children runs w = Ok (runs', w') ->
    w' = w.
Proof.
  intros Hno. induction children as [|child children IH];
    intros runs w runs' w' H; simpl in H.
  - injection H as _ <-. reflexivity.
  - apply bind_Ok in H as (config & w1 & Hload & H).
    apply yaml_load_world in Hload as ->.
    destruct config; try discriminate.
    apply bind_Ok in H as (r & w2 & Hpush & H).
    assert (w2 = w) as ->.
    { unfold pushd in Hpush.
      destruct (MetricsDriver_call _ _ _ _) as [[r' w3]|] eqn:Hcall;
        [|discriminate].
      apply (MetricsDriver_call_no_exec _ _ _ _ _ _ Hno) in Hcall as ->.
      injection Hpush as _ <-. destruct w; reflexivity. }
    eapply IH, H.
Qed.

Lemma gather_entries_world E run_dirs : forall w text w',
  gather_entries E run_dirs w = Ok (text, w') -> w' = w.
Proof.
  induction run_dirs as [|run_dir run_dirs IH]; intros w text w' H; simpl in H.
  - injection H as _ <-. reflexivity.
  - apply bind_Ok in H as (doc & w1 & Hload & H).
    apply yaml_load_world in Hload as ->.
    apply bind_Ok in H as (data & w2 & Hlift & H).
    apply lift_Ok in Hlift as [_ ->].
    apply bind_Ok in H as (others & w3 & Hrest & [= _ <-]).
    eapply IH, Hrest.
Qed.

Lemma preserves_gather_entries {B} (obs : world -> B) E run_dirs :
  preserves obs (gather_entries E run_dirs).
Proof.
  intros w text w' H. apply gather_entries_world in H as ->. reflexivity.
Qed.

Lemma preserves_gather_metrics {B} (obs : world -> B) E runs :
  fs_free obs -> preserves obs (BenchmarkCategoryDriver_gather_metrics E runs).
Proof.
  intros Hfree. unfold BenchmarkCategoryDriver_gather_metrics.
  auto using preserves_gather_entries with frame.
Qed.

#[export] Hint Resolve preserves_gather_metrics : frame.

(** [gather_metrics] writes [metrics.json] and no other file. *)
Lemma gather_metrics_files E runs : forall w w' path,
  BenchmarkCategoryDriver_gather_metrics E runs w = Ok (tt, w') ->
  path <> resolve w JSON_METRICS_FILE ->
  fs w' !! path = fs w !! path.
Proof.
  unfold BenchmarkCategoryDriver_gather_metrics.
  induction runs as [|item runs IH]; intros w w' path H Hpath; simpl in H.
  - injection H as <-. reflexivity.
  - apply bind_Ok in H as ([] & w1 & Hitem & H).
    apply bind_Ok in Hitem as (text & w0 & Hentries & Hwrite).
    apply gather_entries_world in Hentries as ->.
    injection Hwrite as <-.
    rewrite (IH _ _ path H); [|exact Hpath].
    simpl. apply lookup_insert_ne. auto.
Qed.

(** ** The Category node without execution *)

Lemma Enumerator_report_world w report w' :
  Enumerator_report w = Ok (report, w') -> w' = w.
Proof.
  unfold Enumerator_report, bind, yaml_load.
  destruct (fs w !! _) as [[[]|]|]; try discriminate.
  intros [= _ <-]. reflexivity.
Qed.

Lemma re_extract_body E benchmark category kwargs w data w1 :
  dict_contains "no_exec" kwargs = true ->
  dict_contains "plot" kwargs = false ->
  BenchmarkCategoryDriver_body E benchmark category kwargs w = Ok (data, w1) ->
  data = VList [] /\
  cwd w1 = cwd w /\ clock w1 = clock w /\ spawned w1 = spawned w /\
  uuids w1 = uuids w /\
  forall path, path <> resolve w JSON_METRICS_FILE ->
               fs w1 !! path = fs w !! path.
Proof.
  intros Hno Hplot H. unfold BenchmarkCategoryDriver_body in H.
  rewrite Hno, Hplot in H. simpl in H.
  apply bind_Ok in H as (report & w0 & Hreport & H).
  apply Enumerator_report_world in Hreport as ->.
  apply bind_Ok in H as (children & w0 & Hchildren & H).
  apply lift_Ok in Hchildren as [_ ->].
  apply bind_Ok in H as (runs & w0 & Hruns & H).
  apply (extract_again_no_exec _ _ _ _ _ Hno) in Hruns as ->.
  apply bind_Ok in H as ([] & w2 & Hgather & [= <- <-]).
  split; [reflexivity|].
  split; [eapply (preserves_gather_metrics cwd), Hgather; auto with frame|].
  split; [eapply (preserves_gather_metrics clock), Hgather; auto with frame|].
  split; [eapply (preserves_gather_metrics spawned), Hgather; auto with frame|].
  split; [eapply (preserves_gather_metrics uuids), Hgather; auto with frame|].
  intros path Hpath. eapply gather_metrics_files; eauto.
Qed.

(** C2 (as amended): the wrapper stores the report it returns exactly when
    [no_exec] is absent from the keyword arguments of the call, the same
    key that selects the modes without execution.  A Category node invoked
    with [no_exec] and without [plot] therefore writes no checkpoint: it
    returns the document [{children: [], elapsed, date}], spawns nothing,
    and leaves every file as it was, [metrics.json] in its directory
    excepted. *)
Theorem checkpoint_is_skipped_exactly_with_no_exec E :
  (forall (func : M value) kwargs w data w1,
      func w = Ok (data, w1) ->
      type_of data = TList \/ type_of data = TDict ->
      exists report,
        write_yaml_report E func kwargs w =
        Ok (report,
            if dict_contains "no_exec" kwargs then w1
            else checkpointed report w1)) /\
  (forall benchmark category kwargs w report w',
      dict_contains "no_exec" kwargs = true ->
      dict_contains "plot" kwargs = false ->
      BenchmarkCategoryDriver_call E benchmark category kwargs w
      = Ok (report, w') ->
      report = stamp E (clock w) (clock w) [("children", VList [])] /\
      cwd w' = cwd w /\ spawned w' = spawned w /\ uuids w' = uuids w /\
      forall path, path <> resolve w JSON_METRICS_FILE ->
                   fs w' !! path = fs w !! path).
Proof.
  split.
  - intros func kwargs w data w1 Hfunc Htype.
    rewrite write_yaml_report_eval, Hfunc.
    destruct data; destruct Htype as [Ht|Ht]; try discriminate Ht;
      eexists; reflexivity.
  - intros benchmark category kwargs w report w' Hno Hplot H.
    unfold BenchmarkCategoryDriver_call in H.
    rewrite write_yaml_report_eval in H.
    destruct (BenchmarkCategoryDriver_body E benchmark category kwargs w)
      as [[data w1]|] eqn:Hbody; [|discriminate].
    apply (re_extract_body _ _ _ _ _ _ _ Hno Hplot) in Hbody
      as (-> & Hcwd & Hclock & Hspawned & Huuids & Hfs).
    simpl in H. rewrite Hno, Hclock in H. injection H as <- <-. auto.
Qed.

(** Re-extraction at the Category node of the small campaign, after its
    first run. *)
Lemma checkpoint_is_skipped_exactly_with_no_exec_witness :
  match BenchmarkCategoryDriver_call Scenario.env Scenario.benchmark "foo"
          [("no_exec", VBool true)] Scenario.category_dir with
  | Ok (report, w') =>
      report =
        stamp Scenario.env (clock Scenario.category_dir)
              (clock Scenario.category_dir) [("children", VList [])] /\
      cwd w' = cwd Scenario.category_dir /\
      spawned w' = spawned Scenario.category_dir /\
      uuids w' = uuids Scenario.category_dir /\
      forall path, path <> resolve Scenario.category_dir JSON_METRICS_FILE ->
                   fs w' !! path = fs Scenario.category_dir !! path
  | Raise _ => False
  end.
Proof.
  destruct (BenchmarkCategoryDriver_call Scenario.env Scenario.benchmark "foo"
              [("no_exec", VBool true)] Scenario.category_dir)
    as [[report w']|e] eqn:Hcall.
  - apply (proj2 (checkpoint_is_skipped_exactly_with_no_exec Scenario.env)
                 Scenario.benchmark "foo" [("no_exec", VBool true)]
                 Scenario.category_dir report w');
      [reflexivity | reflexivity | exact Hcall].
  - vm_compute in Hcall. discriminate Hcall.
Defined.

(** C2 (the claim as stated fails): after the first run of the small
    campaign, re-extraction at its Category node returns a document with no
    children and leaves the checkpoint of the node as the first run wrote
    it, which is not the document of this invocation. *)
Lemma re_extract_leaves_the_checkpoint_unwritten :
  match BenchmarkCategoryDriver_call Scenario.env Scenario.benchmark "foo"
          [("no_exec", VBool true)] Scenario.category_dir with
  | Ok (report, w') =>
      dict_get "children" report = Some (VList []) /\
      fs w' !! "/out/web-01/*/b1/foo/hpcbench.yaml" =
      Some (FYaml (VDict [("children", VList [VStr "uuid-0"]);
                          ("elapsed", VFloat 2); ("date", VStr "T0")])) /\
      fs w' !! "/out/web-01/*/b1/foo/hpcbench.yaml" <>
      Some (FYaml (VDict report))
  | Raise _ => False
  end.
Proof.
  vm_compute. split; [reflexivity|]. split; [reflexivity|]. discriminate.
Qed.

(** ** Children, checkpointed and fresh *)

Lemma strings_of_map_VStr cs : strings_of (map VStr cs) = Ok cs.
Proof. induction cs as [|c cs IH]; simpl; [|rewrite IH]; reflexivity. Qed.

Lemma map_str_VStr E cs :
  map (fun x => VStr (str E x)) (map VStr cs) = map VStr cs.
Proof. induction cs as [|c cs IH]; simpl; [|rewrite IH]; reflexivity. Qed.

Lemma Enumerator__children_fresh (children : M (list string)) w :
  fs w !! resolve w YAML_REPORT_FILE = None ->
  Enumerator__children children w = children w.
Proof.
  intros Hnone. unfold Enumerator__children, bind, isfile. rewrite Hnone.
  rewrite bool_decide_eq_false_2; [reflexivity|].
  intros [x Hx]. discriminate.
Qed.

Lemma Enumerator__children_checkpointed (children : M (list string)) w report cs :
  fs w !! resolve w YAML_REPORT_FILE = Some (FYaml (VDict report)) ->
  children_of report = Ok cs ->
  Enumerator__children children w = Ok (cs, w).
Proof.
  intros Hsome Hcs.
  unfold Enumerator__children, Enumerator_report, bind, isfile, yaml_load.
  rewrite Hsome. rewrite bool_decide_eq_true_2 by eauto.
  simpl. rewrite Hsome. simpl. unfold lift. rewrite Hcs. reflexivity.
Qed.

Lemma Enumerator_body_eval children child_builder kwargs w cs w1 :
  Enumerator__children children w = Ok (cs, w1) ->
  Enumerator_body children child_builder kwargs w =
  (for_each cs
     (fun child =>
        pushd child true
          (let* child_obj := lift (child_builder child) in
           child_obj kwargs ;; ret tt)) ;;
   ret (VList (map VStr cs))) w1.
Proof. intros H. unfold Enumerator_body, bind. rewrite H. reflexivity. Qed.

Lemma Enumerator_body_inv children child_builder kwargs w cs w0 data w1 :
  Enumerator__children children w = Ok (cs, w0) ->
  Enumerator_body children child_builder kwargs w = Ok (data, w1) ->
  data = VList (map VStr cs) /\ cwd w1 = cwd w0.
Proof.
  intros Hcs H. rewrite (Enumerator_body_eval _ _ _ _ _ _ Hcs) in H.
  apply bind_Ok in H as ([] & w2 & Hloop & [= <- <-]). split; auto.
  eapply (preserves_for_each cwd); [|exact Hloop].
  intros child. apply pushd_cwd.
Qed.

(** A node invoked where a checkpoint records the children [cs] returns
    [cs], in this order, whatever its [children] would compute. *)
Lemma Enumerator_call_checkpointed E children child_builder kwargs w old cs
      report w' :
  fs w !! resolve w YAML_REPORT_FILE = Some (FYaml (VDict old)) ->
  children_of old = Ok cs ->
  Enumerator_call E children child_builder kwargs w = Ok (report, w') ->
  recorded_children report = Some (VList (map VStr cs)) /\
  cwd w' = cwd w /\
  (dict_contains "no_exec" kwargs = false ->
   fs w' !! resolve w YAML_REPORT_FILE = Some (FYaml (VDict report))).
Proof.
  intros Hold Hcs H. unfold Enumerator_call in H.
  rewrite write_yaml_report_eval in H.
  destruct (Enumerator_body children child_builder kwargs w)
    as [[data w1]|] eqn:Hbody; [|discriminate].
  apply (Enumerator_body_inv _ _ _ _ _ _ _ _
           (Enumerator__children_checkpointed children w old cs Hold Hcs))
    in Hbody as [-> Hcwd].
  simpl in H. rewrite map_str_VStr in H. injection H as <- <-.
  unfold recorded_children.
  destruct (stamp_keys E (clock w) (clock w1) [("children", VList (map VStr cs))])
    as (_ & _ & Hk).
  split; [rewrite Hk by discriminate; reflexivity|].
  split.
  - destruct (dict_contains "no_exec" kwargs); simpl; auto.
  - intros ->. unfold checkpointed, resolve. simpl. rewrite Hcwd.
    apply lookup_insert_eq.
Qed.

(** A node whose [children] is a pure computation, invoked in its default
    mode, leaves a checkpoint that records the children it returned. *)
Lemma Enumerator_call_records E (children : res (list string)) child_builder
      kwargs w report w' :
  dict_contains "no_exec" kwargs = false ->
  Enumerator_call E (lift children) child_builder kwargs w = Ok (report, w') ->
  exists cs,
    recorded_children report = Some (VList (map VStr cs)) /\
    children_of report = Ok cs /\
    cwd w' = cwd w /\
    fs w' !! resolve w' YAML_REPORT_FILE = Some (FYaml (VDict report)).
Proof.
  intros Hno H. unfold Enumerator_call in H.
  rewrite write_yaml_report_eval in H.
  destruct (Enumerator_body (lift children) child_builder kwargs w)
    as [[data w1]|] eqn:Hbody; [|discriminate].
  assert (Hcs : exists cs, Enumerator__children (lift children) w = Ok (cs, w)).
  { unfold Enumerator_body in Hbody.
    apply bind_Ok in Hbody as (cs & w0 & Hcs & _). exists cs.
    assert (w0 = w) as ->; [|exact Hcs].
    unfold Enumerator__children in Hcs.
    apply bind_Ok in Hcs as (b & w2 & [= <- <-] & Hcs).
    destruct (bool_decide _).
    - apply bind_Ok in Hcs as (r & w3 & Hr & Hcs).
      apply Enumerator_report_world in Hr as ->.
      apply lift_Ok in Hcs as [_ ->]. reflexivity.
    - apply lift_Ok in Hcs as [_ ->]. reflexivity. }
  destruct Hcs as [cs Hcs].
  apply (Enumerator_body_inv _ _ _ _ _ _ _ _ Hcs) in Hbody as [-> Hcwd].
  simpl in H. rewrite map_str_VStr, Hno in H. injection H as <- <-.
  exists cs.
  destruct (stamp_keys E (clock w) (clock w1) [("children", VList (map VStr cs))])
    as (_ & _ & Hk).
  assert (Hrec : dict_get "children"
                   (stamp E (clock w) (clock w1)
                          [("children", VList (map VStr cs))]) =
                 Some (VList (map VStr cs)))
    by (rewrite Hk by discriminate; reflexivity).
  split; [exact Hrec|]. split; [|split].
  - unfold children_of, dict_item. rewrite Hrec. simpl.
    apply strings_of_map_VStr.
  - exact Hcwd.
  - unfold checkpointed, resolve. simpl. apply lookup_insert_eq.
Qed.

Lemma elem_of_set_add_NoDup x (s : list string) :
  NoDup s -> NoDup (set_add x s).
Proof.
  intros Hnd. unfold set_add. case_bool_decide as Hin; auto.
  apply NoDup_app. repeat split; auto.
  - intros y Hy Hy'. apply list_elem_of_singleton in Hy'. subst. auto.
  - apply NoDup_singleton.
Qed.

Lemma BenchmarkDriver_children_Ok matrix : forall categories cats,
  NoDup categories ->
  BenchmarkDriver_children matrix categories = Ok cats ->
  NoDup cats /\
  forall c, c ∈ cats <->
            c ∈ categories \/
            exists execution,
              execution ∈ matrix /\
              dict_get "category" execution = Some (VStr c).
Proof.
  induction matrix as [|execution matrix IH]; intros categories cats Hnd H;
    simpl in H.
  - injection H as <-. split; auto. intros c. split; auto.
    intros [|(e & He & _)]; auto. apply elem_of_nil in He. destruct He.
  - destruct (dict_get "category" execution) as [[| | | |c0| |]|] eqn:Hc;
      try discriminate.
    apply IH in H as [Hnd' Hchar]; [|apply elem_of_set_add_NoDup, Hnd].
    split; auto. intros c. rewrite Hchar, elem_of_set_add. split.
    + intros [[->|]|(e & He & Hcat)]; auto.
      * right. exists execution. split; [left|]; auto.
      * right. exists e. split; [right|]; auto.
    + intros [|(e & He & Hcat)]; auto.
      apply elem_of_cons in He as [->|He].
      * left. left. congruence.
      * right. eauto.
Qed.

(** C9 (as amended): for every node, [_children] is the [children] list of
    the checkpoint when the directory of the node holds one, and the
    freshly computed children otherwise.  At the nodes that keep the
    generic invocation (Campaign, Host, Tag, Benchmark) the children are
    invoked in the order of this list, which is what the invocation
    returns; once such a node has run and stored its checkpoint, running
    it again returns the recorded children in the recorded order, whatever
    its [children] would now compute.  So it is at the Benchmark node, whose
    fresh children are the distinct categories of its execution matrix in
    the order in which the set happens to be iterated. *)
Theorem checkpointed_children_are_frozen :
  (forall (children : M (list string)) w,
      fs w !! resolve w YAML_REPORT_FILE = None ->
      Enumerator__children children w = children w) /\
  (forall (children : M (list string)) w report cs,
      fs w !! resolve w YAML_REPORT_FILE = Some (FYaml (VDict report)) ->
      children_of report = Ok cs ->
      Enumerator__children children w = Ok (cs, w)) /\
  (forall children child_builder kwargs w cs w1,
      Enumerator__children children w = Ok (cs, w1) ->
      Enumerator_body children child_builder kwargs w =
      (for_each cs
         (fun child =>
            pushd child true
              (let* child_obj := lift (child_builder child) in
               child_obj kwargs ;; ret tt)) ;;
       ret (VList (map VStr cs))) w1) /\
  (forall E (children : res (list string)) child_builder kwargs w report w',
      dict_contains "no_exec" kwargs = false ->
      Enumerator_call E (lift children) child_builder kwargs w
      = Ok (report, w') ->
      exists cs,
        recorded_children report = Some (VList (map VStr cs)) /\
        fs w' !! resolve w' YAML_REPORT_FILE = Some (FYaml (VDict report)) /\
        forall E' children' child_builder' kwargs' report' w'',
          Enumerator_call E' children' child_builder' kwargs' w'
          = Ok (report', w'') ->
          recorded_children report' = Some (VList (map VStr cs))) /\
  (forall E benchmark kwargs w report w',
      dict_contains "no_exec" kwargs = false ->
      BenchmarkDriver_call E benchmark kwargs w = Ok (report, w') ->
      forall E' benchmark' kwargs' report' w'',
        BenchmarkDriver_call E' benchmark' kwargs' w' = Ok (report', w'') ->
        recorded_children report' = recorded_children report) /\
  (forall matrix cats,
      BenchmarkDriver_children matrix [] = Ok cats ->
      NoDup cats /\
      forall c, c ∈ cats <->
                exists execution,
                  execution ∈ matrix /\
                  dict_get "category" execution = Some (VStr c)).
Proof.
  assert (Hfrozen :
    forall E (children : res (list string)) child_builder kwargs w report w',
      dict_contains "no_exec" kwargs = false ->
      Enumerator_call E (lift children) child_builder kwargs w
      = Ok (report, w') ->
      exists cs,
        recorded_children report = Some (VList (map VStr cs)) /\
        fs w' !! resolve w' YAML_REPORT_FILE = Some (FYaml (VDict report)) /\
        forall E' children' child_builder' kwargs' report' w'',
          Enumerator_call E' children' child_builder' kwargs' w'
          = Ok (report', w'') ->
          recorded_children report' = Some (VList (map VStr cs))).
  { intros E children child_builder kwargs w report w' Hno H.
    apply (Enumerator_call_records _ _ _ _ _ _ _ Hno) in H
      as (cs & Hrec & Hcs & _ & Hfile).
    exists cs. split; [exact Hrec|]. split; [exact Hfile|].
    intros E' children' child_builder' kwargs' report' w'' H'.
    apply (Enumerator_call_checkpointed _ _ _ _ _ _ _ _ _ Hfile Hcs) in H'
      as [Hrec' _]. exact Hrec'. }
  split; [exact Enumerator__children_fresh|].
  split; [exact Enumerator__children_checkpointed|].
  split; [exact Enumerator_body_eval|].
  split; [exact Hfrozen|].
  split.
  - intros E benchmark kwargs w report w' Hno H E' benchmark' kwargs' report'
           w'' H'.
    unfold BenchmarkDriver_call in H.
    apply (Hfrozen _ _ _ _ _ _ _ Hno) in H as (cs & Hrec & _ & Hnext).
    rewrite Hrec. eapply Hnext. exact H'.
  - intros matrix cats H.
    apply BenchmarkDriver_children_Ok in H as [Hnd Hchar]; [|constructor].
    split; auto. intros c. rewrite Hchar. split; auto.
    intros [Hin|]; auto. apply elem_of_nil in Hin. destruct Hin.
Qed.

(** A Benchmark node with two categories, run a first time, then run again
    where sets are iterated in the opposite order. *)
Lemma checkpointed_children_are_frozen_witness :
  match BenchmarkDriver_call Scenario.env Scenario.wide []
          (with_cwd "/camp/wide" Scenario.initial) with
  | Ok (report, w') =>
      match BenchmarkDriver_call Scenario.reversed Scenario.wide [] w' with
      | Ok (report', _) =>
          recorded_children report' = recorded_children report
      | Raise _ => False
      end
  | Raise _ => False
  end.
Proof.
  destruct (BenchmarkDriver_call Scenario.env Scenario.wide []
              (with_cwd "/camp/wide" Scenario.initial))
    as [[report w']|e] eqn:H1; [|vm_compute in H1; discriminate H1].
  pose proof H1 as H1'. vm_compute in H1'. injection H1' as <- <-.
  destruct (BenchmarkDriver_call Scenario.reversed Scenario.wide [] _)
    as [[report' w'']|e] eqn:H2; [|vm_compute in H2; discriminate H2].
  exact (proj1 (proj2 (proj2 (proj2 (proj2 checkpointed_children_are_frozen))))
               Scenario.env Scenario.wide [] _ _ _ eq_refl H1
               Scenario.reversed Scenario.wide [] _ _ H2).
Defined.

(** C9 (the claim as stated fails at the Category node): in the small
    campaign the checkpoint of the Category node records the child
    [uuid-0], and [_children] returns it; the node, run again in its
    default mode, runs and returns the new child [uuid-1] instead. *)
Lemma category_rerun_replaces_the_recorded_children :
  Enumerator__children
    (BenchmarkCategoryDriver_children Scenario.env "foo"
       (execution_matrix Scenario.benchmark))
    Scenario.category_dir = Ok (["uuid-0"], Scenario.category_dir) /\
  match BenchmarkCategoryDriver_call Scenario.env Scenario.benchmark "foo" []
          Scenario.category_dir with
  | Ok (report, w') =>
      recorded_children report = Some (VList [VStr "uuid-1"]) /\
      recorded_children report <> Some (VList [VStr "uuid-0"]) /\
      map sp_cwd (spawned w') =
        ["/out/web-01/*/b1/foo/uuid-0"; "/out/web-01/*/b1/foo/uuid-1"]
  | Raise _ => False
  end.
Proof.
  split.
  - vm_compute. reflexivity.
  - vm_compute. split; [reflexivity|]. split; [discriminate|reflexivity].
Qed.

(** ** The Category node in its default mode *)

Lemma new_run_dir_inv E execution w run_dir w1 :
  new_run_dir E execution w = Ok (run_dir, w1) ->
  run_dir = osp_join (match run_name execution with Ok s => s | Raise _ => "" end)
                     (uuid4 E (uuids w)) /\
  uuids w1 = S (uuids w) /\ cwd w1 = cwd w /\
  spawned w1 = spawned w /\ fs w1 = fs w /\ clock w1 = clock w.
Proof.
  unfold new_run_dir, bind, lift, fresh_uuid, ret.
  destruct (run_name execution) as [nm|]; [|discriminate].
  intros [= <- <-]. simpl. auto 10.
Qed.

Lemma ExecutionDriver_call_spawns E benchmark execution kwargs w report w' :
  ExecutionDriver_call E benchmark execution kwargs w = Ok (report, w') ->
  uuids w' = uuids w /\ cwd w' = cwd w /\
  exists sp,
    spawned w' = spawned w ++ [sp] /\
    dict_get "command" execution = Some (sp_command sp) /\
    sp_cwd sp = cwd w.
Proof.
  intros H. apply ExecutionDriver_call_inv in H
    as (env & command & p & _ & Hcommand & _ & _ & ->).
  simpl. repeat split. eexists. split; [reflexivity|]. auto.
Qed.

Lemma execute_runs_inv E benchmark category kwargs matrix :
  forall runs w yielded w',
    execute_runs E benchmark category kwargs matrix runs w = Ok (yielded, w') ->
    let matching := List.filter (in_category category) matrix in
    yielded.1 = fresh_run_dirs E (uuids w) matching /\
    uuids w' = (uuids w + List.length matching)%nat /\
    cwd w' = cwd w /\
    exists new,
      spawned w' = spawned w ++ new /\
      Forall2 (spawned_for (cwd w)) new (zip matching yielded.1).
Proof.
  induction matrix as [|execution matrix IH]; intros runs w yielded w' H;
    simpl in H.
  - injection H as <- <-. simpl. repeat split; auto.
    exists []. rewrite app_nil_r. split; auto.
  - simpl. destruct (in_category category execution) eqn:Hcat.
    + apply bind_Ok in H as (run_dir & w1 & Hdir & H).
      apply new_run_dir_inv in Hdir
        as (Hrun & Huuid1 & Hcwd1 & Hsp1 & _ & _).
      apply bind_Ok in H as (r & w2 & Hpush & H).
      assert (Hpushed :
        uuids w2 = uuids w1 /\ cwd w2 = cwd w1 /\
        exists sp, spawned w2 = spawned w1 ++ [sp] /\
                   dict_get "command" execution = Some (sp_command sp) /\
                   sp_cwd sp = osp_join (cwd w1) run_dir).
      { unfold pushd in Hpush.
        destruct ((_ ;; _) _) as [[r' w3]|] eqn:Hboth; [|discriminate].
        injection Hpush as _ <-.
        apply bind_Ok in Hboth as (r0 & w4 & Hexec & Hmetrics).
        apply ExecutionDriver_call_spawns in Hexec
          as (Hu & _ & sp & Hsp & Hcommand & Hspcwd).
        pose proof (preserves_MetricsDriver_call uuids E benchmark kwargs
                      fs_free_uuids _ _ _ Hmetrics) as Hu'.
        pose proof (preserves_MetricsDriver_call spawned E benchmark kwargs
                      fs_free_spawned _ _ _ Hmetrics) as Hs'.
        simpl in *. repeat split; [congruence|].
        exists sp. split; [congruence|]. auto. }
      destruct Hpushed as (Hu2 & Hcwd2 & sp & Hsp2 & Hcommand & Hspcwd).
      apply bind_Ok in H as (rest & w3 & Hrest & [= <- <-]).
      apply IH in Hrest as (Hys & Hu3 & Hcwd3 & new & Hnew & Hall).
      simpl. repeat split.
      * rewrite Hys, Hu2, Huuid1, <- Hrun. reflexivity.
      * rewrite Hu3, Hu2, Huuid1. simpl. lia.
      * congruence.
      * exists (sp :: new). split.
        -- rewrite Hnew, Hsp2, Hsp1, <- app_assoc. reflexivity.
        -- constructor.
           ++ split; simpl; [exact Hcommand | congruence].
           ++ rewrite Hcwd2, Hcwd1 in Hall. exact Hall.
    + apply IH in H. exact H.
Qed.

Lemma fresh_run_dirs_length E n matching :
  List.length (fresh_run_dirs E n matching) = List.length matching.
Proof.
  revert n. induction matching as [|execution matching IH]; intros n; simpl;
    [|rewrite IH]; reflexivity.
Qed.

Lemma BenchmarkCategoryDriver_call_execute E benchmark category kwargs w
      report w' :
  dict_contains "no_exec" kwargs = false ->
  BenchmarkCategoryDriver_call E benchmark category kwargs w = Ok (report, w') ->
  let matching :=
    List.filter (in_category category) (execution_matrix benchmark) in
  let run_dirs := fresh_run_dirs E (uuids w) matching in
  recorded_children report = Some (VList (map VStr run_dirs)) /\
  exists new,
    spawned w' = spawned w ++ new /\
    List.length new = List.length matching /\
    Forall2 (spawned_for (cwd w)) new (zip matching run_dirs).
Proof.
  intros Hno H. unfold BenchmarkCategoryDriver_call in H.
  rewrite write_yaml_report_eval in H.
  destruct (BenchmarkCategoryDriver_body E benchmark category kwargs w)
    as [[data w1]|] eqn:Hbody; [|discriminate].
  unfold BenchmarkCategoryDriver_body in Hbody. rewrite Hno in Hbody.
  simpl in Hbody.
  apply bind_Ok in Hbody as (yielded & w2 & Hruns & Hbody).
  apply bind_Ok in Hbody as ([] & w3 & Hgather & [= <- <-]).
  apply execute_runs_inv in Hruns as (Hys & _ & _ & new & Hnew & Hall).
  pose proof (preserves_gather_metrics spawned E _ fs_free_spawned _ _ _ Hgather)
    as Hsp.
  simpl in H. rewrite map_str_VStr, Hno in H. injection H as <- <-.
  simpl. split.
  - unfold recorded_children.
    destruct (stamp_keys E (clock w) (clock w3)
                [("children", VList (map VStr yielded.1))]) as (_ & _ & Hk).
    rewrite Hk by discriminate. rewrite Hys. reflexivity.
  - exists new. rewrite Hsp. rewrite Hys in Hall. repeat split; auto.
    apply Forall2_length in Hall. rewrite Hall, length_zip.
    rewrite fresh_run_dirs_length. lia.
Qed.




(** ** Paths of nested directories *)

Lemma string_app_cons c (a b : string) :
  String c a +:+ b = String c (a +:+ b).
Proof. reflexivity. Qed.

Lemma string_app_nil_l (b : string) : "" +:+ b = b.
Proof. reflexivity. Qed.

Lemma string_app_nil_r (s : string) : s +:+ "" = s.
Proof.
  induction s as [|c s IH]; [reflexivity|].
  rewrite string_app_cons, IH. reflexivity.
Qed.

Lemma string_app_assoc (a b c : string) : (a +:+ b) +:+ c = a +:+ (b +:+ c).
Proof.
  induction a as [|x a IH]; [reflexivity|].
  rewrite !string_app_cons, IH. reflexivity.
Qed.

Lemma string_app_empty (a b : string) : a +:+ b = "" -> a = "" /\ b = "".
Proof.
  destruct a; [rewrite string_app_nil_l; auto|].
  rewrite string_app_cons. discriminate.
Qed.

Lemma endswith_slash_app a b :
  b <> "" -> endswith_slash (a +:+ b) = endswith_slash b.
Proof.
  intros Hb. induction a as [|x a IH]; [reflexivity|].
  rewrite string_app_cons. simpl.
  destruct (a +:+ b) eqn:Hab; auto.
  apply string_app_empty in Hab as [_ ?]. congruence.
Qed.

Lemma startswith_slash_app a b :
  a <> "" -> startswith_slash (a +:+ b) = startswith_slash a.
Proof.
  destruct a; [congruence|]. rewrite string_app_cons. reflexivity.
Qed.

Lemma osp_join_absolute a b : startswith_slash b = true -> osp_join a b = b.
Proof. intros Hb. unfold osp_join. rewrite Hb. reflexivity. Qed.

Lemma osp_join_separator a b :
  startswith_slash b = false -> osp_join a b = a +:+ separator a +:+ b.
Proof.
  intros Hb. unfold osp_join, separator. rewrite Hb.
  destruct (bool_decide (a = "") || endswith_slash a); reflexivity.
Qed.

Lemma separator_app a b : b <> "" -> separator (a +:+ b) = separator b.
Proof.
  intros Hb. unfold separator. rewrite endswith_slash_app by auto.
  rewrite (bool_decide_eq_false_2 (a +:+ b = ""))
    by (intros H; apply string_app_empty in H as [_ ?]; auto).
  rewrite (bool_decide_eq_false_2 (b = "")) by auto. reflexivity.
Qed.

(** Joining a relative name to a directory inside a directory. *)
Lemma osp_join_assoc a b c :
  startswith_slash c = false ->
  osp_join a (osp_join b c) = osp_join (osp_join a b) c.
Proof.
  intros Hc. rewrite (osp_join_separator b c Hc).
  destruct (startswith_slash b) eqn:Hb.
  - (* [b] is absolute *)
    assert (Hne : b <> "") by (intros ->; discriminate).
    rewrite (osp_join_absolute a b Hb).
    rewrite osp_join_absolute by (rewrite startswith_slash_app; auto).
    rewrite (osp_join_separator b c Hc). reflexivity.
  - destruct (decide (b = "")) as [->|Hne].
    + (* nothing to join *)
      change (separator "") with "". rewrite !string_app_nil_l.
      rewrite (osp_join_separator a "" eq_refl), string_app_nil_r.
      rewrite (osp_join_separator a c Hc), (osp_join_separator _ c Hc).
      destruct (bool_decide (a = "") || endswith_slash a) eqn:Ha.
      * assert (Hs : separator a = "") by (unfold separator; rewrite Ha; auto).
        rewrite Hs, string_app_nil_r, Hs. reflexivity.
      * assert (Hs : separator a = "/") by (unfold separator; rewrite Ha; auto).
        rewrite Hs, separator_app by discriminate.
        change (separator "/") with "". rewrite string_app_nil_l.
        rewrite string_app_assoc. reflexivity.
    + (* a proper relative directory *)
      rewrite osp_join_separator by (rewrite startswith_slash_app; auto).
      rewrite (osp_join_separator a b Hb), (osp_join_separator _ c Hc).
      rewrite <- (string_app_assoc a (separator a) b).
      rewrite separator_app by auto.
      rewrite !string_app_assoc. reflexivity.
Qed.

(** ** A run from its command to the aggregated metrics *)

Lemma dict_get_update_dict {A} k (d other : list (string * A)) :
  is_dict other ->
  dict_get k (dict_update d other) =
  match dict_get k other with
  | Some v => Some v
  | None => dict_get k d
  end.
Proof.
  intros Hd. rewrite dict_get_update.
  change (dict_get k (rev other)) with (dict_last k other).
  rewrite dict_last_NoDup by exact Hd. reflexivity.
Qed.

(** The keys of the entry in the report of its execution. *)
Lemma execution_report_get E benchmark execution w p k :
  is_dict execution -> k <> "elapsed" -> k <> "date" ->
  dict_get k (execution_report E benchmark execution w p) =
  match dict_get k execution with
  | Some v => Some v
  | None =>
      dict_get k [("exit_status", VInt (exit_status p));
                  ("benchmark", VStr (name benchmark))]
  end.
Proof.
  intros Hd H1 H2. unfold execution_report.
  rewrite !dict_get_set_ne by auto. apply dict_get_update_dict, Hd.
Qed.

(** One turn of the loop of the Category node: the command is executed,
    then [MetricsDriver] runs in the run directory, then the loop goes
    on with the other entries. *)
Lemma execute_runs_step E benchmark category kwargs execution rest runs w
      nm env command p :
  in_category category execution = true ->
  run_name execution = Ok nm ->
  custom_environment E execution = Ok env ->
  dict_get "command" execution = Some command ->
  let run_dir := osp_join nm (uuid4 E (uuids w)) in
  let wd := with_cwd (osp_join (cwd w) run_dir) (drawn w) in
  Popen E (List.length (spawned w)) command env (cwd wd) (opened wd) = Some p ->
  execute_runs E benchmark category kwargs (execution :: rest) runs w =
  match MetricsDriver_call E benchmark kwargs
          (executed E benchmark execution kwargs wd command env p) with
  | Ok (_, w3) =>
      (let* yielded :=
         execute_runs E benchmark category kwargs rest
                      (runs_append category run_dir runs) in
       ret (run_dir :: yielded.1, yielded.2)) (with_cwd (cwd w) w3)
  | Raise e => Raise e
  end.
Proof.
  intros Hcat Hname Henv Hcommand run_dir wd Hp.
  simpl. rewrite Hcat.
  unfold bind at 1. unfold new_run_dir, bind, lift. rewrite Hname.
  unfold fresh_uuid, ret, pushd.
  change {| fs := fs w; cwd := cwd w; clock := clock w; uuids := S (uuids w);
            spawned := spawned w; plotted := plotted w |} with (drawn w).
  change (with_cwd (osp_join (cwd (drawn w)) (osp_join nm (uuid4 E (uuids w))))
                   (drawn w)) with wd.
  rewrite ExecutionDriver_call_eval, Henv, Hcommand.
  change (spawned wd) with (spawned w). rewrite Hp.
  destruct (MetricsDriver_call _ _ _ _) as [[r w3]|]; reflexivity.
Qed.

Lemma in_category_get category execution :
  in_category category execution = true ->
  dict_get "category" execution = Some (VStr category).
Proof.
  unfold in_category.
  destruct (dict_get "category" execution) as [[| | | |c| |]|];
    try discriminate.
  intros H. apply bool_decide_eq_true in H. subst. reflexivity.
Qed.

Lemma runs_append_first category run_dir :
  runs_append category run_dir [] = [(category, [run_dir])].
Proof.
  unfold runs_append, dict_setdefault. simpl.
  rewrite bool_decide_eq_true_2 by reflexivity. reflexivity.
Qed.

(** * Further properties *)

(** ** Paths and the files they name *)

Lemma endswith_refl s : endswith s s = true.
Proof.
  destruct s; cbn [endswith]; rewrite bool_decide_eq_true_2 by reflexivity;
    reflexivity.
Qed.

Lemma endswith_app suffix a : endswith suffix (a +:+ suffix) = true.
Proof.
  induction a as [|c a IH].
  - rewrite string_app_nil_l. apply endswith_refl.
  - rewrite string_app_cons. cbn [endswith]. rewrite IH. apply orb_true_r.
Qed.

Lemma osp_join_endswith d name :
  startswith_slash name = false -> endswith name (osp_join d name) = true.
Proof.
  intros Hrel. rewrite (osp_join_separator d name Hrel).
  rewrite <- string_app_assoc. apply endswith_app.
Qed.

Lemma untouched_by_fs_free {B} (obs : world -> B) name :
  fs_free obs -> untouched_by name obs.
Proof. intros Hfree w f. apply Hfree. Qed.

Lemma untouched_by_file_at name path :
  startswith_slash name = false -> endswith name path = false ->
  untouched_by name (file_at path).
Proof.
  intros Hrel Hends w f. unfold file_at, resolve. simpl.
  apply lookup_insert_ne. intros Heq. subst path.
  rewrite osp_join_endswith in Hends by exact Hrel. discriminate.
Qed.

Lemma cwd_free_file_at path : cwd_free (file_at path).
Proof. intros d w. reflexivity. Qed.

Lemma draw_free_file_at path : draw_free (file_at path).
Proof. intros w. reflexivity. Qed.

Lemma plot_free_file_at path : plot_free (file_at path).
Proof. intros desc category w. reflexivity. Qed.

Lemma plot_free_spawned : plot_free spawned.
Proof. intros desc category w. reflexivity. Qed.

Lemma plot_free_uuids : plot_free uuids.
Proof. intros desc category w. reflexivity. Qed.

Lemma exec_free_file_at path :
  endswith YAML_REPORT_FILE path = false ->
  endswith "stdout.txt" path = false ->
  endswith "stderr.txt" path = false ->
  exec_free (file_at path).
Proof.
  intros Hyaml Hout Herr E benchmark execution kwargs w command env p.
  assert (Hne : forall name, startswith_slash name = false ->
                             endswith name path = false ->
                             resolve w name <> path).
  { intros name Hrel Hends Heq. subst path. unfold resolve in Hends.
    rewrite osp_join_endswith in Hends by exact Hrel. discriminate. }
  unfold file_at, executed, opened. simpl.
  destruct (negb (dict_contains "no_exec" kwargs)); simpl;
    rewrite !lookup_insert_ne; auto.
Qed.

(** ** Observations that a whole invocation leaves unchanged *)

Lemma preserves_yaml_dump_at {B} (obs : world -> B) name doc :
  untouched_by name obs -> preserves obs (yaml_dump name doc).
Proof. intros Hfree w a w' [= _ <-]. apply Hfree. Qed.

Lemma preserves_write_text_at {B} (obs : world -> B) name text :
  untouched_by name obs -> preserves obs (write_text name text).
Proof. intros Hfree w a w' [= _ <-]. apply Hfree. Qed.

Lemma preserves_copy_at {B} (obs : world -> B) src dst :
  untouched_by dst obs -> preserves obs (copy src dst).
Proof.
  intros Hfree w a w' H. unfold copy in H.
  destruct (fs w !! resolve w src); [|discriminate].
  injection H as H. subst w'. apply Hfree.
Qed.

Lemma preserves_write_yaml_report_at {B} (obs : world -> B) E func kwargs :
  (dict_contains "no_exec" kwargs = false ->
   untouched_by YAML_REPORT_FILE obs) ->
  preserves obs func ->
  preserves obs (write_yaml_report E func kwargs).
Proof.
  intros Hfree Hfunc w report w' H. rewrite write_yaml_report_eval in H.
  destruct (func w) as [[data w1]|] eqn:Hf; [|discriminate].
  apply Hfunc in Hf. rewrite <- Hf.
  destruct data; try discriminate; simpl in H;
    destruct (dict_contains "no_exec" kwargs); injection H as _ <-;
    auto; apply Hfree; reflexivity.
Qed.

Lemma preserves_MetricsDriver_call_at {B} (obs : world -> B) E benchmark kwargs :
  (dict_contains "no_exec" kwargs = false ->
   untouched_by YAML_REPORT_FILE obs) ->
  preserves obs (MetricsDriver_call E benchmark kwargs).
Proof.
  intros Hfree. unfold MetricsDriver_call, MetricsDriver_init.
  apply preserves_bind; [apply preserves_yaml_load|].
  intros doc. apply preserves_write_yaml_report_at; auto.
  apply preserves_MetricsDriver_body.
Qed.

Lemma preserves_gather_metrics_at {B} (obs : world -> B) E runs :
  untouched_by JSON_METRICS_FILE obs ->
  preserves obs (BenchmarkCategoryDriver_gather_metrics E runs).
Proof.
  intros Hfree. unfold BenchmarkCategoryDriver_gather_metrics.
  apply preserves_for_each. intros item.
  apply preserves_bind; [apply preserves_gather_entries|].
  intros text. apply preserves_write_text_at, Hfree.
Qed.

Lemma preserves_ExecutionDriver_call {B} (obs : world -> B) E benchmark
      execution kwargs :
  exec_free obs ->
  preserves obs (ExecutionDriver_call E benchmark execution kwargs).
Proof.
  intros Hfree w report w' H.
  apply ExecutionDriver_call_inv in H as (env & command & p & _ & _ & _ & _ & ->).
  apply Hfree.
Qed.

Lemma preserves_new_run_dir {B} (obs : world -> B) E execution :
  draw_free obs -> preserves obs (new_run_dir E execution).
Proof.
  intros Hfree w run_dir w' H. unfold new_run_dir, bind, lift, fresh_uuid in H.
  destruct (run_name execution); [|discriminate].
  injection H as _ <-. apply Hfree.
Qed.

Lemma preserves_generate_plot {B} (obs : world -> B) E desc category :
  plot_free obs -> preserves obs (generate_plot E desc category).
Proof.
  intros Hfree w a w' H. unfold generate_plot in H.
  apply bind_Ok in H as (text & w1 & Hread & H).
  apply (preserves_read_text obs) in Hread. rewrite <- Hread.
  destruct (json_load E text); [|discriminate].
  injection H as H. subst w'. apply (Hfree desc category w1).
Qed.

Lemma preserves_bind_lift {A C B} (obs : world -> B) (r : res A) (f : A -> M C) :
  (forall a, r = Ok a -> preserves obs (f a)) ->
  preserves obs (bind (lift r) f).
Proof.
  intros Hf w c w' H. apply bind_Ok in H as (a & w1 & Hlift & H).
  apply lift_Ok in Hlift as [-> ->]. eapply Hf; eauto.
Qed.

Lemma preserves_Enumerator_report {B} (obs : world -> B) :
  preserves obs Enumerator_report.
Proof.
  intros w report w' H. apply Enumerator_report_world in H as ->. reflexivity.
Qed.

Lemma preserves_Enumerator__children {B} (obs : world -> B) children :
  preserves obs children -> preserves obs (Enumerator__children children).
Proof.
  intros Hchildren. unfold Enumerator__children.
  apply preserves_bind; [apply preserves_isfile|].
  intros [|]; [|exact Hchildren].
  apply preserves_bind; [apply preserves_Enumerator_report|].
  intros report. apply preserves_lift.
Qed.

(** The generic invocation keeps whatever the invocations of the children
    keep. *)
Lemma preserves_Enumerator_call {B} (obs : world -> B) E children
      child_builder kwargs :
  cwd_free obs ->
  (dict_contains "no_exec" kwargs = false ->
   untouched_by YAML_REPORT_FILE obs) ->
  preserves obs children ->
  (forall child child_obj,
      child_builder child = Ok child_obj -> preserves obs (child_obj kwargs)) ->
  preserves obs (Enumerator_call E children child_builder kwargs).
Proof.
  intros Hcwd Hyaml Hchildren Hbuilder. unfold Enumerator_call.
  apply preserves_write_yaml_report_at; [exact Hyaml|].
  unfold Enumerator_body.
  apply preserves_bind; [apply preserves_Enumerator__children, Hchildren|].
  intros cs. apply preserves_bind; [|intros; apply preserves_ret].
  apply preserves_for_each. intros child.
  apply preserves_pushd; [exact Hcwd|].
  apply preserves_bind_lift. intros child_obj Hobj.
  apply preserves_bind; [eapply Hbuilder, Hobj | intros; apply preserves_ret].
Qed.

Section Invocation.
Context {B : Type} (obs : world -> B) (E : Env) (kwargs : dict).
Hypothesis Hkept : kept_by_invocation kwargs obs.

Lemma kept_yaml :
  dict_contains "no_exec" kwargs = false -> untouched_by YAML_REPORT_FILE obs.
Proof. intros Hno. apply Hkept, Hno. Qed.

Lemma preserves_execute_runs benchmark category matrix :
  dict_contains "no_exec" kwargs = false ->
  forall runs,
    preserves obs (execute_runs E benchmark category kwargs matrix runs).
Proof.
  intros Hno. destruct Hkept as (Hcwd & _ & _ & Hexec).
  destruct (Hexec Hno) as (Hdraw & Hex & Hyaml).
  induction matrix as [|execution matrix IH]; intros runs; simpl.
  - apply preserves_ret.
  - destruct (in_category category execution); [|apply IH].
    apply preserves_bind; [apply preserves_new_run_dir, Hdraw|].
    intros run_dir. apply preserves_bind.
    + apply preserves_pushd; [exact Hcwd|].
      apply preserves_bind; [apply preserves_ExecutionDriver_call, Hex|].
      intros _. apply preserves_MetricsDriver_call_at. auto.
    + intros _. apply preserves_bind; [apply IH|].
      intros yielded. apply preserves_ret.
Qed.

Lemma preserves_extract_again benchmark category children :
  forall runs,
    preserves obs (extract_again E benchmark category kwargs children runs).
Proof.
  destruct Hkept as (Hcwd & _ & _ & _).
  induction children as [|child children IH]; intros runs; simpl.
  - apply preserves_ret.
  - apply preserves_bind; [apply preserves_yaml_load|].
    intros config. destruct config; try apply preserves_raise.
    apply preserves_bind; [|intros; apply IH].
    apply preserves_pushd; [exact Hcwd|].
    apply preserves_MetricsDriver_call_at, kept_yaml.
Qed.

Lemma preserves_BenchmarkCategoryDriver_call benchmark category :
  preserves obs (BenchmarkCategoryDriver_call E benchmark category kwargs).
Proof.
  pose proof Hkept as (Hcwd & Hjson & Hplot & Hexec).
  unfold BenchmarkCategoryDriver_call.
  apply preserves_write_yaml_report_at; [apply kept_yaml|].
  unfold BenchmarkCategoryDriver_body.
  destruct (dict_contains "no_exec" kwargs) eqn:Hno; simpl.
  - destruct (dict_contains "plot" kwargs).
    + destruct (dict_get category (plots benchmark)) as [descs|];
        [|apply preserves_raise].
      apply preserves_bind; [|intros; apply preserves_ret].
      apply preserves_for_each. intros desc.
      apply preserves_generate_plot, Hplot.
    + apply preserves_bind; [apply preserves_Enumerator_report|].
      intros report. apply preserves_bind; [apply preserves_lift|].
      intros children. apply preserves_bind; [apply preserves_extract_again|].
      intros runs. apply preserves_bind; [|intros; apply preserves_ret].
      apply preserves_gather_metrics_at, Hjson.
  - apply preserves_bind; [apply preserves_execute_runs; exact Hno|].
    intros yielded. apply preserves_bind; [|intros; apply preserves_ret].
    apply preserves_gather_metrics_at, Hjson.
Qed.

Lemma preserves_BenchmarkDriver_call benchmark :
  preserves obs (BenchmarkDriver_call E benchmark kwargs).
Proof.
  unfold BenchmarkDriver_call.
  apply preserves_Enumerator_call;
    [apply Hkept | apply kept_yaml | apply preserves_lift |].
  intros child child_obj [= <-]. apply preserves_BenchmarkCategoryDriver_call.
Qed.

Lemma preserves_BenchmarkTagDriver_call campaign tag :
  preserves obs (BenchmarkTagDriver_call E campaign tag kwargs).
Proof.
  unfold BenchmarkTagDriver_call.
  apply preserves_Enumerator_call;
    [apply Hkept | apply kept_yaml | apply preserves_lift |].
  intros child child_obj Hbuilt. unfold BenchmarkTagDriver_child_builder in Hbuilt.
  apply res_bind_Ok in Hbuilt as (confs & _ & Hbuilt).
  apply res_bind_Ok in Hbuilt as (conf & _ & Hbuilt).
  apply res_bind_Ok in Hbuilt as (type_name & _ & Hbuilt).
  apply res_bind_Ok in Hbuilt as (cls & _ & [= <-]).
  apply preserves_BenchmarkDriver_call.
Qed.

Lemma preserves_HostDriver_call campaign host :
  preserves obs (HostDriver_call E campaign host kwargs).
Proof.
  unfold HostDriver_call.
  apply preserves_Enumerator_call;
    [apply Hkept | apply kept_yaml | apply preserves_lift |].
  intros child child_obj [= <-]. apply preserves_BenchmarkTagDriver_call.
Qed.

Lemma preserves_CampaignDriver_call self :
  (existing_campaign self = false -> untouched_by YAML_CAMPAIGN_FILE obs) ->
  preserves obs (CampaignDriver_call E self kwargs).
Proof.
  intros Hcopy. unfold CampaignDriver_call.
  apply preserves_pushd; [apply Hkept|].
  apply preserves_bind.
  - destruct (existing_campaign self); simpl; [apply preserves_ret|].
    apply preserves_copy_at. auto.
  - intros _. apply preserves_bind; [|intros; apply preserves_ret].
    apply preserves_Enumerator_call;
      [apply Hkept | apply kept_yaml | apply preserves_ret |].
    intros child child_obj [= <-]. apply preserves_HostDriver_call.
Qed.
End Invocation.

Lemma kept_file_at kwargs path :
  endswith JSON_METRICS_FILE path = false ->
  (dict_contains "no_exec" kwargs = false ->
   endswith YAML_REPORT_FILE path = false /\
   endswith "stdout.txt" path = false /\
   endswith "stderr.txt" path = false) ->
  kept_by_invocation kwargs (file_at path).
Proof.
  intros Hjson Hexec. split; [apply cwd_free_file_at|].
  split; [apply untouched_by_file_at; auto|].
  split; [apply plot_free_file_at|].
  intros Hno. destruct (Hexec Hno) as (Hyaml & Hout & Herr).
  split; [apply draw_free_file_at|].
  split; [apply exec_free_file_at; auto|].
  apply untouched_by_file_at; auto.
Qed.

Lemma kept_without_execution {B} (obs : world -> B) kwargs :
  dict_contains "no_exec" kwargs = true ->
  cwd_free obs -> fs_free obs -> plot_free obs ->
  kept_by_invocation kwargs obs.
Proof.
  intros Hno Hcwd Hfs Hplot. split; [exact Hcwd|].
  split; [apply untouched_by_fs_free, Hfs|].
  split; [exact Hplot|]. rewrite Hno. discriminate.
Qed.

(** X2: invoked with [no_exec] (re-extraction or plotting), the drivers
    spawn no process and draw no UUID at any level of the tree.  In
    re-extraction (with [no_exec] and without [plot]) the only files the
    invocation may change are those named [metrics.json] and, when the
    campaign directory is new, the copy [campaign.yaml] of the campaign
    file: in particular no checkpoint is rewritten. *)
Theorem no_exec_spawns_and_checkpoints_nothing E kwargs self w w' :
  dict_contains "no_exec" kwargs = true ->
  CampaignDriver_call E self kwargs w = Ok (tt, w') ->
  spawned w' = spawned w /\
  uuids w' = uuids w /\
  (dict_contains "plot" kwargs = false ->
   forall path,
     endswith JSON_METRICS_FILE path = false ->
     existing_campaign self = true \/
     endswith YAML_CAMPAIGN_FILE path = false ->
     fs w' !! path = fs w !! path).
Proof.
  intros Hno H. split; [|split].
  - apply (preserves_CampaignDriver_call spawned E kwargs
             (kept_without_execution spawned kwargs Hno cwd_free_spawned
                fs_free_spawned plot_free_spawned) self) in H; [exact H|].
    intros _. apply untouched_by_fs_free, fs_free_spawned.
  - apply (preserves_CampaignDriver_call uuids E kwargs
             (kept_without_execution uuids kwargs Hno cwd_free_uuids
                fs_free_uuids plot_free_uuids) self) in H; [exact H|].
    intros _. apply untouched_by_fs_free, fs_free_uuids.
  - intros _ path Hjson Hcampaign.
    assert (Hkept : kept_by_invocation kwargs (file_at path)).
    { apply kept_file_at; [exact Hjson|]. rewrite Hno. discriminate. }
    apply (preserves_CampaignDriver_call (file_at path) E kwargs Hkept self)
      in H; [exact H|].
    intros Hfresh. destruct Hcampaign as [Hex|Hends]; [congruence|].
    apply untouched_by_file_at; auto.
Qed.

(** Re-extraction over the directory the first invocation of the small
    campaign left. *)
Lemma no_exec_spawns_and_checkpoints_nothing_witness :
  match CampaignDriver_call Scenario.env Cases.existing
          [("no_exec", VBool true)] Scenario.after_first_run with
  | Ok (_, w') =>
      spawned w' = spawned Scenario.after_first_run /\
      uuids w' = uuids Scenario.after_first_run /\
      fs w' !! "/out/web-01/*/b1/foo/hpcbench.yaml" =
        fs Scenario.after_first_run !! "/out/web-01/*/b1/foo/hpcbench.yaml"
  | Raise _ => False
  end.
Proof.
  destruct (CampaignDriver_call Scenario.env Cases.existing
              [("no_exec", VBool true)] Scenario.after_first_run)
    as [[[] w']|e] eqn:Hcall; [|vm_compute in Hcall; discriminate Hcall].
  destruct (no_exec_spawns_and_checkpoints_nothing Scenario.env
              [("no_exec", VBool true)] Cases.existing
              Scenario.after_first_run w' eq_refl Hcall)
    as (Hspawned & Huuids & Hfiles).
  split; [exact Hspawned|]. split; [exact Huuids|].
  apply Hfiles; [reflexivity | reflexivity | left; reflexivity].
Defined.

(** ** The Category node in its three modes *)

Lemma plot_each E descs category : forall w text,
  fs w !! resolve w JSON_METRICS_FILE = Some (FText text) ->
  is_Some (json_load E text) ->
  for_each descs (fun plot => generate_plot E plot category) w =
  Ok (tt, plotted_all descs category w).
Proof.
  induction descs as [|desc descs IH]; intros w text Hfile [doc Hdoc]; simpl.
  - unfold ret, plotted_all. simpl. rewrite app_nil_r. destruct w; reflexivity.
  - unfold bind at 1. unfold generate_plot at 1. unfold bind at 1.
    unfold read_text. rewrite Hfile, Hdoc.
    rewrite (IH _ text) by (eauto; exact Hfile).
    unfold plotted_all. simpl. rewrite <- app_assoc. reflexivity.
Qed.

(** X3: a Category node invoked with [no_exec] and [plot] raises a
    [TypeError] when the benchmark declares no plots for the category
    (it iterates [plots.get(category)], which is [None]); with a non-empty
    list of plots it raises an [IOError] when [metrics.json] is missing
    and a [ValueError] when its text is not JSON; otherwise it hands every
    plot description, in order, to the plot trigger and returns
    [{children: [], elapsed, date}], and the drivers spawn no process and
    draw no UUID. *)
Theorem plot_mode_only_plots E benchmark category kwargs w :
  dict_contains "no_exec" kwargs = true ->
  dict_contains "plot" kwargs = true ->
  (dict_get category (plots benchmark) = None ->
   BenchmarkCategoryDriver_call E benchmark category kwargs w =
   Raise (TypeError "'NoneType' object is not iterable")) /\
  (forall desc descs,
      dict_get category (plots benchmark) = Some (desc :: descs) ->
      fs w !! resolve w JSON_METRICS_FILE = None ->
      BenchmarkCategoryDriver_call E benchmark category kwargs w =
      Raise (IOError (resolve w JSON_METRICS_FILE))) /\
  (forall desc descs text,
      dict_get category (plots benchmark) = Some (desc :: descs) ->
      fs w !! resolve w JSON_METRICS_FILE = Some (FText text) ->
      json_load E text = None ->
      BenchmarkCategoryDriver_call E benchmark category kwargs w =
      Raise (ValueError "No JSON object could be decoded")) /\
  (forall descs,
      dict_get category (plots benchmark) = Some descs ->
      descs = [] \/
      (exists text,
          fs w !! resolve w JSON_METRICS_FILE = Some (FText text) /\
          is_Some (json_load E text)) ->
      exists w',
        BenchmarkCategoryDriver_call E benchmark category kwargs w =
        Ok (stamp E (clock w) (clock w) [("children", VList [])], w') /\
        plotted w' = plotted w ++ map (fun desc => (desc, category)) descs /\
        spawned w' = spawned w /\
        uuids w' = uuids w).
Proof.
  intros Hno Hplot.
  unfold BenchmarkCategoryDriver_call. rewrite write_yaml_report_eval.
  unfold BenchmarkCategoryDriver_body. rewrite Hno, Hplot.
  change (negb true) with false. cbv iota.
  split; [|split; [|split]].
  - intros ->. reflexivity.
  - intros desc descs -> Hnone. simpl.
    unfold bind at 1. unfold bind at 1. unfold generate_plot at 1.
    unfold bind at 1. unfold read_text. rewrite Hnone. reflexivity.
  - intros desc descs text -> Hfile Hbad. simpl.
    unfold bind at 1. unfold bind at 1. unfold generate_plot at 1.
    unfold bind at 1. unfold read_text. rewrite Hfile, Hbad. reflexivity.
  - intros descs -> Hcase. exists (plotted_all descs category w).
    split; [|repeat split].
    destruct Hcase as [->|(text & Hfile & Hdoc)].
    + simpl. unfold bind, ret. simpl.
      unfold plotted_all. simpl. rewrite app_nil_r. destruct w; reflexivity.
    + unfold bind at 1. rewrite (plot_each E descs category w text Hfile Hdoc).
      unfold ret. simpl. reflexivity.
Qed.

(** Plotting at the Category node of the small campaign after its first
    run. *)
Lemma plot_mode_only_plots_witness :
  exists w',
    BenchmarkCategoryDriver_call Scenario.env Scenario.benchmark "foo"
      [("no_exec", VBool true); ("plot", VBool true)] Scenario.category_dir =
    Ok (stamp Scenario.env (clock Scenario.category_dir)
              (clock Scenario.category_dir) [("children", VList [])], w') /\
    plotted w' = plotted Scenario.category_dir ++ [(VStr "figure", "foo")] /\
    spawned w' = spawned Scenario.category_dir /\
    uuids w' = uuids Scenario.category_dir.
Proof.
  apply (proj2 (proj2 (proj2
           (plot_mode_only_plots Scenario.env Scenario.benchmark
              "foo" [("no_exec", VBool true); ("plot", VBool true)]
              Scenario.category_dir eq_refl eq_refl)))
           [VStr "figure"] eq_refl).
  right. eexists. split; [vm_compute; reflexivity|].
  eexists. reflexivity.
Defined.

Lemma runs_append_more category child l :
  runs_append category child [(category, l)] = [(category, l ++ [child])].
Proof.
  unfold runs_append, dict_setdefault. simpl.
  rewrite bool_decide_eq_true_2 by reflexivity. simpl.
  rewrite bool_decide_eq_true_2 by reflexivity. reflexivity.
Qed.

Lemma runs_append_all category children : forall l,
  fold_left (fun runs child => runs_append category child runs) children
            [(category, l)] = [(category, l ++ children)].
Proof.
  induction children as [|child children IH]; intros l; simpl.
  - rewrite app_nil_r. reflexivity.
  - rewrite runs_append_more, IH, <- app_assoc. reflexivity.
Qed.

Lemma runs_append_from_nothing category children :
  fold_left (fun runs child => runs_append category child runs) children []
  = runs_of category children.
Proof.
  destruct children as [|child children]; [reflexivity|]. simpl.
  rewrite runs_append_first. apply runs_append_all.
Qed.

Lemma extract_again_runs E benchmark category kwargs children :
  forall runs w runs' w',
    extract_again E benchmark category kwargs children runs w = Ok (runs', w') ->
    runs' = fold_left (fun runs child => runs_append category child runs)
                      children runs.
Proof.
  induction children as [|child children IH]; intros runs w runs' w' H;
    simpl in H.
  - injection H as <- _. reflexivity.
  - apply bind_Ok in H as (config & w1 & _ & H).
    destruct config; try discriminate.
    apply bind_Ok in H as (r & w2 & _ & H).
    apply IH in H. exact H.
Qed.

Lemma gather_entries_inv E run_dirs : forall w text w',
  gather_entries E run_dirs w = Ok (text, w') ->
  exists entries,
    Forall2 (gathered_from w) run_dirs entries /\
    text = json_entries E entries.
Proof.
  induction run_dirs as [|run_dir run_dirs IH]; intros w text w' H; simpl in H.
  - injection H as <- _. exists []. split; [constructor | reflexivity].
  - apply bind_Ok in H as (doc & w1 & Hload & H).
    pose proof (yaml_load_world _ _ _ _ Hload) as ->.
    apply bind_Ok in H as (data & w2 & Hlift & H).
    apply lift_Ok in Hlift as [Hdata ->].
    apply bind_Ok in H as (others & w3 & Hrest & [= <- _]).
    apply IH in Hrest as (entries & Hall & ->).
    exists (data :: entries). split.
    + constructor; [|exact Hall]. exists doc. split; [|exact Hdata].
      unfold yaml_load in Hload.
      destruct (fs w !! _) as [[d|]|]; try discriminate.
      injection Hload as ->. reflexivity.
    + simpl. destruct Hall; reflexivity.
Qed.

Lemma gathered_from_functional w run_dirs : forall entries entries',
  Forall2 (gathered_from w) run_dirs entries ->
  Forall2 (gathered_from w) run_dirs entries' ->
  entries = entries'.
Proof.
  induction run_dirs as [|run_dir run_dirs IH]; intros entries entries' H H'.
  - inversion H; inversion H'; reflexivity.
  - inversion H as [|? out ? rest (doc & Hdoc & Hout) Hrest]; subst.
    inversion H' as [|? out' ? rest' (doc' & Hdoc' & Hout') Hrest']; subst.
    rewrite Hdoc in Hdoc'. injection Hdoc' as <-.
    rewrite Hout in Hout'. injection Hout' as <-.
    f_equal. apply IH; assumption.
Qed.

Lemma re_extract_files E benchmark category kwargs w report w' :
  dict_contains "no_exec" kwargs = true ->
  dict_contains "plot" kwargs = false ->
  BenchmarkCategoryDriver_call E benchmark category kwargs w = Ok (report, w') ->
  exists old cs entries,
    fs w !! resolve w YAML_REPORT_FILE = Some (FYaml (VDict old)) /\
    children_of old = Ok cs /\
    Forall2 (gathered_from w) cs entries /\
    fs w' = match cs with
            | [] => fs w
            | _ :: _ =>
                <[resolve w JSON_METRICS_FILE := FText (json_array E entries)]>
                  (fs w)
            end.
Proof.
  intros Hno Hplot H. unfold BenchmarkCategoryDriver_call in H.
  rewrite write_yaml_report_eval in H.
  destruct (BenchmarkCategoryDriver_body E benchmark category kwargs w)
    as [[data w1]|] eqn:Hbody; [|discriminate].
  assert (w' = w1) as ->.
  { rewrite Hno in H. destruct data; try discriminate; injection H as _ <-;
      reflexivity. }
  clear H. unfold BenchmarkCategoryDriver_body in Hbody.
  rewrite Hno, Hplot in Hbody. simpl in Hbody.
  apply bind_Ok in Hbody as (old & w0 & Hreport & Hbody).
  pose proof (Enumerator_report_world _ _ _ Hreport) as ->.
  assert (Hold : fs w !! resolve w YAML_REPORT_FILE = Some (FYaml (VDict old))).
  { unfold Enumerator_report, bind, yaml_load in Hreport.
    destruct (fs w !! _) as [[[]|]|]; try discriminate.
    injection Hreport as ->. reflexivity. }
  apply bind_Ok in Hbody as (cs & w0 & Hcs & Hbody).
  apply lift_Ok in Hcs as [Hcs ->].
  apply bind_Ok in Hbody as (runs & w0 & Hruns & Hbody).
  pose proof (extract_again_runs _ _ _ _ _ _ _ _ _ Hruns) as Hr.
  apply (extract_again_no_exec _ _ _ _ _ Hno) in Hruns as ->.
  rewrite runs_append_from_nothing in Hr. subst runs.
  apply bind_Ok in Hbody as ([] & w2 & Hgather & [= _ <-]).
  exists old, cs. destruct cs as [|c0 cs].
  - exists []. injection Hgather as <-. repeat split; auto.
  - unfold BenchmarkCategoryDriver_gather_metrics, runs_of in Hgather.
    cbn [for_each snd] in Hgather.
    apply bind_Ok in Hgather as ([] & w3 & Hitem & [= <-]).
    apply bind_Ok in Hitem as (text & w4 & Hentries & [= <-]).
    pose proof (gather_entries_world _ _ _ _ _ Hentries) as ->.
    apply gather_entries_inv in Hentries as (entries & Hall & ->).
    exists entries. repeat split; auto.
Qed.

(** X4: re-extraction at a Category node (with [no_exec], without [plot])
    aggregates what the checkpoints of the recorded runs hold when it
    starts: the mappings that the extractors return in this mode are not
    stored, so [metrics.json] is the array of the stored documents, taken
    in the order of the recorded children, and it is the same whichever
    extractors the benchmark now has; with no recorded child nothing is
    written at all. *)
Theorem re_extract_aggregates_the_stored_checkpoints E benchmark category
        kwargs w report w' :
  dict_contains "no_exec" kwargs = true ->
  dict_contains "plot" kwargs = false ->
  BenchmarkCategoryDriver_call E benchmark category kwargs w = Ok (report, w') ->
  (exists old cs entries,
      fs w !! resolve w YAML_REPORT_FILE = Some (FYaml (VDict old)) /\
      children_of old = Ok cs /\
      Forall2 (gathered_from w) cs entries /\
      fs w' = match cs with
              | [] => fs w
              | _ :: _ =>
                  <[resolve w JSON_METRICS_FILE :=
                      FText (json_array E entries)]> (fs w)
              end) /\
  (forall benchmark' report'' w'',
      BenchmarkCategoryDriver_call E benchmark' category kwargs w
      = Ok (report'', w'') ->
      fs w'' = fs w').
Proof.
  intros Hno Hplot H.
  pose proof (re_extract_files _ _ _ _ _ _ _ Hno Hplot H)
    as (old & cs & entries & Hold & Hcs & Hall & Hfs).
  split; [exists old, cs, entries; auto|].
  intros benchmark' report'' w'' H'.
  apply (re_extract_files _ _ _ _ _ _ _ Hno Hplot) in H'
    as (old' & cs' & entries' & Hold' & Hcs' & Hall' & Hfs').
  rewrite Hold in Hold'. injection Hold' as <-.
  rewrite Hcs in Hcs'. injection Hcs' as <-.
  rewrite (gathered_from_functional w cs entries' entries Hall' Hall) in Hfs'.
  congruence.
Qed.

(** Re-extraction at the Category node of the small campaign. *)
Lemma re_extract_aggregates_the_stored_checkpoints_witness :
  match BenchmarkCategoryDriver_call Scenario.env Scenario.benchmark "foo"
          [("no_exec", VBool true)] Scenario.category_dir with
  | Ok (_, w') =>
      forall report'' w'',
        BenchmarkCategoryDriver_call Scenario.env Scenario.wide "foo"
          [("no_exec", VBool true)] Scenario.category_dir = Ok (report'', w'') ->
        fs w'' = fs w'
  | Raise _ => False
  end.
Proof.
  destruct (BenchmarkCategoryDriver_call Scenario.env Scenario.benchmark "foo"
              [("no_exec", VBool true)] Scenario.category_dir)
    as [[report w']|e] eqn:Hcall; [|vm_compute in Hcall; discriminate Hcall].
  exact (proj2 (re_extract_aggregates_the_stored_checkpoints Scenario.env
                  Scenario.benchmark "foo" [("no_exec", VBool true)]
                  Scenario.category_dir report w' eq_refl eq_refl Hcall)
               Scenario.wide).
Defined.

Lemma execute_runs_nothing E benchmark category kwargs matrix : forall runs w,
  List.filter (in_category category) matrix = [] ->
  execute_runs E benchmark category kwargs matrix runs w = Ok (([], runs), w).
Proof.
  induction matrix as [|execution matrix IH]; intros runs w Hnone; simpl.
  - reflexivity.
  - simpl in Hnone. destruct (in_category category execution);
      [discriminate|]. apply IH, Hnone.
Qed.

(** X5: a Category node invoked in its default mode for a category that no
    entry of the execution matrix has spawns nothing and draws no UUID; it
    stores the checkpoint [{children: [], elapsed, date}] and writes no
    [metrics.json]. *)
Theorem empty_category_writes_no_metrics E benchmark category kwargs w :
  dict_contains "no_exec" kwargs = false ->
  List.filter (in_category category) (execution_matrix benchmark) = [] ->
  BenchmarkCategoryDriver_call E benchmark category kwargs w =
  Ok (stamp E (clock w) (clock w) [("children", VList [])],
      checkpointed (stamp E (clock w) (clock w) [("children", VList [])]) w).
Proof.
  intros Hno Hnone. unfold BenchmarkCategoryDriver_call.
  rewrite write_yaml_report_eval. unfold BenchmarkCategoryDriver_body.
  rewrite Hno. change (negb false) with true. cbv iota.
  unfold bind at 1. rewrite (execute_runs_nothing _ _ _ _ _ _ _ Hnone).
  reflexivity.
Qed.

(** The Category node of a category the small benchmark does not have. *)
Lemma empty_category_writes_no_metrics_witness :
  match BenchmarkCategoryDriver_call Scenario.env Scenario.benchmark "baz" []
          (with_cwd "/camp/baz" Scenario.initial) with
  | Ok (report, w') =>
      recorded_children report = Some (VList []) /\
      spawned w' = [] /\
      fs w' !! "/camp/baz/metrics.json" = None /\
      fs w' !! "/camp/baz/hpcbench.yaml" = Some (FYaml (VDict report))
  | Raise _ => False
  end.
Proof.
  rewrite (empty_category_writes_no_metrics Scenario.env Scenario.benchmark
             "baz" [] (with_cwd "/camp/baz" Scenario.initial) eq_refl eq_refl).
  vm_compute. repeat split.
Defined.

(** ** The execution of a command *)

Lemma setenv_items_Ok items : forall env env',
  setenv_items items env = Ok env' -> env' = dict_update env items.
Proof.
  induction items as [|[k v] items IH]; intros env env' H; simpl in H.
  - injection H as <-. reflexivity.
  - apply res_bind_Ok in H as (env1 & Hset & H).
    destruct v; try discriminate. injection Hset as <-.
    apply IH in H. exact H.
Qed.

(** X6: [ExecutionDriver] spawns exactly one process.  When the entry has
    no [environment], or a false one (such as an empty mapping), the
    process gets no [env] argument and so inherits the ambient
    environment; when [environment] is a non-empty mapping, the process
    gets a copy of [os.environ] overlaid with it: every variable of the
    mapping with the value given there, every other variable as in
    [os.environ]. *)
Theorem environment_overlays_the_ambient_one E benchmark execution kwargs w
        report w' :
  ExecutionDriver_call E benchmark execution kwargs w = Ok (report, w') ->
  exists sp,
    spawned w' = spawned w ++ [sp] /\
    (dict_get "environment" execution = None \/
     (exists v, dict_get "environment" execution = Some v /\ truthy v = false) ->
     sp_env sp = None) /\
    (forall d,
        dict_get "environment" execution = Some (VDict d) ->
        d <> [] -> is_dict d ->
        exists env,
          sp_env sp = Some env /\
          forall k, dict_get k env =
                    match dict_get k d with
                    | Some v => Some v
                    | None => dict_get k (environ E)
                    end).
Proof.
  intros H. apply ExecutionDriver_call_inv in H
    as (env & command & p & Henv & _ & _ & _ & ->).
  eexists. split; [reflexivity|]. simpl.
  unfold custom_environment in Henv. split.
  - intros [Hnone|(v & Hv & Hfalse)].
    + rewrite Hnone in Henv. injection Henv as <-. reflexivity.
    + rewrite Hv, Hfalse in Henv. injection Henv as <-. reflexivity.
  - intros d Hd Hne Hdict. rewrite Hd in Henv.
    destruct d as [|item d]; [congruence|].
    change (truthy (VDict (item :: d))) with true in Henv.
    cbv iota in Henv. apply res_bind_Ok in Henv as (env' & Hupdate & [= <-]).
    apply setenv_items_Ok in Hupdate as ->.
    eexists. split; [reflexivity|].
    intros k. exact (dict_get_update_dict k (environ E) (item :: d) Hdict).
Qed.

(** The command of the small campaign with one variable added to an
    ambient environment that has [HOME] only. *)
Lemma environment_overlays_the_ambient_one_witness :
  match ExecutionDriver_call Scenario.env Scenario.benchmark
          (Scenario.entry ++
           [("environment", VDict [("OMP_NUM_THREADS", VStr "4")])])
          [] Scenario.in_run_dir with
  | Ok (_, w') =>
      exists sp env,
        spawned w' = [sp] /\ sp_env sp = Some env /\
        dict_get "OMP_NUM_THREADS" env = Some (VStr "4") /\
        dict_get "HOME" env = Some (VStr "/root")
  | Raise _ => False
  end.
Proof.
  destruct (ExecutionDriver_call Scenario.env Scenario.benchmark _ []
              Scenario.in_run_dir) as [[report w']|e] eqn:Hcall;
    [|vm_compute in Hcall; discriminate Hcall].
  destruct (environment_overlays_the_ambient_one _ _ _ _ _ _ _ Hcall)
    as (sp & Hsp & _ & Hover).
  destruct (Hover [("OMP_NUM_THREADS", VStr "4")]) as (env & Henv & Hget).
  - reflexivity.
  - discriminate.
  - apply (bool_decide_unpack _). vm_compute. exact I.
  - exists sp, env. split; [exact Hsp|]. split; [exact Henv|].
    split; rewrite Hget; reflexivity.
Defined.



(** ** The campaign directory *)

Lemma string_length_app a b :
  String.length (a +:+ b) = (String.length a + String.length b)%nat.
Proof.
  induction a as [|c a IH].
  - rewrite string_app_nil_l. reflexivity.
  - rewrite string_app_cons. simpl. rewrite IH. reflexivity.
Qed.

Lemma endswith_app_short suffix a b :
  (String.length suffix <= String.length b)%nat ->
  endswith suffix (a +:+ b) = endswith suffix b.
Proof.
  intros Hlen. induction a as [|c a IH].
  - rewrite string_app_nil_l. reflexivity.
  - rewrite string_app_cons. cbn [endswith]. rewrite IH.
    rewrite bool_decide_eq_false_2; [reflexivity|].
    intros Heq. apply (f_equal String.length) in Heq.
    simpl in Heq. rewrite string_length_app in Heq. lia.
Qed.

Lemma endswith_osp_join suffix d name :
  startswith_slash name = false ->
  (String.length suffix <= String.length name)%nat ->
  endswith suffix (osp_join d name) = endswith suffix name.
Proof.
  intros Hrel Hlen. rewrite (osp_join_separator d name Hrel).
  rewrite <- string_app_assoc. apply endswith_app_short, Hlen.
Qed.

(** The copy of the campaign file is none of the files the tree writes. *)
Lemma kept_campaign_copy kwargs d :
  kept_by_invocation kwargs (file_at (osp_join d YAML_CAMPAIGN_FILE)).
Proof.
  apply kept_file_at; [|intros _; repeat split];
    rewrite endswith_osp_join; try reflexivity; simpl; lia.
Qed.

(** The checkpoint of a directory is not its campaign file. *)
Lemma kept_by_copy d :
  osp_join d YAML_REPORT_FILE <> osp_join d YAML_CAMPAIGN_FILE.
Proof. apply osp_join_ne; [reflexivity | reflexivity | discriminate]. Qed.

Lemma kept_by_copy_json d :
  osp_join d YAML_REPORT_FILE <> osp_join d JSON_METRICS_FILE.
Proof. apply osp_join_ne; [reflexivity | reflexivity | discriminate]. Qed.

(** The invocation of a campaign, step by step: the copy of the campaign
    file when the directory is new, then the root node, both in the
    campaign directory. *)
Lemma CampaignDriver_call_inv E self kwargs w w' :
  CampaignDriver_call E self kwargs w = Ok (tt, w') ->
  exists w1 report w2,
    (if negb (existing_campaign self)
     then copy (campaign_file self) YAML_CAMPAIGN_FILE
     else ret tt) (with_cwd (campaign_dir self w) w) = Ok (tt, w1) /\
    Enumerator_call E (lift (Ok [gethostname E]))
      (fun child => Ok (HostDriver_call E (campaign self) child))
      kwargs w1 = Ok (report, w2) /\
    w' = with_cwd (cwd w) w2.
Proof.
  intros H. unfold CampaignDriver_call, pushd in H.
  match type of H with
  | match ?body with _ => _ end = _ =>
      destruct body as [[a w3]|] eqn:Hbody; [|discriminate]
  end.
  injection H as _ <-.
  apply bind_Ok in Hbody as ([] & w1 & Hpre & Hrest).
  apply bind_Ok in Hrest as (report & w2 & Hroot & [= _ <-]).
  exists w1, report, w2. auto.
Qed.

Lemma prelude_inv self w w1 :
  (if negb (existing_campaign self)
   then copy (campaign_file self) YAML_CAMPAIGN_FILE
   else ret tt) (with_cwd (campaign_dir self w) w) = Ok (tt, w1) ->
  cwd w1 = campaign_dir self w /\
  clock w1 = clock w /\
  fs w1 !! osp_join (campaign_dir self w) YAML_REPORT_FILE =
    fs w !! osp_join (campaign_dir self w) YAML_REPORT_FILE /\
  (existing_campaign self = false ->
   exists f,
     fs w !! osp_join (campaign_dir self w) (campaign_file self) = Some f /\
     fs w1 !! osp_join (campaign_dir self w) YAML_CAMPAIGN_FILE = Some f).
Proof.
  destruct (existing_campaign self); simpl.
  - intros [= <-]. repeat split. discriminate.
  - unfold copy, resolve. simpl.
    destruct (fs w !! osp_join (campaign_dir self w) (campaign_file self))
      as [f|] eqn:Hf; [|discriminate].
    intros [= <-]. simpl. repeat split.
    + apply lookup_insert_ne. intros Heq. symmetry in Heq.
      exact (kept_by_copy _ Heq).
    + intros _. exists f. split; [reflexivity|]. apply lookup_insert_eq.
Qed.

Lemma startswith_slash_osp_join a b :
  startswith_slash a = true -> startswith_slash (osp_join a b) = true.
Proof.
  intros Ha. destruct (startswith_slash b) eqn:Hb.
  - rewrite osp_join_absolute; auto.
  - rewrite (osp_join_separator a b Hb), startswith_slash_app; auto.
    intros ->. discriminate.
Qed.

(** The copy made on a new campaign directory is still there, as it was
    made, when the invocation returns. *)
Lemma campaign_copy_survives E self kwargs w w' :
  existing_campaign self = false ->
  CampaignDriver_call E self kwargs w = Ok (tt, w') ->
  exists f,
    fs w !! osp_join (campaign_dir self w) (campaign_file self) = Some f /\
    fs w' !! osp_join (campaign_dir self w) YAML_CAMPAIGN_FILE = Some f.
Proof.
  intros Hnew H.
  apply CampaignDriver_call_inv in H as (w1 & report & w2 & Hpre & Hroot & ->).
  apply prelude_inv in Hpre as (_ & _ & _ & Hcopy).
  destruct (Hcopy Hnew) as (f & Hsrc & Hdst).
  exists f. split; [exact Hsrc|]. rewrite <- Hdst.
  change (file_at (osp_join (campaign_dir self w) YAML_CAMPAIGN_FILE) w2 =
          file_at (osp_join (campaign_dir self w) YAML_CAMPAIGN_FILE) w1).
  pose proof (kept_campaign_copy kwargs (campaign_dir self w)) as Hkept.
  eapply (preserves_Enumerator_call _ E);
    [apply Hkept | apply kept_yaml, Hkept | apply preserves_lift | | exact Hroot].
  intros child child_obj [= <-]. apply preserves_HostDriver_call, Hkept.
Qed.

(** X8: invoked on a new campaign directory, the driver copies the
    campaign file to [campaign.yaml] in the campaign directory before it
    walks the tree, and nothing the tree does, in whatever mode, changes
    the copy: after the invocation [campaign.yaml] holds what the campaign
    file, another file than the copy, held before it.  When the campaign
    file is missing (it is looked up from inside the campaign directory),
    the invocation raises before any node is entered. *)
Theorem new_campaign_keeps_a_copy_of_its_file E self kwargs w :
  existing_campaign self = false ->
  let source := osp_join (campaign_dir self w) (campaign_file self) in
  let target := osp_join (campaign_dir self w) YAML_CAMPAIGN_FILE in
  (fs w !! source = None ->
   CampaignDriver_call E self kwargs w = Raise (IOError source)) /\
  (forall w',
      source <> target ->
      CampaignDriver_call E self kwargs w = Ok (tt, w') ->
      is_Some (fs w !! source) /\ fs w' !! target = fs w !! source).
Proof.
  intros Hnew source target. split.
  - intros Hnone. unfold CampaignDriver_call, pushd, bind.
    rewrite Hnew. simpl. unfold copy, resolve. simpl.
    fold (campaign_dir self w). fold source. rewrite Hnone. reflexivity.
  - intros w' _ H.
    destruct (campaign_copy_survives E self kwargs w w' Hnew H)
      as (f & Hsrc & Hdst).
    fold source in Hsrc. fold target in Hdst.
    rewrite Hsrc, Hdst. eauto.
Qed.

(** The first invocation of the small campaign. *)
Lemma new_campaign_keeps_a_copy_of_its_file_witness :
  match CampaignDriver_call Scenario.env Cases.fresh [] Scenario.initial with
  | Ok (_, w') => fs w' !! "/out/campaign.yaml" = Some (FText "the campaign")
  | Raise _ => False
  end.
Proof.
  destruct (CampaignDriver_call Scenario.env Cases.fresh [] Scenario.initial)
    as [[[] w']|e] eqn:Hcall; [|vm_compute in Hcall; discriminate Hcall].
  destruct (new_campaign_keeps_a_copy_of_its_file Scenario.env Cases.fresh []
              Scenario.initial eq_refl) as [_ Hcopy].
  destruct (Hcopy w') as [_ Heq]; [discriminate | exact Hcall | exact Heq].
Defined.

(** X9: a driver made from a campaign file alone, in an absolute working
    directory, and then invoked, finds the file although the invocation
    has moved into the campaign directory by then, because the constructor
    made its path absolute: the campaign directory is named by the
    campaign's [output_dir] formatted with the time of the construction,
    and its [campaign.yaml] holds after the invocation what the file
    given to the constructor, another file than the copy, held, which is
    also the file the campaign was read from. *)
Theorem relative_campaign_file_is_found E file kwargs w self w1 w' :
  startswith_slash (cwd w) = true ->
  CampaignDriver_init E (Some file) None w = Ok (self, w1) ->
  osp_join (cwd w) file <>
    osp_join (campaign_dir self w) YAML_CAMPAIGN_FILE ->
  CampaignDriver_call E self kwargs w1 = Ok (tt, w') ->
  from_file E (osp_join (cwd w) file) (fs w) = Ok (campaign self) /\
  existing_campaign self = false /\
  campaign_path self = strftime E (clock w) (output_dir (campaign self)) /\
  is_Some (fs w !! osp_join (cwd w) file) /\
  fs w' !! osp_join (campaign_dir self w) YAML_CAMPAIGN_FILE =
    fs w !! osp_join (cwd w) file.
Proof.
  intros Habs Hinit _ Hcall. unfold CampaignDriver_init in Hinit.
  rewrite andb_false_r in Hinit. simpl in Hinit. unfold resolve in Hinit.
  destruct (from_file E (osp_join (cwd w) file) (fs w)) as [c|] eqn:Hfrom;
    [|discriminate].
  injection Hinit as <- <-. simpl.
  split; [reflexivity|]. split; [reflexivity|]. split; [reflexivity|].
  match type of Hcall with
  | CampaignDriver_call _ ?s _ _ = _ =>
      destruct (campaign_copy_survives E s kwargs w w' eq_refl Hcall)
        as (f & Hsrc & Hdst)
  end.
  simpl in Hsrc.
  rewrite osp_join_absolute in Hsrc
    by (apply startswith_slash_osp_join, Habs).
  rewrite Hsrc. split; [eauto|]. exact Hdst.
Qed.

(** The small campaign, made from [campaign.yaml] given relative to the
    root directory. *)
Lemma relative_campaign_file_is_found_witness :
  match CampaignDriver_init Scenario.env (Some "campaign.yaml") None
          Scenario.initial with
  | Ok (self, w1) =>
      match CampaignDriver_call Scenario.env self [] w1 with
      | Ok (_, w') =>
          fs w' !! osp_join (campaign_dir self Scenario.initial)
                            YAML_CAMPAIGN_FILE =
          Some (FText "the campaign")
      | Raise _ => False
      end
  | Raise _ => False
  end.
Proof.
  destruct (CampaignDriver_init Scenario.env (Some "campaign.yaml") None
              Scenario.initial) as [[self w1]|e] eqn:Hinit;
    [|vm_compute in Hinit; discriminate Hinit].
  destruct (CampaignDriver_call Scenario.env self [] w1)
    as [[[] w']|e] eqn:Hcall.
  - assert (Hne : osp_join (cwd Scenario.initial) "campaign.yaml" <>
                  osp_join (campaign_dir self Scenario.initial)
                           YAML_CAMPAIGN_FILE)
      by (vm_compute in Hinit; injection Hinit as <- _; vm_compute;
          discriminate).
    destruct (relative_campaign_file_is_found Scenario.env "campaign.yaml" []
                Scenario.initial self w1 w' eq_refl Hinit Hne Hcall)
      as (_ & _ & _ & _ & Heq).
    rewrite Heq. reflexivity.
  - vm_compute in Hinit. injection Hinit as <- <-.
    vm_compute in Hcall. discriminate Hcall.
Defined.

(** A node whose [children] is the list [cs], invoked where no checkpoint
    is, returns [cs]. *)
Lemma Enumerator_call_fresh E cs child_builder kwargs w report w' :
  fs w !! resolve w YAML_REPORT_FILE = None ->
  Enumerator_call E (lift (Ok cs)) child_builder kwargs w = Ok (report, w') ->
  recorded_children report = Some (VList (map VStr cs)).
Proof.
  intros Hnone H. unfold Enumerator_call in H.
  rewrite write_yaml_report_eval in H.
  destruct (Enumerator_body (lift (Ok cs)) child_builder kwargs w)
    as [[data w1]|] eqn:Hbody; [|discriminate].
  assert (Hcs : Enumerator__children (lift (Ok cs)) w = Ok (cs, w))
    by (rewrite Enumerator__children_fresh by exact Hnone; reflexivity).
  apply (Enumerator_body_inv _ _ _ _ _ _ _ _ Hcs) in Hbody as [-> _].
  simpl in H. rewrite map_str_VStr in H. injection H as <- _.
  unfold recorded_children.
  destruct (stamp_keys E (clock w) (clock w1) [("children", VList (map VStr cs))])
    as (_ & _ & Hk).
  rewrite Hk by discriminate. reflexivity.
Qed.

(** X10: invoked without [no_exec], the campaign leaves in the campaign
    directory a checkpoint of the root node.  When the directory had no
    checkpoint, it records the name of the current host as the only
    child; when it had one, it records the hosts of that checkpoint
    again, whatever the name of the current host is: a campaign directory
    taken to another host is walked for the hosts it was made on. *)
Theorem campaign_root_records_its_hosts E self kwargs w w' :
  dict_contains "no_exec" kwargs = false ->
  CampaignDriver_call E self kwargs w = Ok (tt, w') ->
  let checkpoint := osp_join (campaign_dir self w) YAML_REPORT_FILE in
  exists report,
    fs w' !! checkpoint = Some (FYaml (VDict report)) /\
    (fs w !! checkpoint = None ->
     recorded_children report = Some (VList [VStr (gethostname E)])) /\
    (forall old hosts,
        fs w !! checkpoint = Some (FYaml (VDict old)) ->
        children_of old = Ok hosts ->
        recorded_children report = Some (VList (map VStr hosts))).
Proof.
  intros Hno H checkpoint.
  apply CampaignDriver_call_inv in H as (w1 & report & w2 & Hpre & Hroot & ->).
  apply prelude_inv in Hpre as (Hcwd & _ & Hsame & _).
  fold checkpoint in Hsame.
  assert (Hat : resolve w1 YAML_REPORT_FILE = checkpoint)
    by (unfold resolve; rewrite Hcwd; reflexivity).
  exists report. split; [|split].
  - destruct (Enumerator_call_records _ _ _ _ _ _ _ Hno Hroot)
      as (cs & _ & _ & Hcwd2 & Hfile).
    unfold resolve in Hfile. rewrite Hcwd2, Hcwd in Hfile. exact Hfile.
  - intros Hnone. rewrite <- Hsame, <- Hat in Hnone.
    exact (Enumerator_call_fresh _ _ _ _ _ _ _ Hnone Hroot).
  - intros old hosts Hold Hhosts. rewrite <- Hsame, <- Hat in Hold.
    exact (proj1 (Enumerator_call_checkpointed _ _ _ _ _ _ _ _ _
                    Hold Hhosts Hroot)).
Qed.

(** The first invocation of the small campaign, on the host [web-01]. *)
Lemma campaign_root_records_its_hosts_witness :
  match CampaignDriver_call Scenario.env Cases.fresh [] Scenario.initial with
  | Ok (_, w') =>
      exists report,
        fs w' !! "/out/hpcbench.yaml" = Some (FYaml (VDict report)) /\
        recorded_children report = Some (VList [VStr "web-01"])
  | Raise _ => False
  end.
Proof.
  destruct (CampaignDriver_call Scenario.env Cases.fresh [] Scenario.initial)
    as [[[] w']|e] eqn:Hcall; [|vm_compute in Hcall; discriminate Hcall].
  destruct (campaign_root_records_its_hosts Scenario.env Cases.fresh []
              Scenario.initial w' eq_refl Hcall)
    as (report & Hfile & Hfresh & _).
  exists report. split; [exact Hfile|]. apply Hfresh. reflexivity.
Defined.

(** ** The tags of a host *)

Lemma existsb_localhost (f : string -> bool) host :
  existsb f (hostnames "localhost") = true ->
  existsb f (hostnames host) = true.
Proof. rewrite !existsb_hostnames. tauto. Qed.

Lemma set_add_mono tag (b0 b : list string) (grow0 grow : bool) :
  (grow0 = true -> grow = true) ->
  (forall t, t ∈ b0 -> t ∈ b) ->
  forall t, t ∈ (if grow0 then set_add tag b0 else b0) ->
            t ∈ (if grow then set_add tag b else b).
Proof.
  intros Hgrow Hsub t. destruct grow0.
  - rewrite Hgrow by reflexivity. rewrite !elem_of_set_add.
    intros [|]; auto.
  - intros Hin. destruct grow; [rewrite elem_of_set_add|]; auto.
Qed.

Lemma for_modes_localhost tag host config : forall b0 b0' b,
  for_modes tag (hostnames "localhost") config b0 = Ok b0' ->
  (forall t, t ∈ b0 -> t ∈ b) ->
  exists b',
    for_modes tag (hostnames host) config b = Ok b' /\
    forall t, t ∈ b0' -> t ∈ b'.
Proof.
  induction config as [|[mode k] config IH]; intros b0 b0' b H Hsub.
  - injection H as <-. exists b. auto.
  - cbn [for_modes] in *. case_bool_decide as Hmatch;
      [|case_bool_decide as Hnodes; [|discriminate]].
    + destruct k as [r| |]; try discriminate.
      cbn [rule_match res_bind] in *.
      eapply IH; [exact H|]. apply set_add_mono; [|exact Hsub].
      apply existsb_localhost.
    + destruct k as [|hosts|]; try discriminate.
      cbn [rule_nodes res_bind] in *.
      pose proof (existsb_localhost
                    (fun h => bool_decide (h ∈ hosts)) host) as Hhit.
      destruct (existsb _ (hostnames "localhost")) eqn:Hlocal.
      * rewrite Hhit by reflexivity. injection H as <-.
        eexists. split; [reflexivity|].
        intros t. rewrite !elem_of_set_add. intros [|]; auto.
      * destruct (existsb _ (hostnames host)).
        -- eexists. split; [reflexivity|]. intros t Ht.
           apply for_modes_Ok in H as (_ & Hfrom & _).
           rewrite elem_of_set_add.
           destruct (Hfrom t Ht) as [|[-> _]]; auto.
        -- eapply IH; eauto.
Qed.

Lemma for_configs_localhost tag host configs : forall b0 b0' b,
  for_configs tag (hostnames "localhost") configs b0 = Ok b0' ->
  (forall t, t ∈ b0 -> t ∈ b) ->
  exists b',
    for_configs tag (hostnames host) configs b = Ok b' /\
    forall t, t ∈ b0' -> t ∈ b'.
Proof.
  induction configs as [|config configs IH]; intros b0 b0' b H Hsub.
  - injection H as <-. exists b. auto.
  - cbn [for_configs] in *.
    apply res_bind_Ok in H as (b1 & Hmodes & H).
    destruct (for_modes_localhost tag host config b0 b1 b Hmodes Hsub)
      as (b1' & -> & Hsub1).
    simpl. case_bool_decide as Hin0.
    + injection H as <-.
      rewrite bool_decide_eq_true_2 by auto. eauto.
    + case_bool_decide as Hin; [|eapply IH; eauto].
      eexists. split; [reflexivity|]. intros t Ht.
      apply for_configs_Ok in H as (_ & Hfrom & _).
      destruct (Hfrom t Ht) as [|[-> _]]; auto.
Qed.

Lemma for_tags_localhost host tags : forall b0 b0' b,
  for_tags (hostnames "localhost") tags b0 = Ok b0' ->
  (forall t, t ∈ b0 -> t ∈ b) ->
  exists b',
    for_tags (hostnames host) tags b = Ok b' /\
    forall t, t ∈ b0' -> t ∈ b'.
Proof.
  induction tags as [|[tag configs] tags IH]; intros b0 b0' b H Hsub.
  - injection H as <-. exists b. auto.
  - cbn [for_tags] in *.
    apply res_bind_Ok in H as (b1 & Hconfigs & H).
    destruct (for_configs_localhost tag host configs b0 b1 b Hconfigs Hsub)
      as (b1' & -> & Hsub1).
    simpl. eapply IH; eauto.
Qed.

(** X11: since every host also answers to the name [localhost], a
    network whose tags can be resolved for the host named [localhost] can
    be resolved for every host, without an error, and every host gets at
    least the tags [localhost] gets. *)
Theorem localhost_tags_are_on_every_host campaign host local :
  HostDriver_children campaign "localhost" = Ok local ->
  exists benchmarks,
    HostDriver_children campaign host = Ok benchmarks /\
    forall tag, tag ∈ local -> tag ∈ benchmarks.
Proof.
  intros H. unfold HostDriver_children in *.
  eapply for_tags_localhost; [exact H | auto].
Qed.

(** The network of the small campaign, resolved for [web-01]. *)
Lemma localhost_tags_are_on_every_host_witness :
  exists benchmarks,
    HostDriver_children Scenario.campaign "web-01" = Ok benchmarks /\
    "*" ∈ benchmarks.
Proof.
  destruct (HostDriver_children Scenario.campaign "localhost")
    as [local|e] eqn:Hlocal; [|vm_compute in Hlocal; discriminate Hlocal].
  destruct (localhost_tags_are_on_every_host Scenario.campaign "web-01" local
              Hlocal) as (benchmarks & Hhost & Hsub).
  exists benchmarks. split; [exact Hhost|]. apply Hsub.
  vm_compute in Hlocal. injection Hlocal as <-.
  apply (bool_decide_unpack _). vm_compute. exact I.
Defined.

(** ** The categories of a benchmark *)

Lemma BenchmarkDriver_children_total matrix : forall categories,
  (forall execution, execution ∈ matrix ->
                     exists c, dict_get "category" execution = Some (VStr c)) ->
  exists cats, BenchmarkDriver_children matrix categories = Ok cats.
Proof.
  induction matrix as [|execution matrix IH]; intros categories Hall; simpl.
  - eauto.
  - destruct (Hall execution) as [c ->]; [left|].
    apply IH. intros e He. apply Hall. right. exact He.
Qed.

Lemma BenchmarkDriver_children_strings matrix : forall categories cats,
  BenchmarkDriver_children matrix categories = Ok cats ->
  forall execution, execution ∈ matrix ->
                    exists c, dict_get "category" execution = Some (VStr c).
Proof.
  induction matrix as [|execution matrix IH]; intros categories cats H e He;
    simpl in H.
  - apply elem_of_nil in He. destruct He.
  - destruct (dict_get "category" execution) as [[| | | |c0| |]|] eqn:Hc;
      try discriminate.
    apply elem_of_cons in He as [->|He]; eauto.
Qed.

Lemma in_category_iff category execution :
  in_category category execution = true <->
  dict_get "category" execution = Some (VStr category).
Proof.
  unfold in_category.
  destruct (dict_get "category" execution) as [[| | | |c| |]|];
    try (split; [discriminate|congruence]).
  rewrite bool_decide_eq_true. split; congruence.
Qed.

Lemma BenchmarkDriver_children_raises before execution after :
  forall categories,
    (forall e, e ∈ before ->
               exists c, dict_get "category" e = Some (VStr c)) ->
    dict_get "category" execution = None ->
    BenchmarkDriver_children (before ++ execution :: after) categories =
    Raise (KeyError "category").
Proof.
  induction before as [|e before IH]; intros categories Hall Hnone; simpl.
  - rewrite Hnone. reflexivity.
  - destruct (Hall e) as [c ->]; [left|].
    apply IH; [|exact Hnone]. intros e' He'. apply Hall. right. exact He'.
Qed.

(** X12: when every entry of the execution matrix has a string for
    [category], the children of the Benchmark node are the categories of
    the matrix, each once; none of them is without an entry to run, and
    every entry of the matrix is run by exactly one of them.  The first
    entry without a [category] makes the node raise [KeyError]. *)
Theorem every_entry_has_one_category_child matrix :
  ((forall execution,
       execution ∈ matrix ->
       exists c, dict_get "category" execution = Some (VStr c)) ->
   exists cats,
     BenchmarkDriver_children matrix [] = Ok cats /\
     NoDup cats /\
     (forall c, c ∈ cats -> List.filter (in_category c) matrix <> []) /\
     (forall execution,
         execution ∈ matrix ->
         exists c,
           c ∈ cats /\ in_category c execution = true /\
           forall c', in_category c' execution = true -> c' = c)) /\
  (forall before execution after,
      matrix = before ++ execution :: after ->
      (forall e, e ∈ before ->
                 exists c, dict_get "category" e = Some (VStr c)) ->
      dict_get "category" execution = None ->
      BenchmarkDriver_children matrix [] = Raise (KeyError "category")).
Proof.
  split.
  - intros Hstr.
    destruct (BenchmarkDriver_children_total matrix [] Hstr) as [cats H].
    exists cats. split; [exact H|].
    apply BenchmarkDriver_children_Ok in H as [Hnd Hchar]; [|constructor].
    split; [exact Hnd|]. split.
    + intros c Hc Hnil. apply Hchar in Hc as [Hc|(e & He & Hcat)].
      * apply elem_of_nil in Hc. destruct Hc.
      * assert (Hin : e ∈ List.filter (in_category c) matrix).
        { apply list_elem_of_In, filter_In. split.
          - apply list_elem_of_In, He.
          - apply in_category_iff, Hcat. }
        rewrite Hnil in Hin. apply elem_of_nil in Hin. destruct Hin.
    + intros e He. destruct (Hstr e He) as [c Hc]. exists c.
      split; [apply Hchar; right; eauto|].
      split; [apply in_category_iff, Hc|].
      intros c' Hc'. apply in_category_iff in Hc'. congruence.
  - intros before execution after -> Hall Hnone.
    apply BenchmarkDriver_children_raises; assumption.
Qed.

(** The matrix of the small benchmark. *)
Lemma every_entry_has_one_category_child_witness :
  exists cats,
    BenchmarkDriver_children (execution_matrix Scenario.benchmark) [] =
      Ok cats /\
    NoDup cats.
Proof.
  destruct (every_entry_has_one_category_child
              (execution_matrix Scenario.benchmark)) as [Hone _].
  destruct Hone as (cats & Hcats & Hnd & _).
  - intros execution He. apply list_elem_of_In in He. vm_compute in He.
    repeat (destruct He as [<-|He]; [eexists; reflexivity|]).
    destruct He.
  - exists cats. split; [exact Hcats | exact Hnd].
Defined.

(** ** Execution followed by re-extraction *)

Lemma execute_runs_runs E benchmark category kwargs matrix :
  forall runs w yielded w',
    execute_runs E benchmark category kwargs matrix runs w = Ok (yielded, w') ->
    yielded.2 = fold_left (fun runs child => runs_append category child runs)
                          yielded.1 runs.
Proof.
  induction matrix as [|execution matrix IH]; intros runs w yielded w' H;
    simpl in H.
  - injection H as <- _. reflexivity.
  - destruct (in_category category execution); [|eapply IH, H].
    apply bind_Ok in H as (run_dir & w1 & _ & H).
    apply bind_Ok in H as (r & w2 & _ & H).
    apply bind_Ok in H as (rest & w3 & Hrest & [= <- _]).
    simpl. eapply IH, Hrest.
Qed.

(** What the Category node leaves when it executes its entries: the
    aggregation of the checkpoints of the runs, as they are once the last
    run is over, and above it the checkpoint of the node. *)
Lemma execute_files E benchmark category kwargs w report w' :
  dict_contains "no_exec" kwargs = false ->
  BenchmarkCategoryDriver_call E benchmark category kwargs w = Ok (report, w') ->
  let run_dirs :=
    fresh_run_dirs E (uuids w)
      (List.filter (in_category category) (execution_matrix benchmark)) in
  exists wg entries,
    cwd wg = cwd w /\ cwd w' = cwd w /\
    Forall2 (gathered_from wg) run_dirs entries /\
    children_of report = Ok run_dirs /\
    fs w' = <[resolve w YAML_REPORT_FILE := FYaml (VDict report)]>
              (match run_dirs with
               | [] => fs wg
               | _ :: _ =>
                   <[resolve w JSON_METRICS_FILE :=
                       FText (json_array E entries)]> (fs wg)
               end) /\
    exists runs,
      execute_runs E benchmark category kwargs (execution_matrix benchmark)
                   [] w = Ok ((run_dirs, runs), wg).
Proof.
  intros Hno H run_dirs. unfold BenchmarkCategoryDriver_call in H.
  rewrite write_yaml_report_eval in H.
  destruct (BenchmarkCategoryDriver_body E benchmark category kwargs w)
    as [[data w1]|] eqn:Hbody; [|discriminate].
  unfold BenchmarkCategoryDriver_body in Hbody. rewrite Hno in Hbody.
  simpl in Hbody.
  apply bind_Ok in Hbody as ([ys runs] & wg & Hruns & Hbody).
  cbn [fst snd] in Hbody.
  apply bind_Ok in Hbody as ([] & w3 & Hgather & [= <- <-]).
  pose proof (execute_runs_runs _ _ _ _ _ _ _ _ _ Hruns) as Hr.
  pose proof (execute_runs_inv _ _ _ _ _ _ _ _ _ Hruns) as (Hys & _ & Hcwd & _).
  cbn [fst snd] in Hr, Hys. fold run_dirs in Hys. subst ys.
  rewrite runs_append_from_nothing in Hr.
  simpl in H. rewrite map_str_VStr, Hno in H. injection H as <- <-.
  assert (Hchildren :
    children_of (stamp E (clock w) (clock w3)
                       [("children", VList (map VStr run_dirs))]) =
    Ok run_dirs).
  { unfold children_of, dict_item.
    destruct (stamp_keys E (clock w) (clock w3)
                [("children", VList (map VStr run_dirs))]) as (_ & _ & Hk).
    rewrite Hk by discriminate. simpl. apply strings_of_map_VStr. }
  rewrite Hr in Hgather. destruct run_dirs as [|r0 rs] eqn:Hdirs.
  - injection Hgather as <-. exists wg, []. unfold checkpointed, resolve.
    simpl. rewrite Hcwd. repeat split; eauto; constructor.
  - unfold BenchmarkCategoryDriver_gather_metrics, runs_of in Hgather.
    cbn [for_each snd] in Hgather.
    apply bind_Ok in Hgather as ([] & w4 & Hitem & [= <-]).
    apply bind_Ok in Hitem as (text & w5 & Hentries & [= <-]).
    pose proof (gather_entries_world _ _ _ _ _ Hentries) as ->.
    apply gather_entries_inv in Hentries as (entries & Hall & ->).
    exists wg, entries. unfold checkpointed, resolve. simpl.
    rewrite Hcwd. repeat split; eauto.
Qed.

Lemma osp_join_twice_suffix d r name :
  startswith_slash name = false ->
  exists prefix, osp_join d (osp_join r name) = prefix +:+ name.
Proof.
  intros Hrel. rewrite (osp_join_separator r name Hrel).
  destruct (startswith_slash (r +:+ separator r +:+ name)) eqn:Habs.
  - rewrite osp_join_absolute by exact Habs.
    exists (r +:+ separator r). rewrite string_app_assoc. reflexivity.
  - rewrite osp_join_separator by exact Habs.
    exists (d +:+ separator d +:+ r +:+ separator r).
    rewrite !string_app_assoc. reflexivity.
Qed.

(** The checkpoint of a run is not the aggregation file of the category. *)
Lemma run_checkpoint_not_metrics d r :
  osp_join d (osp_join r YAML_REPORT_FILE) <> osp_join d JSON_METRICS_FILE.
Proof.
  intros Heq. apply (f_equal (endswith JSON_METRICS_FILE)) in Heq.
  rewrite (osp_join_endswith d JSON_METRICS_FILE) in Heq by reflexivity.
  destruct (osp_join_twice_suffix d r YAML_REPORT_FILE) as [prefix Hp];
    [reflexivity|].
  rewrite Hp, endswith_app_short in Heq by (simpl; lia).
  discriminate.
Qed.

Lemma gathered_from_later w w' run_dirs : forall entries,
  cwd w' = cwd w ->
  Forall (fun r => fs w' !! osp_join (cwd w) (osp_join r YAML_REPORT_FILE) =
                   fs w !! osp_join (cwd w) (osp_join r YAML_REPORT_FILE))
         run_dirs ->
  Forall2 (gathered_from w) run_dirs entries ->
  Forall2 (gathered_from w') run_dirs entries.
Proof.
  intros entries Hcwd Hsame Hall. revert Hsame.
  induction Hall as [|r out rs entries (doc & Hdoc & Hout) _ IH];
    intros Hsame; [constructor|].
  inversion Hsame as [|? ? Hr Hrs]; subst.
  constructor; [|apply IH, Hrs].
  exists doc. split; [|exact Hout].
  unfold resolve in *. rewrite Hcwd, Hr. exact Hdoc.
Qed.

(** X13: a re-extraction that follows an execution of the Category node
    changes no file.  The runs it walks are those the execution recorded,
    and what it aggregates are their checkpoints as the execution left
    them, so that [metrics.json] is written again with the content it
    already has, whatever the extractors return this time.  (The
    directory of a run is supposed to be another one than the directory
    of the category.) *)
Theorem re_extraction_after_execution_changes_no_file E benchmark benchmark'
        category kwargs kwargs' w report w1 report' w2 :
  dict_contains "no_exec" kwargs = false ->
  dict_contains "no_exec" kwargs' = true ->
  dict_contains "plot" kwargs' = false ->
  Forall (fun r => osp_join (cwd w) (osp_join r YAML_REPORT_FILE) <>
                   osp_join (cwd w) YAML_REPORT_FILE)
         (fresh_run_dirs E (uuids w)
            (List.filter (in_category category) (execution_matrix benchmark))) ->
  BenchmarkCategoryDriver_call E benchmark category kwargs w
    = Ok (report, w1) ->
  BenchmarkCategoryDriver_call E benchmark' category kwargs' w1
    = Ok (report', w2) ->
  fs w2 = fs w1.
Proof.
  intros Hno Hno' Hplot Hapart Hexec Hagain.
  destruct (execute_files _ _ _ _ _ _ _ Hno Hexec)
    as (wg & entries & Hcwdg & Hcwd1 & Hall & Hchildren & Hfs1 & _).
  apply (re_extract_files _ _ _ _ _ _ _ Hno' Hplot) in Hagain
    as (old & cs & entries' & Hold & Hcs & Hall' & Hfs2).
  unfold resolve in Hold, Hfs2. rewrite Hcwd1 in Hold, Hfs2.
  unfold resolve in Hfs1.
  rewrite Hfs1, lookup_insert_eq in Hold. injection Hold as <-.
  rewrite Hchildren in Hcs. injection Hcs as <-.
  set (run_dirs := fresh_run_dirs E (uuids w)
         (List.filter (in_category category) (execution_matrix benchmark))) in *.
  destruct run_dirs as [|r0 rs] eqn:Hdirs; [exact Hfs2|].
  assert (Hlater : Forall2 (gathered_from w1) (r0 :: rs) entries).
  { apply (gathered_from_later wg); [congruence| |exact Hall].
    rewrite Hcwdg. eapply Forall_impl; [exact Hapart|].
    intros r Hr. simpl in Hr. rewrite Hfs1.
    rewrite lookup_insert_ne by (intros Heq; apply Hr; symmetry; exact Heq).
    apply lookup_insert_ne. intros Heq. symmetry in Heq.
    exact (run_checkpoint_not_metrics _ _ Heq). }
  rewrite (gathered_from_functional w1 _ _ _ Hall' Hlater) in Hfs2.
  rewrite Hfs2. apply insert_id. rewrite Hfs1.
  rewrite lookup_insert_ne by apply kept_by_copy_json.
  apply lookup_insert_eq.
Qed.

(** The category [foo] of the small benchmark, executed and then extracted
    again with another extractor. *)
Lemma re_extraction_after_execution_changes_no_file_witness :
  match BenchmarkCategoryDriver_call Scenario.env Scenario.benchmark "foo" []
          (with_cwd "/camp" Scenario.initial) with
  | Ok (_, w1) =>
      match BenchmarkCategoryDriver_call Scenario.env Scenario.wide "foo"
              [("no_exec", VBool true)] w1 with
      | Ok (_, w2) => fs w2 = fs w1
      | Raise _ => False
      end
  | Raise _ => False
  end.
Proof.
  destruct (BenchmarkCategoryDriver_call Scenario.env Scenario.benchmark "foo"
              [] (with_cwd "/camp" Scenario.initial))
    as [[report w1]|e] eqn:Hexec; [|vm_compute in Hexec; discriminate Hexec].
  destruct (BenchmarkCategoryDriver_call Scenario.env Scenario.wide "foo"
              [("no_exec", VBool true)] w1) as [[report' w2]|e] eqn:Hagain.
  - apply (re_extraction_after_execution_changes_no_file
             Scenario.env Scenario.benchmark Scenario.wide "foo" []
             [("no_exec", VBool true)] (with_cwd "/camp" Scenario.initial)
             report w1 report' w2 eq_refl eq_refl eq_refl);
      [|exact Hexec|exact Hagain].
    constructor; [vm_compute; discriminate | constructor].
  - vm_compute in Hexec. injection Hexec as _ <-.
    vm_compute in Hagain. discriminate Hagain.
Defined.

(** * The runs of a category, from the command to the aggregation *)

Lemma extracted_by_list x outdir metas files mappings :
  extracted_by x outdir metas files mappings <->
  Forall2 (extracts outdir metas files) (extractor_list x) mappings.
Proof.
  destruct x as [e|l]; simpl; [|reflexivity]. split.
  - intros (m & -> & Hm). constructor; [exact Hm | constructor].
  - intros H. inversion H as [|? m ? ms Hm Hrest]; subst.
    inversion Hrest; subst. exists m. auto.
Qed.

Lemma metrics_setdefault report report1 v :
  dict_setdefault "metrics" (VDict []) report = (report1, v) ->
  (forall k, k <> "metrics" -> dict_get k report1 = dict_get k report) /\
  (forall metrics, v = VDict metrics -> metrics = metrics_of report).
Proof.
  unfold dict_setdefault, metrics_of.
  destruct (dict_get "metrics" report) as [x|] eqn:Hm; intros [= <- <-].
  - split; [reflexivity|]. intros metrics ->. reflexivity.
  - split.
    + intros k Hk. apply dict_get_set_ne. auto.
    + intros metrics [= <-]. reflexivity.
Qed.

(** What [MetricsDriver] has done when it returns. *)
Lemma MetricsDriver_call_inv E benchmark kwargs w report report' w' :
  fs w !! resolve w YAML_REPORT_FILE = Some (FYaml (VDict report)) ->
  MetricsDriver_call E benchmark kwargs w = Ok (report', w') ->
  exists cat x mappings,
    dict_get "category" report = Some (VStr cat) /\
    dict_get cat (metrics_extractors benchmark) = Some x /\
    Forall2 (extracts (cwd w) (default VNone (dict_get "metas" report)) (fs w))
            (extractor_list x) mappings /\
    category_list cat (metrics_of report') =
      category_list cat (metrics_of report) ++ map VDict mappings /\
    (forall k, k <> "metrics" -> k <> "elapsed" -> k <> "date" ->
               dict_get k report' = dict_get k report) /\
    w' = (if dict_contains "no_exec" kwargs then w
          else checkpointed report' w).
Proof.
  intros Hdoc H.
  rewrite (MetricsDriver_call_eval E benchmark kwargs w _ Hdoc) in H.
  rewrite write_yaml_report_eval in H.
  destruct (MetricsDriver_body E benchmark (VDict report) w)
    as [[data w1]|] eqn:Hbody; [|discriminate].
  unfold MetricsDriver_body, no_extractor, raise in Hbody.
  destruct (dict_get "category" report) as [[| | | |cat| |]|] eqn:Hcat;
    try discriminate.
  destruct (dict_get cat (metrics_extractors benchmark)) as [x|] eqn:Hx;
    [|discriminate].
  destruct (dict_setdefault "metrics" (VDict []) report)
    as [report1 [| | | | | |metrics]] eqn:Hsd; try discriminate.
  apply metrics_setdefault in Hsd as [Hkeep Hmetrics].
  specialize (Hmetrics metrics eq_refl).
  apply bind_Ok in Hbody as (metrics' & w2 & Hrun & [= <- <-]).
  apply extract_all_inv in Hrun as (-> & mappings & Hall & Hlist & _).
  simpl in H. injection H as <- <-.
  exists cat, x, mappings. split; [reflexivity|]. split; [exact Hx|].
  split; [exact Hall|]. split; [|split].
  - rewrite metrics_of_stamp. unfold metrics_of at 1.
    rewrite dict_get_set_eq, Hlist, Hmetrics. reflexivity.
  - intros k H1 H2 H3.
    destruct (stamp_keys E (clock w) (clock w)
                (dict_set "metrics" (VDict metrics') report1)) as (_ & _ & Hk).
    rewrite Hk by auto. rewrite dict_get_set_ne by auto. apply Hkeep, H1.
  - reflexivity.
Qed.

(** [MetricsDriver] returns when the extractors of the category return
    valid mappings. *)
Lemma MetricsDriver_call_Ok E benchmark kwargs w report cat x mappings :
  fs w !! resolve w YAML_REPORT_FILE = Some (FYaml (VDict report)) ->
  dict_get "category" report = Some (VStr cat) ->
  dict_get cat (metrics_extractors benchmark) = Some x ->
  Forall2 (extracts (cwd w) (default VNone (dict_get "metas" report)) (fs w))
          (extractor_list x) mappings ->
  may_hold_metrics cat report ->
  exists report',
    MetricsDriver_call E benchmark kwargs w =
    Ok (report', if dict_contains "no_exec" kwargs then w
                 else checkpointed report' w).
Proof.
  intros Hdoc Hcat Hx Hall Hmetrics.
  rewrite (MetricsDriver_call_eval E benchmark kwargs w _ Hdoc).
  rewrite write_yaml_report_eval. simpl. rewrite Hcat, Hx.
  assert (Hsd : exists report1 metrics,
             dict_setdefault "metrics" (VDict []) report
             = (report1, VDict metrics) /\
             (dict_get cat metrics = None \/
              exists l, dict_get cat metrics = Some (VList l))).
  { unfold dict_setdefault.
    destruct Hmetrics as [Hnone|(metrics & Hsome & Hl)].
    - rewrite Hnone. eexists _, []. eauto.
    - rewrite Hsome. eexists _, metrics. eauto. }
  destruct Hsd as (report1 & metrics & -> & Hl).
  destruct (extract_all_Ok (extractor_list x) cat
              (default VNone (dict_get "metas" report)) metrics w mappings
              Hall Hl) as (metrics' & Hrun & _).
  unfold bind. rewrite Hrun. unfold ret. simpl.
  eexists. reflexivity.
Qed.

(** The report of an execution, where [ExecutionDriver] has stored it. *)
Lemma executed_report E benchmark execution kwargs w command env p category :
  dict_contains "no_exec" kwargs = false ->
  is_dict execution ->
  in_category category execution = true ->
  let report := execution_report E benchmark execution w p in
  let we := executed E benchmark execution kwargs w command env p in
  fs we !! resolve we YAML_REPORT_FILE = Some (FYaml (VDict report)) /\
  dict_get "category" report = Some (VStr category) /\
  dict_get "metas" report = dict_get "metas" execution /\
  dict_get "metrics" report = dict_get "metrics" execution /\
  dict_get "exit_status" report = Some (recorded_status execution p).
Proof.
  intros Hno Hdict Hcat report we. split; [|split; [|split; [|split]]].
  - unfold we, executed, resolve. rewrite Hno. simpl. apply lookup_insert_eq.
  - unfold report. rewrite execution_report_get by (auto; discriminate).
    rewrite (in_category_get _ _ Hcat). reflexivity.
  - unfold report. rewrite execution_report_get by (auto; discriminate).
    destruct (dict_get "metas" execution); reflexivity.
  - unfold report. rewrite execution_report_get by (auto; discriminate).
    destruct (dict_get "metrics" execution); reflexivity.
  - unfold report, recorded_status.
    rewrite execution_report_get by (auto; discriminate).
    destruct (dict_get "exit_status" execution); reflexivity.
Qed.

Lemma run_checkpoint_join dir run_dir :
  run_checkpoint dir run_dir = osp_join (osp_join dir run_dir) YAML_REPORT_FILE.
Proof. unfold run_checkpoint. apply osp_join_assoc. reflexivity. Qed.

Lemma run_extracted_files E benchmark category dir files files' execution
      run_dir p doc :
  files' !! run_checkpoint dir run_dir = files !! run_checkpoint dir run_dir ->
  run_extracted E benchmark category dir files execution run_dir p doc ->
  run_extracted E benchmark category dir files' execution run_dir p doc.
Proof.
  intros Hsame (env & command & n & before & x & after & mappings & H).
  exists env, command, n, before, x, after, mappings.
  rewrite Hsame. exact H.
Qed.

(** One run of the loop of the Category node, once it has returned. *)
Lemma run_inv E benchmark category kwargs execution run_dir w r w' :
  dict_contains "no_exec" kwargs = false ->
  is_dict execution ->
  in_category category execution = true ->
  pushd run_dir true
        (ExecutionDriver_call E benchmark execution kwargs ;;
         MetricsDriver_call E benchmark kwargs) w = Ok (r, w') ->
  cwd w' = cwd w /\
  (forall path, path ∉ run_files (cwd w) run_dir ->
                fs w' !! path = fs w !! path) /\
  exists p doc,
    run_extracted E benchmark category (cwd w) (fs w') execution run_dir p doc.
Proof.
  intros Hno Hdict Hcat H.
  pose proof (pushd_cwd _ _ _ _ _ _ H) as Hcwd.
  unfold pushd in H.
  set (wd := with_cwd (osp_join (cwd w) run_dir) w) in *.
  match type of H with
  | match ?body with _ => _ end = _ =>
      destruct body as [[a w3]|] eqn:Hbody; [|discriminate]
  end.
  injection H as -> <-.
  apply bind_Ok in Hbody as (report & we & Hexec & Hextract).
  apply ExecutionDriver_call_inv in Hexec
    as (env & command & p & Henv & Hcommand & Hp & -> & Hwe).
  destruct (executed_report E benchmark execution kwargs wd command env p
              category Hno Hdict Hcat)
    as (Hdoc & Hcategory & Hmetas & Hmetrics & Hstatus).
  rewrite <- Hwe in Hdoc.
  destruct (MetricsDriver_call_inv _ _ _ _ _ _ _ Hdoc Hextract)
    as (cat & x & mappings & Hcat' & Hx & Hall & Hlist & Hkeep & Hw3).
  rewrite Hcategory in Hcat'. injection Hcat' as <-.
  rewrite Hno in Hw3.
  assert (Hcwde : cwd we = osp_join (cwd w) run_dir) by (subst we; reflexivity).
  split; [exact Hcwd|]. split.
  - intros path Hpath. unfold run_files in Hpath.
    rewrite !not_elem_of_cons in Hpath. destruct Hpath as (H1 & H2 & H3 & _).
    subst w3. unfold checkpointed, resolve. simpl. rewrite Hcwde.
    rewrite lookup_insert_ne by auto.
    subst we. unfold executed, opened, resolve. rewrite Hno. simpl.
    rewrite !lookup_insert_ne by auto. reflexivity.
  - exists p, r.
    exists env, command, (List.length (spawned wd)), (opened wd), x, (fs we),
           mappings.
    destruct (executed_files E benchmark execution kwargs wd command env p)
      as (Hout & Herr & _).
    rewrite <- Hwe in Hout, Herr.
    split; [exact Henv|]. split; [exact Hcommand|]. split; [exact Hp|].
    split; [exact Hx|]. split; [exact Hout|]. split; [exact Herr|].
    split; [|split; [|split]].
    + apply extracted_by_list. rewrite Hcwde, Hmetas in Hall. exact Hall.
    + rewrite run_checkpoint_join. subst w3. unfold checkpointed, resolve.
      simpl. rewrite Hcwde. apply lookup_insert_eq.
    + rewrite Hkeep by discriminate. exact Hstatus.
    + rewrite Hlist. unfold metrics_of. rewrite Hmetrics. reflexivity.
Qed.

(** The checkpoint of a run is none of the output files of a run. *)
Lemma run_checkpoint_not_output dir run_dir run_dir' name :
  name = "stdout.txt" \/ name = "stderr.txt" ->
  run_checkpoint dir run_dir <> osp_join (osp_join dir run_dir') name.
Proof.
  intros Hname Heq. apply (f_equal (endswith name)) in Heq.
  rewrite (osp_join_endswith _ name) in Heq
    by (destruct Hname as [-> | ->]; reflexivity).
  destruct (osp_join_twice_suffix dir run_dir YAML_REPORT_FILE) as [prefix Hp];
    [reflexivity|].
  unfold run_checkpoint in Heq. rewrite Hp in Heq.
  rewrite endswith_app_short in Heq
    by (destruct Hname as [-> | ->]; simpl; lia).
  destruct Hname as [-> | ->]; discriminate.
Qed.

Lemma run_checkpoint_apart dir run_dir run_dirs :
  run_checkpoint dir run_dir ∉ map (run_checkpoint dir) run_dirs ->
  forall r, r ∈ run_dirs -> run_checkpoint dir run_dir ∉ run_files dir r.
Proof.
  intros Hnew r Hr. unfold run_files. rewrite !not_elem_of_cons.
  split; [apply run_checkpoint_not_output; auto|].
  split; [apply run_checkpoint_not_output; auto|].
  split; [|apply not_elem_of_nil].
  rewrite <- run_checkpoint_join. intros Heq. apply Hnew. rewrite Heq.
  apply list_elem_of_fmap. exists r. auto.
Qed.

(** The loop of the Category node, once it has returned: the files it has
    changed are those of its runs, and every entry of the category went
    through its run, provided the runs have checkpoints of their own. *)
Lemma execute_runs_recorded E benchmark category kwargs matrix :
  dict_contains "no_exec" kwargs = false ->
  forall runs w yielded w',
    Forall is_dict (List.filter (in_category category) matrix) ->
    execute_runs E benchmark category kwargs matrix runs w = Ok (yielded, w') ->
    cwd w' = cwd w /\
    (forall path,
        (forall r, r ∈ yielded.1 -> path ∉ run_files (cwd w) r) ->
        fs w' !! path = fs w !! path) /\
    (NoDup (map (run_checkpoint (cwd w)) yielded.1) ->
     Forall2 (fun execution run_dir =>
                exists p doc,
                  run_extracted E benchmark category (cwd w) (fs w')
                                execution run_dir p doc)
             (List.filter (in_category category) matrix) yielded.1).
Proof.
  intros Hno.
  induction matrix as [|execution matrix IH]; intros runs w yielded w' Hdicts H;
    simpl in H, Hdicts |- *.
  - injection H as <- <-. simpl. repeat split; auto; constructor.
  - destruct (in_category category execution) eqn:Hcat;
      [|eapply IH; eauto].
    inversion Hdicts as [|? ? Hdict Hrest]; subst.
    apply bind_Ok in H as (run_dir & w1 & Hdir & H).
    apply new_run_dir_inv in Hdir as (_ & _ & Hcwd1 & _ & Hfs1 & _).
    apply bind_Ok in H as (r & w2 & Hrun & H).
    apply (run_inv _ _ category _ _ _ _ _ _ Hno Hdict Hcat) in Hrun
      as (Hcwd2 & Hframe2 & p & doc & Hrec).
    apply bind_Ok in H as (rest & w3 & Hloop & [= <- <-]).
    apply (IH _ _ _ _ Hrest) in Hloop as (Hcwd3 & Hframe3 & Hrecs).
    rewrite Hcwd2, Hcwd1 in Hcwd3, Hframe3, Hrecs.
    rewrite Hcwd1 in Hframe2, Hrec. rewrite Hfs1 in Hframe2.
    cbn [fst snd]. split; [exact Hcwd3|]. split.
    + intros path Hpath.
      rewrite Hframe3 by (intros r' Hr'; apply Hpath; right; exact Hr').
      apply Hframe2, Hpath. left.
    + intros Hnd. cbn [map] in Hnd. apply NoDup_cons in Hnd as [Hnew Hnd].
      constructor; [|apply Hrecs, Hnd].
      exists p, doc. eapply run_extracted_files; [|exact Hrec].
      apply Hframe3. apply run_checkpoint_apart, Hnew.
Qed.

(** What the aggregation keeps of the checkpoint of a run. *)
Lemma gather_run_inv run_dir data out :
  gather_run run_dir (VDict data) = Ok out ->
  dict_get "id" out = Some (VStr run_dir) /\
  forall k, k <> "category" -> k <> "command" -> k <> "id" -> k <> "metrics" ->
            dict_get k out = dict_get k data.
Proof.
  unfold gather_run. intros H.
  apply res_bind_Ok in H as (items & _ & H).
  apply res_bind_Ok in H as (gathered & _ & [= <-]). split.
  - rewrite dict_get_set_ne by discriminate. apply dict_get_set_eq.
  - intros k H1 H2 H3 H4.
    rewrite !dict_get_set_ne by auto. rewrite !dict_get_pop_ne by auto.
    reflexivity.
Qed.

Lemma runs_are_recorded E benchmark category dir files files' :
  forall matching run_dirs entries w,
    cwd w = dir -> fs w = files ->
    (forall r, r ∈ run_dirs ->
               files' !! run_checkpoint dir r = files !! run_checkpoint dir r) ->
    Forall2 (fun execution run_dir =>
               exists p doc,
                 run_extracted E benchmark category dir files
                               execution run_dir p doc)
            matching run_dirs ->
    Forall2 (gathered_from w) run_dirs entries ->
    Forall3 (run_recorded E benchmark category dir files')
            matching run_dirs entries.
Proof.
  intros matching run_dirs entries w Hcwd Hfs Hsame Hruns. revert entries Hsame.
  induction Hruns as [|execution r matching run_dirs (p & doc & Hrun) _ IH];
    intros entries Hsame Hall.
  - inversion Hall; subst. constructor.
  - inversion Hall as [|? entry ? rest (doc' & Hdoc' & Hentry) Hrest]; subst.
    constructor.
    + assert (Hfile : fs w !! run_checkpoint (cwd w) r
                      = Some (FYaml (VDict doc))).
      { destruct Hrun as (? & ? & ? & ? & ? & ? & ? & H). apply H. }
      unfold resolve in Hdoc'. fold (run_checkpoint (cwd w) r) in Hdoc'.
      rewrite Hfile in Hdoc'. injection Hdoc' as <-.
      destruct (gather_run_inv _ _ _ Hentry) as [Hid Hkeep].
      exists p, doc. split; [|split; [exact Hentry|split; [|exact Hid]]].
      * eapply run_extracted_files; [|exact Hrun]. apply Hsame. left.
      * rewrite Hkeep by discriminate.
        destruct Hrun as (? & ? & ? & ? & ? & ? & ? & H). apply H.
    + apply IH; [|exact Hrest]. intros r' Hr'. apply Hsame. right. exact Hr'.
Qed.

(** The Category node in its default mode, once it has returned: every
    entry of the category went through its run, and [metrics.json] lists
    the documents of the runs. *)
Lemma category_runs_are_recorded E benchmark category kwargs w report w' :
  dict_contains "no_exec" kwargs = false ->
  let matching :=
    List.filter (in_category category) (execution_matrix benchmark) in
  let run_dirs := fresh_run_dirs E (uuids w) matching in
  Forall is_dict matching ->
  NoDup (resolve w YAML_REPORT_FILE :: map (run_checkpoint (cwd w)) run_dirs) ->
  BenchmarkCategoryDriver_call E benchmark category kwargs w = Ok (report, w') ->
  exists entries,
    recorded_children report = Some (VList (map VStr run_dirs)) /\
    (matching <> [] ->
     fs w' !! resolve w JSON_METRICS_FILE
     = Some (FText (json_array E entries))) /\
    Forall3 (run_recorded E benchmark category (cwd w) (fs w'))
            matching run_dirs entries.
Proof.
  intros Hno matching run_dirs Hdicts Hnd H.
  destruct (BenchmarkCategoryDriver_call_execute _ _ _ _ _ _ _ Hno H)
    as [Hchildren _].
  destruct (execute_files _ _ _ _ _ _ _ Hno H)
    as (wg & entries & Hcwdg & _ & Hall & _ & Hfs & runs & Hloop).
  fold matching in Hchildren, Hall, Hfs, Hloop.
  fold run_dirs in Hchildren, Hall, Hfs, Hloop.
  apply NoDup_cons in Hnd as [Hroot Hnd].
  destruct (execute_runs_recorded E benchmark category kwargs
              (execution_matrix benchmark) Hno _ _ _ _ Hdicts Hloop)
    as (_ & _ & Hrecs).
  specialize (Hrecs Hnd). cbn [fst] in Hrecs.
  exists entries. split; [exact Hchildren|]. split.
  - intros Hne. rewrite Hfs.
    rewrite lookup_insert_ne by apply kept_by_copy_json.
    destruct run_dirs as [|r rs] eqn:Hdirs; [|apply lookup_insert_eq].
    destruct matching; [congruence|discriminate Hdirs].
  - eapply (runs_are_recorded _ _ _ _ (fs wg) (fs w') _ _ _ wg);
      [exact Hcwdg | reflexivity | | exact Hrecs | exact Hall].
    intros r Hr. rewrite Hfs.
    rewrite lookup_insert_ne.
    2:{ intros Heq. apply Hroot. rewrite Heq.
        apply list_elem_of_fmap. exists r. auto. }
    destruct run_dirs as [|r0 rs]; [reflexivity|].
    apply lookup_insert_ne. intros Heq. symmetry in Heq.
    exact (run_checkpoint_not_metrics _ _ Heq).
Qed.

Lemma extracts_functional outdir metas files exts : forall ms ms',
  Forall2 (extracts outdir metas files) exts ms ->
  Forall2 (extracts outdir metas files) exts ms' ->
  ms = ms'.
Proof.
  induction exts as [|e exts IH]; intros ms ms' H H'.
  - inversion H; inversion H'; reflexivity.
  - inversion H as [|? m ? rest [Hm _] Hrest]; subst.
    inversion H' as [|? m' ? rest' [Hm' _] Hrest']; subst.
    rewrite Hm in Hm'. injection Hm' as <-. f_equal. apply IH; assumption.
Qed.

(** One turn of the loop of the Category node, whatever the exit status
    of the command: the report is stored, the extractors of the category
    are run and their mappings stored with it, and the loop goes on with
    the other entries. *)
Lemma run_goes_on E benchmark category kwargs execution nm env command w p x
      mappings :
  dict_contains "no_exec" kwargs = false ->
  is_dict execution ->
  in_category category execution = true ->
  run_name execution = Ok nm ->
  custom_environment E execution = Ok env ->
  dict_get "command" execution = Some command ->
  let run_dir := osp_join nm (uuid4 E (uuids w)) in
  let wd := with_cwd (osp_join (cwd w) run_dir) (drawn w) in
  Popen E (List.length (spawned w)) command env (cwd wd) (opened wd) = Some p ->
  let we := executed E benchmark execution kwargs wd command env p in
  dict_get category (metrics_extractors benchmark) = Some x ->
  extracted_by x (cwd wd) (default VNone (dict_get "metas" execution)) (fs we)
               mappings ->
  may_hold_metrics category execution ->
  exists doc,
    dict_get "exit_status" doc = Some (recorded_status execution p) /\
    category_list category (metrics_of doc) =
      category_list category (metrics_of execution) ++ map VDict mappings /\
    forall rest runs,
      execute_runs E benchmark category kwargs (execution :: rest) runs w =
      (let* yielded :=
         execute_runs E benchmark category kwargs rest
                      (runs_append category run_dir runs) in
       ret (run_dir :: yielded.1, yielded.2))
        (with_cwd (cwd w) (checkpointed doc we)).
Proof.
  intros Hno Hdict Hcat Hname Henv Hcommand run_dir wd Hp we Hx Hby Hmay.
  destruct (executed_report E benchmark execution kwargs wd command env p
              category Hno Hdict Hcat)
    as (Hdoc & Hcategory & Hmetas & Hmetrics & Hstatus).
  fold we in Hdoc.
  apply extracted_by_list in Hby.
  assert (Hall : Forall2
            (extracts (cwd we)
               (default VNone
                  (dict_get "metas" (execution_report E benchmark execution wd p)))
               (fs we))
            (extractor_list x) mappings)
    by (rewrite Hmetas; exact Hby).
  assert (Hmay' : may_hold_metrics category
                    (execution_report E benchmark execution wd p))
    by (unfold may_hold_metrics; rewrite Hmetrics; exact Hmay).
  destruct (MetricsDriver_call_Ok E benchmark kwargs we _ category x mappings
              Hdoc Hcategory Hx Hall Hmay') as [doc Hcall].
  rewrite Hno in Hcall.
  destruct (MetricsDriver_call_inv _ _ _ _ _ _ _ Hdoc Hcall)
    as (cat & x' & mappings' & Hcat' & Hx' & Hall' & Hlist & Hkeep & _).
  rewrite Hcategory in Hcat'. injection Hcat' as <-.
  rewrite Hx in Hx'. injection Hx' as <-.
  rewrite <- (extracts_functional _ _ _ _ _ _ Hall Hall') in Hlist.
  exists doc. split; [|split].
  - rewrite Hkeep by discriminate. exact Hstatus.
  - rewrite Hlist. unfold metrics_of. rewrite Hmetrics. reflexivity.
  - intros rest runs.
    rewrite (execute_runs_step E benchmark category kwargs execution rest runs
               w nm env command p Hcat Hname Henv Hcommand Hp).
    fold run_dir wd we. rewrite Hcall. reflexivity.
Qed.

(** C7 (as amended): whatever the exit status of the spawned command,
    zero or not, [ExecutionDriver] does not raise: it returns a report
    and stores it in the checkpoint of the run, and the report records the
    status under [exit_status], unless the entry has an [exit_status] of
    its own, which is then what the report holds.  The loop of the
    Category node goes on in either case: the extractors of the category
    are run in the run directory, where the output of the command is,
    their mappings are stored with the report, and the loop turns to the
    other entries.  When the Category node returns, every entry of its
    category has been through such a run, and [metrics.json] lists, in the
    order of the runs, the documents made of their checkpoints, each with
    the recorded status and the run identity (the runs are supposed to
    have checkpoints of their own). *)
Theorem exit_status_is_recorded_and_not_fatal E benchmark kwargs :
  (forall execution env command w p,
      is_dict execution ->
      custom_environment E execution = Ok env ->
      dict_get "command" execution = Some command ->
      Popen E (List.length (spawned w)) command env (cwd w) (opened w)
      = Some p ->
      exists report w',
        ExecutionDriver_call E benchmark execution kwargs w
        = Ok (report, w') /\
        dict_get "exit_status" report = Some (recorded_status execution p) /\
        (dict_contains "no_exec" kwargs = false ->
         fs w' !! resolve w YAML_REPORT_FILE = Some (FYaml (VDict report)))) /\
  (forall category execution nm env command w p x mappings,
      dict_contains "no_exec" kwargs = false ->
      is_dict execution ->
      in_category category execution = true ->
      run_name execution = Ok nm ->
      custom_environment E execution = Ok env ->
      dict_get "command" execution = Some command ->
      let run_dir := osp_join nm (uuid4 E (uuids w)) in
      let wd := with_cwd (osp_join (cwd w) run_dir) (drawn w) in
      Popen E (List.length (spawned w)) command env (cwd wd) (opened wd)
      = Some p ->
      let we := executed E benchmark execution kwargs wd command env p in
      dict_get category (metrics_extractors benchmark) = Some x ->
      extracted_by x (cwd wd) (default VNone (dict_get "metas" execution))
                   (fs we) mappings ->
      may_hold_metrics category execution ->
      exists doc,
        dict_get "exit_status" doc = Some (recorded_status execution p) /\
        category_list category (metrics_of doc) =
          category_list category (metrics_of execution) ++ map VDict mappings /\
        forall rest runs,
          execute_runs E benchmark category kwargs (execution :: rest) runs w =
          (let* yielded :=
             execute_runs E benchmark category kwargs rest
                          (runs_append category run_dir runs) in
           ret (run_dir :: yielded.1, yielded.2))
            (with_cwd (cwd w) (checkpointed doc we))) /\
  (forall category w report w',
      dict_contains "no_exec" kwargs = false ->
      let matching :=
        List.filter (in_category category) (execution_matrix benchmark) in
      let run_dirs := fresh_run_dirs E (uuids w) matching in
      Forall is_dict matching ->
      NoDup (resolve w YAML_REPORT_FILE
             :: map (run_checkpoint (cwd w)) run_dirs) ->
      BenchmarkCategoryDriver_call E benchmark category kwargs w
      = Ok (report, w') ->
      exists entries,
        recorded_children report = Some (VList (map VStr run_dirs)) /\
        (matching <> [] ->
         fs w' !! resolve w JSON_METRICS_FILE
         = Some (FText (json_array E entries))) /\
        Forall3 (run_recorded E benchmark category (cwd w) (fs w'))
                matching run_dirs entries).
Proof.
  split; [|split].
  - intros execution env command w p Hdict Henv Hcommand Hp.
    eexists _, _. split; [|split].
    + rewrite ExecutionDriver_call_eval, Henv, Hcommand, Hp. reflexivity.
    + unfold recorded_status.
      rewrite execution_report_get by (auto; discriminate).
      destruct (dict_get "exit_status" execution); reflexivity.
    + intros Hno. unfold executed, resolve. rewrite Hno. simpl.
      apply lookup_insert_eq.
  - intros category execution nm env command w p x mappings.
    apply run_goes_on.
  - intros category w report w'. apply category_runs_are_recorded.
Qed.

(** The two entries of a category whose commands exit with status 3. *)
Lemma exit_status_is_recorded_and_not_fatal_witness :
  match BenchmarkCategoryDriver_call Scenario.env Cases.twice "foo" []
          (with_cwd "/camp/foo" Scenario.initial) with
  | Ok (report, w') =>
      exists first second,
        fs w' !! "/camp/foo/metrics.json" =
          Some (FText (json_array Scenario.env [first; second])) /\
        dict_get "exit_status" first = Some (VInt 3) /\
        dict_get "id" first = Some (VStr "uuid-0") /\
        dict_get "exit_status" second = Some (VInt 3) /\
        dict_get "id" second = Some (VStr "uuid-1")
  | Raise _ => False
  end.
Proof.
  destruct (BenchmarkCategoryDriver_call Scenario.env Cases.twice "foo" []
              (with_cwd "/camp/foo" Scenario.initial))
    as [[report w']|e] eqn:Hcall; [|vm_compute in Hcall; discriminate Hcall].
  destruct (proj2 (proj2 (exit_status_is_recorded_and_not_fatal
                            Scenario.env Cases.twice []))
                  "foo" (with_cwd "/camp/foo" Scenario.initial) report w'
                  eq_refl) as (entries & _ & Hjson & Hrecs);
    [| |exact Hcall|].
  - repeat (constructor; [apply (bool_decide_unpack _); vm_compute; exact I|]).
    constructor.
  - apply (bool_decide_unpack _). vm_compute. exact I.
  - inversion Hrecs as [|? ? first ? ? rest Hfirst Hrest]; subst.
    inversion Hrest as [|? ? second ? ? rest' Hsecond Hnil]; subst.
    inversion Hnil; subst.
    exists first, second. split; [apply Hjson; discriminate|].
    destruct Hfirst as (p & doc & Hrun & _ & Hstatus & Hid).
    destruct Hsecond as (p' & doc' & Hrun' & _ & Hstatus' & Hid').
    destruct Hrun as (? & ? & ? & ? & ? & ? & ? & _ & _ & [= <-] & _).
    destruct Hrun' as (? & ? & ? & ? & ? & ? & ? & _ & _ & [= <-] & _).
    auto.
Defined.

(** C7 (the claim as stated fails): the entry of this benchmark has an
    [exit_status] of its own, 0; its command exits with status 3, as every
    command does in these surroundings, and the Category node returns;
    but the checkpoint of the run and its document in [metrics.json]
    record the status 0 of the entry. *)
Lemma entry_exit_status_hides_the_status_of_the_command :
  (forall n command env dir files,
      exists p, Popen Scenario.env n command env dir files = Some p /\
                exit_status p = 3) /\
  match BenchmarkCategoryDriver_call Scenario.env Cases.masked "foo" []
          (with_cwd "/camp/foo" Scenario.initial) with
  | Ok (report, w') =>
      exists doc entry,
        fs w' !! "/camp/foo/uuid-0/hpcbench.yaml" = Some (FYaml (VDict doc)) /\
        dict_get "exit_status" doc = Some (VInt 0) /\
        gather_run "uuid-0" (VDict doc) = Ok entry /\
        fs w' !! "/camp/foo/metrics.json" =
          Some (FText (json_array Scenario.env [entry])) /\
        dict_get "exit_status" entry = Some (VInt 0)
  | Raise _ => False
  end.
Proof.
  split; [intros; eexists; split; reflexivity|].
  destruct (BenchmarkCategoryDriver_call Scenario.env Cases.masked "foo" []
              (with_cwd "/camp/foo" Scenario.initial))
    as [[report w']|e] eqn:Hcall; [|vm_compute in Hcall; discriminate Hcall].
  vm_compute in Hcall. injection Hcall as _ <-.
  eexists _, _. split; [reflexivity|]. split; [reflexivity|].
  split; [reflexivity|]. split; reflexivity.
Qed.
